(** * Phil-IRI forms: placement, roster ordering and template population

    A shallow embedding of [src/philiri_forms_sys/app.py].

    Python integers are unbounded, so they are [Z].  Text is modelled as
    [string] (sequences of 8-bit characters); [upper], [lower] and [strip]
    act on the ASCII letters and the ASCII white space, which is what the
    Python methods do on ASCII text.  Where a statement is about text
    outside ASCII, text is a list of code points and the Unicode tables of
    the Python runtime are parameters. *)

From Stdlib Require Import ZArith NArith String Ascii List Lia Bool.
From Stdlib Require Import DecimalString DecimalZ.
From Stdlib Require Import Sorting.Permutation Sorting.Sorted.
From stdpp Require Import base tactics option list sorting.

Local Open Scope string_scope.
Local Open Scope Z_scope.

(** ** Configuration constants *)

Definition ITEMS_TOTAL : Z := 40.
Definition DISCONTINUE_THRESHOLD : Z := 28.
Definition ONE_BELOW_THRESHOLD : Z := 16.

(** ** Python primitives used by the logic helpers *)

(** [str(n)] for an integer. *)
Definition py_str_int (n : Z) : string := NilZero.string_of_int (Z.to_int n).

(** [x or 0] for a nullable integer column. *)
Definition or_zero (x : option Z) : Z :=
  match x with
  | Some v => if v =? 0 then 0 else v
  | None => 0
  end.

(** ** Logic helpers *)

Definition clamp (n lo hi : Z) : Z := Z.max lo (Z.min hi n).

(** [int(lit or 0) + int(inf or 0) + int(cri or 0)]; the arguments are the
    nullable integer columns of [Learner]. *)
Definition compute_total (lit inf cri : option Z) : Z :=
  or_zero lit + or_zero inf + or_zero cri.

(** The value bound to [start_level] in [starting_point_for]. *)
Definition start_level (grade total : Z) : Z :=
  let base := Z.max 1 (grade - 1) in
  Z.max 1 (if ONE_BELOW_THRESHOLD <=? total then base - 1 else base - 2).

Definition starting_point_for (grade total : Z) : string :=
  if DISCONTINUE_THRESHOLD <=? total then "DISCONTINUE"
  else ("Grade " ++ py_str_int (start_level grade total))%string.

(** Reading back the number of a ["Grade N"] label. *)
Fixpoint strip_prefix (p s : string) : option string :=
  match p, s with
  | EmptyString, _ => Some s
  | String a p', String b s' => if Ascii.eqb a b then strip_prefix p' s' else None
  | String _ _, EmptyString => None
  end.

Definition grade_number (s : string) : option Z :=
  match strip_prefix "Grade " s with
  | Some digits => option_map Z.of_int (NilZero.int_of_string digits)
  | None => None
  end.

(** ** Python values

    [compute_total] carries no annotations and is also handed to the page
    templates, so it can be called with any value.  The values the
    statements range over are [None], integers, booleans and lists. *)
#[warnings="-register-all"] Inductive pyval :=
| PNone
| PInt (n : Z)
| PBool (b : bool)
| PList (items : list pyval).

(** What a call that can raise [TypeError] ends in. *)
Inductive outcome (A : Type) :=
| Returns (a : A)
| RaisesTypeError.
Arguments Returns {A} a.
Arguments RaisesTypeError {A}.

(** [bool(v)] *)
Definition py_truth (v : pyval) : bool :=
  match v with
  | PNone => false
  | PInt n => negb (n =? 0)
  | PBool b => b
  | PList items => match items with [] => false | _ :: _ => true end
  end.

(** [v or d] *)
Definition py_or (v d : pyval) : pyval := if py_truth v then v else d.

(** [int(v)]: the value of an integer, 0 or 1 for a boolean; [None] and
    lists are refused with [TypeError]. *)
Definition py_int (v : pyval) : outcome Z :=
  match v with
  | PInt n => Returns n
  | PBool b => Returns (if b then 1 else 0)
  | PNone => RaisesTypeError
  | PList _ => RaisesTypeError
  end.

(** [compute_total] on any three values; the conversions run from left to
    right and the first one that raises ends the call. *)
Definition compute_total_values (lit inf cri : pyval) : outcome Z :=
  match py_int (py_or lit (PInt 0)) with
  | RaisesTypeError => RaisesTypeError
  | Returns a =>
      match py_int (py_or inf (PInt 0)) with
      | RaisesTypeError => RaisesTypeError
      | Returns b =>
          match py_int (py_or cri (PInt 0)) with
          | RaisesTypeError => RaisesTypeError
          | Returns c => Returns (a + b + c)
          end
      end
  end.

(** The value held by a nullable integer column. *)
Definition column_value (x : option Z) : pyval :=
  match x with
  | Some n => PInt n
  | None => PNone
  end.

(** ** Python string methods on ASCII text *)

Definition is_space (c : ascii) : bool :=
  let n := nat_of_ascii c in
  ((9 <=? n) && (n <=? 13) || (28 <=? n) && (n <=? 32))%nat.

Definition char_upper (c : ascii) : ascii :=
  let n := nat_of_ascii c in
  if ((97 <=? n) && (n <=? 122))%nat then ascii_of_nat (n - 32) else c.

Definition char_lower (c : ascii) : ascii :=
  let n := nat_of_ascii c in
  if ((65 <=? n) && (n <=? 90))%nat then ascii_of_nat (n + 32) else c.

Fixpoint map_string (f : ascii -> ascii) (s : string) : string :=
  match s with
  | EmptyString => EmptyString
  | String c s' => String (f c) (map_string f s')
  end.

Definition upper : string -> string := map_string char_upper.
Definition lower : string -> string := map_string char_lower.

Fixpoint lstrip (s : string) : string :=
  match s with
  | EmptyString => EmptyString
  | String c s' => if is_space c then lstrip s' else s
  end.

Fixpoint rstrip (s : string) : string :=
  match s with
  | EmptyString => EmptyString
  | String c s' =>
      match rstrip s' with
      | EmptyString => if is_space c then EmptyString else String c EmptyString
      | r => String c r
      end
  end.

Definition strip (s : string) : string := rstrip (lstrip s).

(** [s.startswith(p)] *)
Definition startswith (s p : string) : bool := String.prefix p s.

(** [p in s] *)
Fixpoint contains (p s : string) : bool :=
  String.prefix p s ||
  match s with
  | EmptyString => false
  | String _ s' => contains p s'
  end.

(** [sep.join(l)] *)
Definition join (sep : string) (l : list string) : string := String.concat sep l.

(** [s or ""] for a value that is a string or [None]. *)
Definition or_empty (s : option string) : string :=
  match s with
  | Some v => v
  | None => ""
  end.

(** ** Gender bucket *)

Definition _gender_bucket (g : option string) : Z :=
  let g := upper (strip (or_empty g)) in
  if startswith g "M" then 0
  else if startswith g "F" then 1
  else 2.

(** ** Text outside ASCII

    [str.upper()] and [str.strip()] work code point by code point and
    consult the Unicode tables of the runtime: [to_upper c] stands for the
    code points [upper()] puts for the code point [c] (one to three of
    them), [is_whitespace c] tells whether [strip()] removes [c].  The
    functions below take the two tables as parameters. *)
Section Unicode.
Variable to_upper : N -> list N.
Variable is_whitespace : N -> bool.

(** [s.upper()] *)
Definition upper_cp (s : list N) : list N := flat_map to_upper s.

Fixpoint lstrip_cp (s : list N) : list N :=
  match s with
  | [] => []
  | c :: s' => if is_whitespace c then lstrip_cp s' else s
  end.

Fixpoint rstrip_cp (s : list N) : list N :=
  match s with
  | [] => []
  | c :: s' =>
      match rstrip_cp s' with
      | [] => if is_whitespace c then [] else [c]
      | r => c :: r
      end
  end.

(** [s.strip()] *)
Definition strip_cp (s : list N) : list N := rstrip_cp (lstrip_cp s).

(** [s.startswith(p)] for a [p] of one character. *)
Definition starts_with_cp (s : list N) (p : N) : bool :=
  match s with
  | c :: _ => (c =? p)%N
  | [] => false
  end.

(** [g or ""] *)
Definition or_empty_cp (g : option (list N)) : list N :=
  match g with
  | Some v => v
  | None => []
  end.

(** [_gender_bucket] on text given as code points; 77 is ["M"] and 70 is
    ["F"]. *)
Definition _gender_bucket_cp (g : option (list N)) : Z :=
  let g := upper_cp (strip_cp (or_empty_cp g)) in
  if starts_with_cp g 77%N then 0
  else if starts_with_cp g 70%N then 1
  else 2.
End Unicode.

(** The code points of ASCII text, and the test for text being ASCII. *)
Fixpoint code_points (s : string) : list N :=
  match s with
  | EmptyString => []
  | String c s' => N_of_ascii c :: code_points s'
  end.

Fixpoint is_ascii (s : string) : bool :=
  match s with
  | EmptyString => true
  | String c s' => (N_of_ascii c <? 128)%N && is_ascii s'
  end.

(** ** Roster rows and their order *)

(** The dictionaries appended to [rows] by the roster routes: keys
    ["name"], ["gender"], ["score"], ["start"].  The two text values may be
    [None], which the code guards with [or ""]. *)
Module Row.
Record t := mk { name : option string; gender : option string;
                 score : Z; start : string }.
End Row.

(** The tuple built by the [key] lambda of [_sort_rows]. *)
Definition sort_key (r : Row.t) : Z * string :=
  (_gender_bucket (Row.gender r), upper (strip (or_empty (Row.name r)))).

(** Python's [<] on such tuples: the first components decide unless they
    are equal; strings compare by code point. *)
Definition key_ltb (a b : Z * string) : bool :=
  if fst a =? fst b then String.ltb (snd a) (snd b) else fst a <? fst b.

(** [sorted(l, key=key)]: a stable sort that only uses [<] on keys.  Each
    element is put in front of the first later element whose key is not
    smaller than its own. *)
Section PySorted.
Context {A K : Type} (key : A -> K) (ltb : K -> K -> bool).

Fixpoint insert_by (x : A) (l : list A) : list A :=
  match l with
  | [] => [x]
  | y :: l' => if ltb (key y) (key x) then y :: insert_by x l' else x :: l
  end.

Definition py_sorted (l : list A) : list A := foldr insert_by [] l.
End PySorted.

Definition _sort_rows (rows : list Row.t) : list Row.t :=
  py_sorted sort_key key_ltb rows.

(** ** The structural document

    The part of python-docx the helpers rely on: a document holds a
    sequence of tables, a table a grid of cells (with its declared number
    of grid columns), a cell a sequence of paragraphs, a paragraph its
    spacing, alignment and runs, a run its text and character formatting.
    A row is reached as [tbl.rows[r]] and holds its own cells; [tbl.cell]
    goes through the list of all cells.  Lengths are in EMU, so [Pt(0)] is
    [0]. *)

Inductive exn := IndexError.

Inductive result (A : Type) :=
| Ok (a : A)
| Raise (e : exn).
Arguments Ok {A} a.
Arguments Raise {A} e.

Definition bind {A B} (m : result A) (k : A -> result B) : result B :=
  match m with
  | Ok a => k a
  | Raise e => Raise e
  end.

Notation "x <- m ;; k" := (bind m (fun x => k))
  (at level 100, m at next level, right associativity).

(** [try: ... except Exception: return d] *)
Definition try_except {A} (m : result A) (d : A) : A :=
  match m with
  | Ok a => a
  | Raise _ => d
  end.

Inductive alignment := WD_LEFT | WD_CENTER | WD_RIGHT | WD_JUSTIFY.

(** Line spacing: a multiple of the single line height, in 240ths as stored
    in the document, or an exact length. *)
Inductive spacing := Lines (w_line : Z) | Exactly (emu : Z).

Record run := mk_run {
  run_text : string;
  run_bold : option bool;
  run_underline : option bool;
  run_color : option string }.

Record paragraph := mk_paragraph {
  space_before : option Z;
  space_after : option Z;
  line_spacing : option spacing;
  p_alignment : option alignment;
  runs : list run }.

(** [cell_props] stands for the cell's own properties (borders, shading,
    width), which none of the helpers change. *)
Record cell := mk_cell {
  cell_props : string;
  paragraphs : list paragraph }.

Record table := mk_table {
  tbl_columns : nat;
  tbl_rows : list (list cell) }.

Abbreviation document := (list table).

Definition newline : string := String (ascii_of_nat 10) "".

Definition paragraph_text (p : paragraph) : string :=
  String.concat "" (map run_text (runs p)).

(** [cell.text] *)
Definition cell_text (c : cell) : string :=
  String.concat newline (map paragraph_text (paragraphs c)).

(** [l[i]] *)
Definition index {A} (l : list A) (i : nat) : result A :=
  match l !! i with
  | Some x => Ok x
  | None => Raise IndexError
  end.

(** [tbl._cells]: the cells of the table, row after row. *)
Definition table_cells (t : table) : list cell := concat (tbl_rows t).

(** [cell_idx = col_idx + (row_idx * self._column_count)] *)
Definition cell_idx (column_count row_idx col_idx : nat) : nat :=
  (col_idx + row_idx * column_count)%nat.

(** [tbl.cell(r, c)]: python-docx takes the cell from the list of all
    cells, at the position computed from the number of grid columns.  On a
    table whose rows hold one cell per grid column this is the cell in row
    [r], column [c]. *)
Definition tbl_cell (t : table) (r c : nat) : result cell :=
  index (table_cells t) (cell_idx (tbl_columns t) r c).

(** A change of the [i]-th cell of the list of all cells, in the row that
    holds it. *)
Fixpoint alter_cells (f : cell -> cell) (i : nat) (rows : list (list cell))
  : list (list cell) :=
  match rows with
  | [] => []
  | row :: rows' =>
      if (i <? length row)%nat then alter f i row :: rows'
      else row :: alter_cells f (i - length row) rows'
  end.

(** An in-place change of the cell reached through [tbl.cell(r, c)]. *)
Definition with_tbl_cell (r c : nat) (f : cell -> cell) (t : table)
  : result table :=
  _ <- tbl_cell t r c ;;
  Ok (mk_table (tbl_columns t)
        (alter_cells f (cell_idx (tbl_columns t) r c) (tbl_rows t))).

(** An in-place change of the cell reached through
    [tbl.rows[r].cells[c]]. *)
Definition with_cell (r c : nat) (f : cell -> cell) (t : table) : result table :=
  row <- index (tbl_rows t) r ;;
  x <- index row c ;;
  Ok (mk_table (tbl_columns t) (<[r := <[c := f x]> row]> (tbl_rows t))).

(** An in-place change of the table [doc.tables[i]]. *)
Definition with_table (i : nat) (f : table -> result table) (doc : document)
  : result document :=
  t <- index doc i ;;
  t' <- f t ;;
  Ok (<[i := t']> doc).

(** [tbl.add_row()]: one cell per grid column, each with one empty
    paragraph. *)
Definition empty_paragraph : paragraph := mk_paragraph None None None None [].
Definition empty_cell : cell := mk_cell "" [empty_paragraph].
Definition add_row (t : table) : table :=
  mk_table (tbl_columns t) (tbl_rows t ++ [replicate (tbl_columns t) empty_cell]).

(** ** Tight paragraph helpers *)

Definition _set_p_no_space (p : paragraph) : paragraph :=
  mk_paragraph (Some 0) (Some 0) (Some (Lines 240)) (p_alignment p) (runs p).

Definition _set_cell_paras_no_space (c : cell) : cell :=
  mk_cell (cell_props c) (map _set_p_no_space (paragraphs c)).

(** ** Helpers that write into template tables *)

(** [cell.text = ""] keeps the cell's properties and replaces its content
    by one paragraph holding one empty run; the helper then makes that
    paragraph tight, aligns it and adds the run that carries the text. *)
Definition _cell_set_text (text : option string)
    (bold underline : bool) (align : option alignment) (upper_ : bool)
    (c : cell) : cell :=
  let run_text := or_empty text in
  let run_text := if upper_ then upper run_text else run_text in
  let r := mk_run run_text (Some bold) (if underline then Some true else None) None in
  let p := _set_p_no_space empty_paragraph in
  let p := mk_paragraph (space_before p) (space_after p) (line_spacing p)
             (match align with Some a => Some a | None => p_alignment p end)
             [mk_run "" None None None; r] in
  mk_cell (cell_props c) [p].

Definition _norm (s : string) : string := lower (strip s).

(** The body of the [try] block of [_looks_like_meta_table]. *)
Definition meta_table_probe (tbl : table) : result bool :=
  if ((3 <=? length (tbl_rows tbl)) && (4 <=? tbl_columns tbl))%nat then
    c00 <- tbl_cell tbl 0 0 ;;
    let a := _norm (cell_text c00) in
    c02 <- tbl_cell tbl 0 2 ;;
    let b := _norm (cell_text c02) in
    Ok ((startswith a "teacher" && startswith b "grade")
        || (startswith a "guro" && startswith b "antas"))
  else Ok false.

Definition _looks_like_meta_table (tbl : table) : bool :=
  try_except (meta_table_probe tbl) false.

(** The body of the [try] block of [_looks_like_results_table]. *)
Definition results_table_probe (tbl : table) : result bool :=
  row0 <- index (tbl_rows tbl) 0 ;;
  let hdr := join " " (map (fun c => upper (strip (cell_text c))) row0) in
  let has_name := contains "NAME" hdr || contains "PANGALAN" hdr in
  let has_gender := contains "GENDER" hdr || contains "KASARIAN" hdr in
  let has_score := contains "SCORE" hdr || contains "MARKA" hdr in
  Ok (has_name && has_gender && has_score).

Definition _looks_like_results_table (tbl : table) : bool :=
  try_except (results_table_probe tbl) false.

(** The class header fields handed to the builders ([cls_dict]). *)
Module ClsDict.
Record t := mk { teacher : option string; school : option string;
                 grade : Z; section : option string;
                 date_text : option string }.
End ClsDict.

(** [x is None], and the truth value of a table object or [None]. *)
Definition is_none {A} (x : option A) : bool :=
  match x with None => true | Some _ => false end.
Definition truthy {A} (x : option A) : bool := negb (is_none x).

(** The [for t in doc.tables] loop.  A table object is referred to by its
    position in [doc.tables]; [i] is the position of the head of [ts].
    The third component of the result counts the tables the loop body ran
    on, so that the effect of [break] can be stated. *)
Fixpoint scan_tables (ts : list table) (i : nat)
    (meta_tbl results_tbl : option nat) : option nat * option nat * nat :=
  match ts with
  | [] => (meta_tbl, results_tbl, i)
  | t :: ts' =>
      let '(meta_tbl, results_tbl) :=
        if is_none meta_tbl && _looks_like_meta_table t
        then (Some i, results_tbl)
        else if is_none results_tbl && _looks_like_results_table t
        then (meta_tbl, Some i)
        else (meta_tbl, results_tbl) in
      if truthy meta_tbl && truthy results_tbl
      then (meta_tbl, results_tbl, S i)
      else scan_tables ts' (S i) meta_tbl results_tbl
  end.

Definition locate_tables (doc : document) : option nat * option nat * nat :=
  scan_tables doc 0 None None.

(** Lines 201-213: the six value cells, then tight spacing on every cell of
    the table. *)
Definition fill_meta_values (cls_dict : ClsDict.t) (type_of_test_text : string)
    (meta_tbl : table) : result table :=
  let value v := _cell_set_text v false true None true in
  t <- with_tbl_cell 0 1 (value (ClsDict.teacher cls_dict)) meta_tbl ;;
  t <- with_tbl_cell 0 3 (value (Some (py_str_int (ClsDict.grade cls_dict)))) t ;;
  t <- with_tbl_cell 1 1 (value (ClsDict.school cls_dict)) t ;;
  t <- with_tbl_cell 1 3 (value (ClsDict.section cls_dict)) t ;;
  t <- with_tbl_cell 2 1 (value (Some type_of_test_text)) t ;;
  t <- with_tbl_cell 2 3 (value (ClsDict.date_text cls_dict)) t ;;
  Ok (mk_table (tbl_columns t)
        (map (map _set_cell_paras_no_space) (tbl_rows t))).

(** An in-place change of every cell of [tbl.rows[r].cells]. *)
Definition with_row_cells (r : nat) (f : cell -> cell) (t : table) : result table :=
  row <- index (tbl_rows t) r ;;
  Ok (mk_table (tbl_columns t) (<[r := map f row]> (tbl_rows t))).

Definition start_row_index : nat := 1.

(** The [for i, rec in enumerate(rows, start=1)] loop. *)
Fixpoint write_rows (recs : list Row.t) (i : nat) (t : table) : result table :=
  match recs with
  | [] => Ok t
  | rec :: recs' =>
      let k := (start_row_index + (i - 1))%nat in
      t <- with_cell k 0 (_cell_set_text (Some (py_str_int (Z.of_nat i)))
                            false false (Some WD_CENTER) false) t ;;
      t <- with_cell k 1 (_cell_set_text (Row.name rec) false false None true) t ;;
      t <- with_cell k 2 (_cell_set_text (Row.gender rec)
                            false false (Some WD_CENTER) true) t ;;
      t <- with_cell k 3 (_cell_set_text (Some (py_str_int (Row.score rec)))
                            false false (Some WD_CENTER) false) t ;;
      t <- with_cell k 4 (_cell_set_text (Some (Row.start rec))
                            false false (Some WD_CENTER) true) t ;;
      t <- with_row_cells k _set_cell_paras_no_space t ;;
      write_rows recs' (S i) t
  end.

(** Lines 215-237.  The [while] loop adds one row per iteration until the
    table has [needed] rows, that is [needed - len(rows)] times. *)
Definition fill_results_rows (rows : list Row.t) (results_tbl : table)
  : result table :=
  let needed := (start_row_index + Nat.max 1 (length rows))%nat in
  let t := Nat.iter (needed - length (tbl_rows results_tbl)) add_row results_tbl in
  t <- write_rows rows 1 t ;;
  let keep := (start_row_index + length rows)%nat in
  let t := mk_table (tbl_columns t)
             (take keep (tbl_rows t) ++
              map (map (_cell_set_text (Some "") false false None false))
                  (drop keep (tbl_rows t))) in
  with_row_cells 0 _set_cell_paras_no_space t.

Definition _fill_template_tables (doc : document) (cls_dict : ClsDict.t)
    (rows : list Row.t) (type_of_test_text : string) : result (document * bool) :=
  match locate_tables doc with
  | (Some meta_tbl, Some results_tbl, _) =>
      doc <- with_table meta_tbl (fill_meta_values cls_dict type_of_test_text) doc ;;
      doc <- with_table results_tbl (fill_results_rows rows) doc ;;
      Ok (doc, true)
  | _ => Ok (doc, false)
  end.

(** ** Records and roster routes *)

Module Learner.
Record t := mk {
  name : option string; gender : option string;
  took_eng : bool; took_fil : bool;
  eng_literal : option Z; eng_inferential : option Z; eng_critical : option Z;
  fil_literal : option Z; fil_inferential : option Z; fil_critical : option Z }.
End Learner.

(** The loop of [gst_en]; [grade] is [c.grade], [rows] the list built so
    far. *)
Fixpoint gst_en_loop (grade : Z) (learners : list Learner.t) (rows : list Row.t)
  : list Row.t :=
  match learners with
  | [] => rows
  | s :: learners' =>
      if negb (Learner.took_eng s) then gst_en_loop grade learners' rows
      else
        let total := compute_total (Learner.eng_literal s)
                       (Learner.eng_inferential s) (Learner.eng_critical s) in
        let sp := starting_point_for grade total in
        if negb (String.eqb sp "DISCONTINUE")
        then gst_en_loop grade learners'
               (rows ++ [Row.mk (Learner.name s) (Learner.gender s) total sp])
        else gst_en_loop grade learners' rows
  end.

(** The [rows] handed to the [gst_en.html] view. *)
Definition gst_en (grade : Z) (learners : list Learner.t) : list Row.t :=
  _sort_rows (gst_en_loop grade learners []).

(** The loop of [export_gst_en_docx], a copy of the one above. *)
Fixpoint export_gst_en_loop (grade : Z) (learners : list Learner.t)
    (rows : list Row.t) : list Row.t :=
  match learners with
  | [] => rows
  | s :: learners' =>
      if negb (Learner.took_eng s) then export_gst_en_loop grade learners' rows
      else
        let total := compute_total (Learner.eng_literal s)
                       (Learner.eng_inferential s) (Learner.eng_critical s) in
        let sp := starting_point_for grade total in
        if negb (String.eqb sp "DISCONTINUE")
        then export_gst_en_loop grade learners'
               (rows ++ [Row.mk (Learner.name s) (Learner.gender s) total sp])
        else export_gst_en_loop grade learners' rows
  end.

(** The [rows] written by the export: [export_gst_en_docx] sorts its list
    and [_build_gst_docx_from_template] sorts it again before writing. *)
Definition export_gst_en_docx (grade : Z) (learners : list Learner.t)
  : list Row.t :=
  _sort_rows (_sort_rows (export_gst_en_loop grade learners [])).

(** The loop of [gst_fil]: the Filipino sub-scores and [took_fil]. *)
Fixpoint gst_fil_loop (grade : Z) (learners : list Learner.t) (rows : list Row.t)
  : list Row.t :=
  match learners with
  | [] => rows
  | s :: learners' =>
      if negb (Learner.took_fil s) then gst_fil_loop grade learners' rows
      else
        let total := compute_total (Learner.fil_literal s)
                       (Learner.fil_inferential s) (Learner.fil_critical s) in
        let sp := starting_point_for grade total in
        if negb (String.eqb sp "DISCONTINUE")
        then gst_fil_loop grade learners'
               (rows ++ [Row.mk (Learner.name s) (Learner.gender s) total sp])
        else gst_fil_loop grade learners' rows
  end.

(** The [rows] handed to the [gst_fil.html] view. *)
Definition gst_fil (grade : Z) (learners : list Learner.t) : list Row.t :=
  _sort_rows (gst_fil_loop grade learners []).

(** The loop of [export_gst_fil_docx], a copy of the one above. *)
Fixpoint export_gst_fil_loop (grade : Z) (learners : list Learner.t)
    (rows : list Row.t) : list Row.t :=
  match learners with
  | [] => rows
  | s :: learners' =>
      if negb (Learner.took_fil s) then export_gst_fil_loop grade learners' rows
      else
        let total := compute_total (Learner.fil_literal s)
                       (Learner.fil_inferential s) (Learner.fil_critical s) in
        let sp := starting_point_for grade total in
        if negb (String.eqb sp "DISCONTINUE")
        then export_gst_fil_loop grade learners'
               (rows ++ [Row.mk (Learner.name s) (Learner.gender s) total sp])
        else export_gst_fil_loop grade learners' rows
  end.

(** The [rows] written by the Filipino export (sorted by the route, then
    by the builder). *)
Definition export_gst_fil_docx (grade : Z) (learners : list Learner.t)
  : list Row.t :=
  _sort_rows (_sort_rows (export_gst_fil_loop grade learners [])).

(** The [rows] written by the legacy route [export_gst_docx_post], which
    takes them from the request. *)
Definition export_gst_docx_post (rows : list Row.t) : list Row.t :=
  _sort_rows (_sort_rows rows).

(** [x or d] for a value that is a string or [None]. *)
Definition or_default (d : string) (x : option string) : string :=
  match x with
  | Some EmptyString => d
  | Some v => v
  | None => d
  end.

Definition is_male (x : Learner.t) : bool :=
  startswith (upper (or_default "M" (Learner.gender x))) "M".
Definition is_female (x : Learner.t) : bool :=
  startswith (upper (or_default "F" (Learner.gender x))) "F".

Definition split_by_gender (learners : list Learner.t)
  : list Learner.t * list Learner.t :=
  (List.filter is_male learners, List.filter is_female learners).

(** ** Saving learners

    A field of a posted JSON row: absent, [null], or a value.  The text
    fields hold strings, the flags booleans, the sub-scores integers. *)
Inductive field (A : Type) :=
| Missing
| Null
| Val (a : A).
Arguments Missing {A}.
Arguments Null {A}.
Arguments Val {A} a.

(** [r.get(key, d)], [None] standing for [null]. *)
Definition get_or {A} (d : A) (f : field A) : option A :=
  match f with
  | Missing => Some d
  | Null => None
  | Val a => Some a
  end.

Module PostedRow.
Record t := mk {
  name : field string; gender : field string;
  took_eng : field bool; took_fil : field bool;
  eng_literal : field Z; eng_inferential : field Z; eng_critical : field Z;
  fil_literal : field Z; fil_inferential : field Z; fil_critical : field Z }.
End PostedRow.

(** [s[:1]] on ASCII text, where a character is one byte. *)
Definition first_char (s : string) : string :=
  match s with
  | EmptyString => EmptyString
  | String c _ => String c EmptyString
  end.

(** [bool(x)] for a flag that is a boolean or [None]. *)
Definition py_bool (x : option bool) : bool :=
  match x with
  | Some b => b
  | None => false
  end.

(** The [Learner] built from one posted row by [api_learners_save]. *)
Definition posted_learner (r : PostedRow.t) : Learner.t :=
  Learner.mk
    (Some (strip (or_empty (get_or "" (PostedRow.name r)))))
    (Some (upper (first_char (or_default "M" (get_or "M" (PostedRow.gender r))))))
    (py_bool (get_or true (PostedRow.took_eng r)))
    (py_bool (get_or true (PostedRow.took_fil r)))
    (Some (or_zero (get_or 0 (PostedRow.eng_literal r))))
    (Some (or_zero (get_or 0 (PostedRow.eng_inferential r))))
    (Some (or_zero (get_or 0 (PostedRow.eng_critical r))))
    (Some (or_zero (get_or 0 (PostedRow.fil_literal r))))
    (Some (or_zero (get_or 0 (PostedRow.fil_inferential r))))
    (Some (or_zero (get_or 0 (PostedRow.fil_critical r)))).

(** The learners [api_learners_save] stores for the class, in the order of
    the posted rows. *)
Definition api_learners_save (rows : list PostedRow.t) : list Learner.t :=
  map posted_learner rows.

(** ** Document defaults, fallback builder and export builders

    Beside its tables a document holds the paragraph and font settings of
    its ['Normal'] style and its body paragraphs; a body paragraph carries
    the font sizes set on its runs.  [Pt(n)] is [n * 12700] EMU. *)

Definition Pt (n : Z) : Z := n * 12700.

Record style := mk_style {
  font_name : option string;
  east_asia_font : option string;
  font_size : option Z;
  style_space_before : option Z;
  style_space_after : option Z;
  style_line_spacing : option spacing }.

Record body_paragraph := mk_body_paragraph {
  bp_paragraph : paragraph;
  bp_font_sizes : list (option Z) }.

Record docx := mk_docx {
  normal_style : style;
  body : list body_paragraph;
  tables : list table }.

Definition _docx_set_defaults (doc : docx) : docx :=
  mk_docx
    (mk_style (Some "Book Antiqua") (Some "Book Antiqua") (Some (Pt 10))
       (Some 0) (Some 0) (Some (Lines 240)))
    (body doc) (tables doc).

(** [doc.add_paragraph()] made tight, with one bold run of the given size,
    centred. *)
Definition title_paragraph (title : string) (size : Z) : body_paragraph :=
  mk_body_paragraph
    (mk_paragraph (Some 0) (Some 0) (Some (Lines 240)) (Some WD_CENTER)
       [mk_run title (Some true) None None])
    [Some size].

(** The table made by [doc.add_table(rows=n, cols=m)]. *)
Definition new_table (n m : nat) : table :=
  mk_table m (replicate n (replicate m empty_cell)).

Definition fallback_labels : list (string * string) :=
  [("Teacher:", "Grade:"); ("School:", "Section:"); ("Type of Test:", "Date:")].

Definition fallback_vals (cls_dict : ClsDict.t) (type_of_test_text : string)
  : list (option string * option string) :=
  [ (ClsDict.teacher cls_dict, Some (py_str_int (ClsDict.grade cls_dict)));
    (ClsDict.school cls_dict, ClsDict.section cls_dict);
    (Some type_of_test_text, ClsDict.date_text cls_dict) ].

(** The [for r in range(3)] loop of [_fallback_build]; [rs] is the rest of
    the range. *)
Fixpoint fallback_meta_loop (labels : list (string * string))
    (vals : list (option string * option string)) (rs : list nat) (t : table)
  : result table :=
  match rs with
  | [] => Ok t
  | r :: rs' =>
      l <- index labels r ;;
      v <- index vals r ;;
      t <- with_tbl_cell r 0 (_cell_set_text (Some (fst l)) true false None false) t ;;
      t <- with_tbl_cell r 1 (_cell_set_text (fst v) false true None true) t ;;
      t <- with_tbl_cell r 2 (_cell_set_text (Some (snd l)) true false None false) t ;;
      t <- with_tbl_cell r 3 (_cell_set_text (snd v) false true None true) t ;;
      fallback_meta_loop labels vals rs' t
  end.

Definition fallback_headers : list string :=
  ["#"; "NAME"; "GENDER"; "SCORE"; "START LEVEL OF GRADE PASSAGE"].

(** The [for i, h in enumerate(headers)] loop. *)
Fixpoint fallback_header_loop (hs : list string) (i : nat) (rt : table)
  : result table :=
  match hs with
  | [] => Ok rt
  | h :: hs' =>
      rt <- with_cell 0 i
              (_cell_set_text (Some h) true false (Some WD_CENTER) false) rt ;;
      fallback_header_loop hs' (S i) rt
  end.

(** The [for i, rec in enumerate(rows, start=1)] loop: each record goes
    into a row added at the end of the table. *)
Fixpoint fallback_rows_loop (recs : list Row.t) (i : nat) (rt : table)
  : result table :=
  match recs with
  | [] => Ok rt
  | rec :: recs' =>
      let rt := add_row rt in
      let k := (length (tbl_rows rt) - 1)%nat in
      rt <- with_cell k 0 (_cell_set_text (Some (py_str_int (Z.of_nat i)))
                             false false (Some WD_CENTER) false) rt ;;
      rt <- with_cell k 1 (_cell_set_text (Row.name rec) false false None true) rt ;;
      rt <- with_cell k 2 (_cell_set_text (Row.gender rec)
                             false false (Some WD_CENTER) true) rt ;;
      rt <- with_cell k 3 (_cell_set_text (Some (py_str_int (Row.score rec)))
                             false false (Some WD_CENTER) false) rt ;;
      rt <- with_cell k 4 (_cell_set_text (Some (Row.start rec))
                             false false (Some WD_CENTER) true) rt ;;
      fallback_rows_loop recs' (S i) rt
  end.

(** The two tables are filled through the objects [add_table] returned,
    which are the tables now at the end of the document.  The [autofit]
    flag set on the first one is a layout setting outside the grid of
    cells and is not part of [table]. *)
Definition _fallback_build (doc : docx) (cls_dict : ClsDict.t) (rows : list Row.t)
    (title1 title2 type_of_test_text : string) : result docx :=
  let p1 := title_paragraph title1 (Pt 14) in
  let p2 := title_paragraph title2 (Pt 12) in
  t <- fallback_meta_loop fallback_labels
         (fallback_vals cls_dict type_of_test_text) [0; 1; 2]%nat (new_table 3 4) ;;
  rt <- fallback_header_loop fallback_headers 0 (new_table 1 5) ;;
  rt <- fallback_rows_loop rows 1 rt ;;
  Ok (mk_docx (normal_style doc) (body doc ++ [p1; p2]) (tables doc ++ [t; rt])).

(** What a builder call ends in: the document that is saved and sent, an
    [abort] with its status code and description, or an uncaught
    exception. *)
Inductive response (A : Type) :=
| Sent (a : A)
| Aborted (code : Z) (description : string)
| Crashed (e : exn).
Arguments Sent {A} a.
Arguments Aborted {A} code description.
Arguments Crashed {A} e.

(** [docx_enabled] is [_DOCX_ENABLED]; [template] is the document read from
    [template_path], [None] when no file is there. *)
Definition _build_gst_docx_from_template (docx_enabled : bool)
    (template : option docx) (cls_dict : ClsDict.t) (rows : list Row.t)
    (template_path title1 title2 type_of_test_text : string) : response docx :=
  if negb docx_enabled
  then Aborted 500 "python-docx is not installed. Run: pip install python-docx"
  else
    match template with
    | None => Aborted 500 ("Word template not found: " ++ template_path)%string
    | Some doc =>
        let rows := _sort_rows rows in
        let doc := _docx_set_defaults doc in
        match _fill_template_tables (tables doc) cls_dict rows type_of_test_text with
        | Raise e => Crashed e
        | Ok (tbls, true) => Sent (mk_docx (normal_style doc) (body doc) tbls)
        | Ok (tbls, false) =>
            match _fallback_build (mk_docx (normal_style doc) (body doc) tbls)
                    cls_dict rows title1 title2 type_of_test_text with
            | Ok doc => Sent doc
            | Raise e => Crashed e
            end
        end
    end.

Definition _build_gst_docx_eng (docx_enabled : bool) (template : option docx)
    (template_path : string) (cls_dict : ClsDict.t) (rows : list Row.t)
  : response docx :=
  _build_gst_docx_from_template docx_enabled template cls_dict rows template_path
    "ENGLISH GST RESULTS" "STAGE 2 ADMISSION IN PHIL-IRI"
    "Screening Test Level (English)".

Definition _build_gst_docx_fil (docx_enabled : bool) (template : option docx)
    (template_path : string) (cls_dict : ClsDict.t) (rows : list Row.t)
  : response docx :=
  _build_gst_docx_from_template docx_enabled template cls_dict rows template_path
    "FILIPINO GST RESULTS" "STAGE 2 ADMISSION IN PHIL-IRI"
    "Screening Test Level (Filipino)".

(** ** Sample documents *)

(** A cell holding one paragraph with one run of plain text. *)
Definition text_cell (s : string) : cell :=
  mk_cell "" [mk_paragraph None None None None [mk_run s None None None]].

(** A label as the Filipino template has it: red, bold, with 6pt after
    the paragraph. *)
Definition red_label (s : string) : cell :=
  mk_cell "" [mk_paragraph None (Some 76200) None None
                [mk_run s (Some true) None (Some "FF0000")]].

Definition sample_meta : table :=
  mk_table 4
    [ [red_label "Guro:"; text_cell ""; red_label "Antas:"; text_cell ""];
      [red_label "Paaralan:"; text_cell ""; red_label "Seksyon:"; text_cell ""];
      [red_label "Uri ng Test:"; text_cell ""; red_label "Petsa:"; text_cell ""] ].

Definition sample_results : table :=
  mk_table 5
    [ map text_cell ["#"; "Pangalan"; "Kasarian"; "Marka"; "Antas"];
      map text_cell [""; ""; ""; ""; ""];
      map text_cell [""; ""; ""; ""; ""];
      map text_cell ["x"; "x"; "x"; "x"; "x"] ].

(** A table that satisfies both shape predicates. *)
Definition sample_both : table :=
  mk_table 4
    [ map text_cell ["Teacher name"; "Gender"; "Grade score"; ""];
      map text_cell [""; ""; ""; ""];
      map text_cell [""; ""; ""; ""] ].

Definition sample_cls : ClsDict.t :=
  ClsDict.mk (Some "Santos") (Some "Rizal High") 7 (Some "a") None.

Definition sample_doc : document := [sample_meta; sample_results].
Definition sample_type : string := "Screening Test Level (Filipino)".

(** The two learners of the ordering scenario. *)
Definition juan s st := Row.mk (Some "Juan") (Some "M") s st.
Definition maria s st := Row.mk (Some "Maria") (Some "F") s st.

Definition sample_rows : list Row.t := [juan 20 "Grade 5"].

(** The sample results table once populated. *)
Definition sample_results_filled : table :=
  Eval vm_compute in
    match fill_results_rows sample_rows sample_results with
    | Ok t => t
    | Raise _ => sample_results
    end.

(** A template without tables, and what the English builder sends for
    it. *)
Definition blank_template : docx :=
  mk_docx (mk_style None None None None None None) [] [].

Definition sample_sent : docx :=
  Eval vm_compute in
    match _build_gst_docx_eng true (Some blank_template) "t.docx" sample_cls
            sample_rows with
    | Sent d => d
    | _ => blank_template
    end.

(** A learner with the given gender. *)
Definition sample_learner (g : option string) : Learner.t :=
  Learner.mk (Some "Ana") g true true (Some 1) None None None None None.

(** The sample document once populated. *)
Definition sample_filled : document :=
  Eval vm_compute in
    match _fill_template_tables sample_doc sample_cls sample_rows sample_type with
    | Ok (doc, _) => doc
    | Raise _ => []
    end.

(** A metadata table with four grid columns whose rows hold five cells
    each. *)
Definition wide_meta : table :=
  mk_table 4
    [ map text_cell ["Teacher:"; ""; "Grade:"; ""; "x"];
      map text_cell ["School:"; ""; "Section:"; ""; "x"];
      map text_cell ["Type of Test:"; ""; "Date:"; ""; "x"] ].

(** A table with four grid columns and three rows of two cells. *)
Definition narrow_meta : table :=
  mk_table 4
    [ map text_cell ["Teacher:"; ""];
      map text_cell ["Grade:"; ""];
      map text_cell ["School:"; ""] ].

(** The code points [str.strip()] removes: the ASCII white space, U+0085,
    U+00A0, U+1680, U+2000 to U+200A, U+2028, U+2029, U+202F, U+205F and
    U+3000. *)
Definition py_isspace (c : N) : bool :=
  ((9 <=? c) && (c <=? 13) || (28 <=? c) && (c <=? 32)
   || (c =? 133) || (c =? 160) || (c =? 5760)
   || (8192 <=? c) && (c <=? 8202) || (c =? 8232) || (c =? 8233)
   || (c =? 8239) || (c =? 8287) || (c =? 12288))%N.

(** The entries of the upper-casing table the statements look at: the
    ASCII letters and the five ligatures that upper-case to text starting
    with F; any other code point stands for itself here. *)
Definition known_upper (c : N) : list N :=
  if (c <? 128)%N then [N_of_ascii (char_upper (ascii_of_N c))]
  else if (c =? 64256)%N then [70; 70]%N
  else if (c =? 64257)%N then [70; 73]%N
  else if (c =? 64258)%N then [70; 76]%N
  else if (c =? 64259)%N then [70; 70; 73]%N
  else if (c =? 64260)%N then [70; 70; 76]%N
  else [c].

(** ** Vocabulary of the statements *)

(** A sub-score that is absent or not negative. *)
Definition nonneg_or_none (x : option Z) : Prop :=
  match x with
  | Some v => 0 <= v
  | None => True
  end.

(** Text made of white space only. *)
Fixpoint all_space (s : string) : bool :=
  match s with
  | EmptyString => true
  | String c s' => is_space c && all_space s'
  end.

(** [x] may stand before [y]: the key of [y] is not below the key of [x]. *)
Definition in_order {A K : Type} (key : A -> K) (ltb : K -> K -> bool)
    (x y : A) : Prop :=
  ltb (key y) (key x) = false.

(** The order on sort keys: bucket first, then the name by code points. *)
Definition key_le (a b : Z * string) : Prop :=
  fst a < fst b \/ (fst a = fst b /\ String.leb (snd a) (snd b) = true).



(** The English total of a learner, the row the roster routes build for
    the learner, and the condition under which they build it. *)
Definition eng_total (s : Learner.t) : Z :=
  compute_total (Learner.eng_literal s) (Learner.eng_inferential s)
    (Learner.eng_critical s).

Definition roster_row (grade : Z) (s : Learner.t) : Row.t :=
  Row.mk (Learner.name s) (Learner.gender s) (eng_total s)
    (starting_point_for grade (eng_total s)).

Definition on_roster (s : Learner.t) : bool :=
  Learner.took_eng s && (eng_total s <? DISCONTINUE_THRESHOLD).

(** The first position from [i] on whose table passes [P]; positions are
    counted from [i] at the head of [l]. *)
Fixpoint find_from {A} (P : nat -> A -> bool) (i : nat) (l : list A) : option nat :=
  match l with
  | [] => None
  | x :: l' => if P i x then Some i else find_from P (S i) l'
  end.

(** [j] is the position held by [m]. *)
Definition is_table (m : option nat) (j : nat) : bool :=
  match m with
  | Some k => Nat.eqb k j
  | None => false
  end.

(** [j] is the first position of [l] whose table passes [P]. *)
Definition first_at (P : nat -> table -> bool) (l : document) (j : nat) : Prop :=
  (exists t, l !! j = Some t /\ P j t = true) /\
  (forall k t, (k < j)%nat -> l !! k = Some t -> P k t = false).

Definition meta_pred (_ : nat) (t : table) : bool := _looks_like_meta_table t.
Definition results_pred (_ : nat) (t : table) : bool := _looks_like_results_table t.
(** A results table that is not the table [m]. *)
Definition results_besides (m : option nat) (j : nat) (t : table) : bool :=
  _looks_like_results_table t && negb (is_table m j).

(** The value written at row [r], column [c] of the metadata table, if
    that position is one of the six value cells. *)
Definition meta_value (cls_dict : ClsDict.t) (type_of_test_text : string)
    (r c : nat) : option (option string) :=
  match r, c with
  | 0%nat, 1%nat => Some (ClsDict.teacher cls_dict)
  | 0%nat, 3%nat => Some (Some (py_str_int (ClsDict.grade cls_dict)))
  | 1%nat, 1%nat => Some (ClsDict.school cls_dict)
  | 1%nat, 3%nat => Some (ClsDict.section cls_dict)
  | 2%nat, 1%nat => Some (Some type_of_test_text)
  | 2%nat, 3%nat => Some (ClsDict.date_text cls_dict)
  | _, _ => None
  end.

(** What populating the metadata table makes of the cell [x] found at row
    [r], column [c]. *)
Definition populated_meta_cell (cls_dict : ClsDict.t) (type_of_test_text : string)
    (r c : nat) (x : cell) : cell :=
  _set_cell_paras_no_space
    match meta_value cls_dict type_of_test_text r c with
    | Some v => _cell_set_text v false true None true x
    | None => x
    end.

(** The one paragraph of a written value cell. *)
Definition value_paragraph (text : string) : paragraph :=
  mk_paragraph (Some 0) (Some 0) (Some (Lines 240)) None
    [mk_run "" None None None; mk_run text (Some false) (Some true) None].

(** The Filipino total of a learner, the row the Filipino routes build for
    the learner, and the condition under which they build it. *)
Definition fil_total (s : Learner.t) : Z :=
  compute_total (Learner.fil_literal s) (Learner.fil_inferential s)
    (Learner.fil_critical s).

Definition roster_row_fil (grade : Z) (s : Learner.t) : Row.t :=
  Row.mk (Learner.name s) (Learner.gender s) (fil_total s)
    (starting_point_for grade (fil_total s)).

Definition on_roster_fil (s : Learner.t) : bool :=
  Learner.took_fil s && (fil_total s <? DISCONTINUE_THRESHOLD).

(** The posted value of a sub-score, absent and [null] counting as 0. *)
Definition posted_score (f : field Z) : Z :=
  match f with
  | Val v => v
  | _ => 0
  end.

(** The grid of cell texts of a table. *)
Definition table_texts (t : table) : list (list string) :=
  map (map cell_text) (tbl_rows t).

(** What the results loop makes of a table row for the [i]-th record: the
    first five cells written, every cell tight. *)
Definition written_row (i : nat) (rec : Row.t) (row : list cell) : list cell :=
  map _set_cell_paras_no_space
    (alter (_cell_set_text (Some (Row.start rec))
              false false (Some WD_CENTER) true) 4%nat
    (alter (_cell_set_text (Some (py_str_int (Row.score rec)))
              false false (Some WD_CENTER) false) 3%nat
    (alter (_cell_set_text (Row.gender rec)
              false false (Some WD_CENTER) true) 2%nat
    (alter (_cell_set_text (Row.name rec) false false None true) 1%nat
    (alter (_cell_set_text (Some (py_str_int (Z.of_nat i)))
              false false (Some WD_CENTER) false) 0%nat row))))).

(** A row left over after the records: every cell emptied. *)
Definition blank_row (row : list cell) : list cell :=
  map (_cell_set_text (Some "") false false None false) row.

(** The rows of the results table once it has been grown to hold the
    records. *)
Definition grown_rows (rows : list Row.t) (t : table) : list (list cell) :=
  (tbl_rows t ++
   replicate (start_row_index + Nat.max 1 (length rows) - length (tbl_rows t))
     (replicate (tbl_columns t) empty_cell))%list.

(** What populating the results table makes of its row [k]. *)
Definition populated_results_row (rows : list Row.t) (k : nat)
    (row : list cell) : list cell :=
  match k with
  | O => map _set_cell_paras_no_space row
  | S j =>
      match rows !! j with
      | Some rec => written_row k rec row
      | None => blank_row row
      end
  end.

(** The [n] rows from position [i] on exist and have five cells or more. *)
Fixpoint rows_fit (n i : nat) (grid : list (list cell)) : bool :=
  match n with
  | O => true
  | S n' =>
      match grid !! i with
      | Some row => (5 <=? length row)%nat && rows_fit n' (S i) grid
      | None => false
      end
  end.

(** The grid after the records [recs] have been written from row [i] on. *)
Definition rows_after_write (recs : list Row.t) (i : nat)
    (grid : list (list cell)) : list (list cell) :=
  imap (fun k row =>
          if (i <=? k)%nat
          then match recs !! (k - i)%nat with
               | Some rec => written_row k rec row
               | None => row
               end
          else row) grid.

(** The texts a record is written as, column by column. *)
Definition row_texts (i : nat) (rec : Row.t) : list string :=
  [ py_str_int (Z.of_nat i); upper (or_empty (Row.name rec));
    upper (or_empty (Row.gender rec)); py_str_int (Row.score rec);
    upper (Row.start rec) ].

(** Every existing row that receives a record has five cells or more, and
    the table has five grid columns or more if a record needs an added
    row. *)
Definition results_table_fits (rows : list Row.t) (t : table) : Prop :=
  (forall k row, (1 <= k <= length rows)%nat -> tbl_rows t !! k = Some row ->
                 (5 <= length row)%nat) /\
  ((1 <= length rows)%nat -> (length (tbl_rows t) <= length rows)%nat ->
   (5 <= tbl_columns t)%nat).

(** The list of cells reaches the position of [tbl.cell(2, 3)], the last
    of the six value cells. *)
Definition meta_table_fits (t : table) : Prop :=
  (cell_idx (tbl_columns t) 2 3 < length (table_cells t))%nat.

(** Every row holds one cell per grid column. *)
Definition regular (t : table) : Prop :=
  Forall (fun row => length row = tbl_columns t) (tbl_rows t).

(** The cell in row [r], column [c] of the grid. *)
Definition grid_cell (t : table) (r c : nat) : option cell :=
  match tbl_rows t !! r with
  | Some row => row !! c
  | None => None
  end.

(** The value written at position [i] of the list of cells of a metadata
    table with [n] grid columns, if that position is written at all; where
    two writes meet, the later one stays. *)
Definition meta_value_at (cls_dict : ClsDict.t) (type_of_test_text : string)
    (n i : nat) : option (option string) :=
  if (i =? cell_idx n 2 3)%nat then Some (ClsDict.date_text cls_dict)
  else if (i =? cell_idx n 2 1)%nat then Some (Some type_of_test_text)
  else if (i =? cell_idx n 1 3)%nat then Some (ClsDict.section cls_dict)
  else if (i =? cell_idx n 1 1)%nat then Some (ClsDict.school cls_dict)
  else if (i =? cell_idx n 0 3)%nat
       then Some (Some (py_str_int (ClsDict.grade cls_dict)))
  else if (i =? cell_idx n 0 1)%nat then Some (ClsDict.teacher cls_dict)
  else None.

(** What populating the metadata table makes of the cell [x] found at
    position [i] of its list of cells. *)
Definition populated_cell_at (cls_dict : ClsDict.t) (type_of_test_text : string)
    (n i : nat) (x : cell) : cell :=
  _set_cell_paras_no_space
    match meta_value_at cls_dict type_of_test_text n i with
    | Some v => _cell_set_text v false true None true x
    | None => x
    end.

(** The rows of a metadata table with [n] grid columns after the six
    writes. *)
Definition meta_rows_written (cls_dict : ClsDict.t) (type_of_test_text : string)
    (n : nat) (rows : list (list cell)) : list (list cell) :=
  let value v := _cell_set_text v false true None true in
  alter_cells (value (ClsDict.date_text cls_dict)) (cell_idx n 2 3)
    (alter_cells (value (Some type_of_test_text)) (cell_idx n 2 1)
    (alter_cells (value (ClsDict.section cls_dict)) (cell_idx n 1 3)
    (alter_cells (value (ClsDict.school cls_dict)) (cell_idx n 1 1)
    (alter_cells (value (Some (py_str_int (ClsDict.grade cls_dict))))
                 (cell_idx n 0 3)
    (alter_cells (value (ClsDict.teacher cls_dict)) (cell_idx n 0 1) rows))))).

(** What the statements use of the upper-casing table: on ASCII it is
    [char_upper]; outside ASCII every code point upper-cases to at least
    one code point, none to text that starts with M (77), and the only ones
    that upper-case to text starting with F (70) are the ligatures U+FB00 to
    U+FB04 (ff, fi, fl, ffi, ffl). *)
Definition upper_table (to_upper : N -> list N) : Prop :=
  (forall c, (c < 128)%N ->
     to_upper c = [N_of_ascii (char_upper (ascii_of_N c))]) /\
  (forall c, (128 <= c)%N ->
     exists d rest, to_upper c = d :: rest /\ d <> 77%N /\
       (d = 70%N <-> (64256 <= c <= 64260)%N)).

(** On ASCII the white-space table is [is_space]. *)
Definition space_table (is_whitespace : N -> bool) : Prop :=
  forall c, (c < 128)%N -> is_whitespace c = is_space (ascii_of_N c).

(** The cells the fallback builder makes: a bold label, an underlined
    upper-cased value, a bold centred header and the five cells of a
    record. *)
Definition label_cell (s : string) : cell :=
  _cell_set_text (Some s) true false None false empty_cell.
Definition value_cell (v : option string) : cell :=
  _cell_set_text v false true None true empty_cell.
Definition header_cell (s : string) : cell :=
  _cell_set_text (Some s) true false (Some WD_CENTER) false empty_cell.

Definition fallback_row (i : nat) (rec : Row.t) : list cell :=
  [ _cell_set_text (Some (py_str_int (Z.of_nat i)))
      false false (Some WD_CENTER) false empty_cell;
    _cell_set_text (Row.name rec) false false None true empty_cell;
    _cell_set_text (Row.gender rec) false false (Some WD_CENTER) true empty_cell;
    _cell_set_text (Some (py_str_int (Row.score rec)))
      false false (Some WD_CENTER) false empty_cell;
    _cell_set_text (Some (Row.start rec))
      false false (Some WD_CENTER) true empty_cell ].

(** The metadata table and the results table of the fallback layout. *)
Definition fallback_meta_table (cls_dict : ClsDict.t) (type_of_test_text : string)
  : table :=
  mk_table 4
    [ [ label_cell "Teacher:"; value_cell (ClsDict.teacher cls_dict);
        label_cell "Grade:";
        value_cell (Some (py_str_int (ClsDict.grade cls_dict))) ];
      [ label_cell "School:"; value_cell (ClsDict.school cls_dict);
        label_cell "Section:"; value_cell (ClsDict.section cls_dict) ];
      [ label_cell "Type of Test:"; value_cell (Some type_of_test_text);
        label_cell "Date:"; value_cell (ClsDict.date_text cls_dict) ] ].

Definition fallback_results_table (rows : list Row.t) : table :=
  mk_table 5
    (map header_cell fallback_headers ::
     imap (fun j rec => fallback_row (S j) rec) rows).

(** The style settings [_docx_set_defaults] leaves. *)
Definition default_style : style :=
  mk_style (Some "Book Antiqua") (Some "Book Antiqua") (Some 127000)
    (Some 0) (Some 0) (Some (Lines 240)).

(** * Properties *)

(** ** Placement engine *)

Lemma grade_label_not_discontinue (d : string) :
  ("Grade " ++ d)%string <> "DISCONTINUE".
Proof. discriminate. Qed.

Lemma start_level_floor (grade total : Z) : 1 <= start_level grade total.
Proof. unfold start_level. cbv zeta. lia. Qed.

Lemma starting_point_for_below (grade total : Z) :
  total < 28 ->
  starting_point_for grade total
  = ("Grade " ++ py_str_int (start_level grade total))%string.
Proof.
  intros Hlt. unfold starting_point_for, DISCONTINUE_THRESHOLD.
  destruct (Z.leb_spec 28 total); [lia | reflexivity].
Qed.

Lemma starting_point_for_discontinue (grade total : Z) :
  String.eqb (starting_point_for grade total) "DISCONTINUE"
  = (DISCONTINUE_THRESHOLD <=? total).
Proof.
  unfold starting_point_for. destruct (DISCONTINUE_THRESHOLD <=? total);
    reflexivity.
Qed.

(** C1: [starting_point_for] answers "DISCONTINUE" exactly for totals of 28
    and more; below that it answers "Grade L" with L one below the base
    [max 1 (grade - 1)] for totals from 16 and two below it for smaller
    totals, never less than 1; totals 27 and 16 are one-below, 15 and 0
    two-below. *)
Theorem starting_point_for_spec (grade total : Z) :
  let base := Z.max 1 (grade - 1) in
  let one_below := ("Grade " ++ py_str_int (Z.max 1 (base - 1)))%string in
  let two_below := ("Grade " ++ py_str_int (Z.max 1 (base - 2)))%string in
  (starting_point_for grade total = "DISCONTINUE" <-> total >= 28) /\
  starting_point_for grade total
  = (if 28 <=? total then "DISCONTINUE"
     else if 16 <=? total then one_below else two_below) /\
  starting_point_for grade 27 = one_below /\
  starting_point_for grade 16 = one_below /\
  starting_point_for grade 15 = two_below /\
  starting_point_for grade 0 = two_below /\
  (exists L, 1 <= L /\
     (starting_point_for grade 27 = "Grade " ++ py_str_int L)%string) /\
  (exists L, 1 <= L /\
     (starting_point_for grade 0 = "Grade " ++ py_str_int L)%string) /\
  starting_point_for 1 27 = "Grade 1" /\
  starting_point_for 1 0 = "Grade 1".
Proof.
  intros base one_below two_below.
  assert (Hdef : starting_point_for grade total
                 = (if 28 <=? total then "DISCONTINUE"
                    else if 16 <=? total then one_below else two_below)).
  { unfold starting_point_for, start_level, DISCONTINUE_THRESHOLD,
      ONE_BELOW_THRESHOLD.
    destruct (28 <=? total); [reflexivity |].
    destruct (16 <=? total); reflexivity. }
  split; [| split; [exact Hdef |]].
  - rewrite Hdef. destruct (Z.leb_spec 28 total) as [Hge | Hlt].
    + split; [lia | reflexivity].
    + split; [| lia].
      destruct (16 <=? total); intros Heq;
        exfalso; exact (grade_label_not_discontinue _ Heq).
  - repeat split; try reflexivity.
    + exists (start_level grade 27). split; [apply start_level_floor |].
      apply starting_point_for_below. lia.
    + exists (start_level grade 0). split; [apply start_level_floor |].
      apply starting_point_for_below. lia.
Qed.

Lemma to_int_not_nil (n : Z) :
  Z.to_int n <> Decimal.Pos Decimal.Nil /\ Z.to_int n <> Decimal.Neg Decimal.Nil.
Proof.
  destruct n as [| p | p]; simpl; split; try discriminate;
    intros [= H]; revert H; apply DecimalPos.Unsigned.to_uint_nonnil.
Qed.

(** [str] on integers can be read back. *)
Lemma int_of_py_str_int (n : Z) :
  option_map Z.of_int (NilZero.int_of_string (py_str_int n)) = Some n.
Proof.
  unfold py_str_int. destruct (to_int_not_nil n) as [Hp Hn].
  rewrite NilZero.isi by assumption. simpl. f_equal. apply DecimalZ.of_to.
Qed.

Lemma grade_number_label (n : Z) :
  grade_number ("Grade " ++ py_str_int n) = Some n.
Proof. unfold grade_number. simpl. apply int_of_py_str_int. Qed.

Lemma start_level_monotone (grade t1 t2 : Z) :
  t1 <= t2 -> start_level grade t1 <= start_level grade t2.
Proof.
  intros Hle. unfold start_level, ONE_BELOW_THRESHOLD. cbv zeta.
  destruct (Z.leb_spec 16 t1), (Z.leb_spec 16 t2); lia.
Qed.

(** C2, as the code has it: for a grade from 1 to 12 and two totals below
    the discontinue threshold, both answers carry a grade number, and the
    number for the higher total is not smaller than the one for the lower
    total. *)
Theorem starting_point_for_monotone (g t1 t2 : Z) :
  1 <= g <= 12 -> t1 <= t2 -> t2 < DISCONTINUE_THRESHOLD ->
  exists n1 n2,
    grade_number (starting_point_for g t1) = Some n1 /\
    grade_number (starting_point_for g t2) = Some n2 /\
    n1 <= n2.
Proof.
  unfold DISCONTINUE_THRESHOLD. intros _ Hle Hlt.
  exists (start_level g t1), (start_level g t2).
  rewrite !starting_point_for_below by lia.
  rewrite !grade_number_label.
  auto using start_level_monotone.
Qed.

Lemma starting_point_for_monotone_witness :
  exists n1 n2,
    grade_number (starting_point_for 7 5) = Some n1 /\
    grade_number (starting_point_for 7 20) = Some n2 /\
    n1 <= n2.
Proof.
  apply (starting_point_for_monotone 7 5 20); unfold DISCONTINUE_THRESHOLD; lia.
Defined.

(** C2 as stated fails: in grade 7 the total 5 starts at Grade 4 and the
    higher total 20 at Grade 5. *)
Lemma starting_point_for_not_antitone :
  5 <= 20 /\ 20 < DISCONTINUE_THRESHOLD /\
  starting_point_for 7 5 = "Grade 4" /\
  starting_point_for 7 20 = "Grade 5" /\
  grade_number (starting_point_for 7 5) = Some 4 /\
  grade_number (starting_point_for 7 20) = Some 5 /\
  4 < 5.
Proof. repeat split; reflexivity || (unfold DISCONTINUE_THRESHOLD; lia). Qed.

(** [x or 0] is the value itself, or 0 for [None]. *)
Lemma or_zero_default (x : option Z) : or_zero x = default 0 x.
Proof.
  destruct x as [v |]; simpl; [| reflexivity].
  destruct (Z.eqb_spec v 0); congruence.
Qed.

(** On nullable integer columns the call returns, and returns what
    [compute_total] gives. *)
Lemma compute_total_values_columns (lit inf cri : option Z) :
  compute_total_values (column_value lit) (column_value inf) (column_value cri)
  = Returns (compute_total lit inf cri).
Proof.
  unfold compute_total_values, compute_total, py_or.
  destruct lit as [a |], inf as [b |], cri as [c |]; cbn [column_value py_truth or_zero];
    repeat match goal with
           | |- context [?x =? 0] => destruct (Z.eqb_spec x 0); subst
           end; reflexivity.
Qed.

(** C7, as the code has it: missing values count as 0; on integers and
    [None] the call does not raise and returns the plain sum, whatever the
    signs; the sum is not negative when no given value is negative. *)
Theorem compute_total_spec (lit inf cri : option Z) :
  compute_total None None None = 0 /\
  compute_total_values PNone PNone PNone = Returns 0 /\
  compute_total_values (column_value lit) (column_value inf) (column_value cri)
  = Returns (compute_total lit inf cri) /\
  compute_total lit inf cri = default 0 lit + default 0 inf + default 0 cri /\
  (nonneg_or_none lit -> nonneg_or_none inf -> nonneg_or_none cri ->
   0 <= compute_total lit inf cri).
Proof.
  split; [reflexivity |]. split; [reflexivity |].
  split; [apply compute_total_values_columns |].
  unfold compute_total. rewrite !or_zero_default.
  split; [reflexivity |].
  intros Hl Hi Hc. destruct lit, inf, cri; cbn in *; lia.
Qed.

(** C7 as stated fails twice: a negative sub-score gives a negative total,
    and a value that is neither an integer nor [None], here the list [[1]],
    makes the call raise [TypeError]. *)
Lemma compute_total_not_guarded :
  compute_total (Some (-1)) None None = -1 /\
  compute_total_values (PInt (-1)) PNone PNone = Returns (-1) /\
  -1 < 0 /\
  compute_total_values (PList [PInt 1]) PNone PNone = RaisesTypeError.
Proof. repeat split; reflexivity. Qed.

(** ** Text helpers *)

Ltac each_char c := destruct c as [[] [] [] [] [] [] [] []].

Lemma char_upper_M (c : ascii) :
  char_upper c = "M"%char <-> c = "M"%char \/ c = "m"%char.
Proof.
  split.
  - each_char c; vm_compute; intros H; try discriminate H; auto.
  - intros [-> | ->]; reflexivity.
Qed.

Lemma char_upper_F (c : ascii) :
  char_upper c = "F"%char <-> c = "F"%char \/ c = "f"%char.
Proof.
  split.
  - each_char c; vm_compute; intros H; try discriminate H; auto.
  - intros [-> | ->]; reflexivity.
Qed.

Lemma char_upper_idem (c : ascii) : char_upper (char_upper c) = char_upper c.
Proof. each_char c; reflexivity. Qed.

Lemma char_upper_lower (c : ascii) : char_upper (char_lower c) = char_upper c.
Proof. each_char c; reflexivity. Qed.

Lemma is_space_upper (c : ascii) : is_space (char_upper c) = is_space c.
Proof. each_char c; reflexivity. Qed.

Lemma is_space_lower (c : ascii) : is_space (char_lower c) = is_space c.
Proof. each_char c; reflexivity. Qed.

Section MapStrip.
Variable f : ascii -> ascii.
Hypothesis f_space : forall c, is_space (f c) = is_space c.

Lemma lstrip_map (s : string) : lstrip (map_string f s) = map_string f (lstrip s).
Proof.
  induction s as [| c s IH]; simpl; [reflexivity |].
  rewrite f_space. destruct (is_space c); [exact IH | reflexivity].
Qed.

Lemma rstrip_map (s : string) : rstrip (map_string f s) = map_string f (rstrip s).
Proof.
  induction s as [| c s IH]; simpl; [reflexivity |].
  rewrite IH, f_space.
  destruct (rstrip s); simpl; [destruct (is_space c) |]; reflexivity.
Qed.

Lemma strip_map (s : string) : strip (map_string f s) = map_string f (strip s).
Proof. unfold strip. now rewrite lstrip_map, rstrip_map. Qed.
End MapStrip.

Lemma map_string_compose (f g : ascii -> ascii) (s : string) :
  map_string f (map_string g s) = map_string (fun c => f (g c)) s.
Proof. induction s as [| c s IH]; simpl; [| rewrite IH]; reflexivity. Qed.

Lemma map_string_ext (f g : ascii -> ascii) (s : string) :
  (forall c, f c = g c) -> map_string f s = map_string g s.
Proof. intros E. induction s as [| c s IH]; simpl; [| rewrite E, IH]; reflexivity. Qed.

Lemma upper_idem (s : string) : upper (upper s) = upper s.
Proof.
  unfold upper. rewrite map_string_compose. apply map_string_ext, char_upper_idem.
Qed.

Lemma upper_lower (s : string) : upper (lower s) = upper s.
Proof.
  unfold upper, lower. rewrite map_string_compose.
  apply map_string_ext, char_upper_lower.
Qed.

Lemma lstrip_spaces (ws s : string) :
  all_space ws = true -> lstrip (ws ++ s) = lstrip s.
Proof.
  induction ws as [| c ws IH]; simpl; [reflexivity |].
  intros [Hc Hws]%andb_true_iff. rewrite Hc. auto.
Qed.

Lemma rstrip_all_space (ws : string) : all_space ws = true -> rstrip ws = "".
Proof.
  induction ws as [| c ws IH]; simpl; [reflexivity |].
  intros [Hc Hws]%andb_true_iff. now rewrite IH, Hc.
Qed.

Lemma rstrip_spaces (s ws : string) :
  all_space ws = true -> rstrip (s ++ ws) = rstrip s.
Proof.
  intros Hws. induction s as [| c s IH]; simpl.
  - now apply rstrip_all_space.
  - now rewrite IH.
Qed.

Lemma lstrip_all_space (ws : string) : all_space ws = true -> lstrip ws = "".
Proof.
  induction ws as [| c ws IH]; simpl; [reflexivity |].
  intros [Hc Hws]%andb_true_iff. rewrite Hc. auto.
Qed.

Lemma strip_spaces_right (s ws : string) :
  all_space ws = true -> strip (s ++ ws) = strip s.
Proof.
  intros Hws. unfold strip. induction s as [| c s IH]; simpl.
  - now rewrite lstrip_all_space.
  - destruct (is_space c); [exact IH |].
    change (String c (s ++ ws)) with (String c s ++ ws)%string.
    now apply rstrip_spaces.
Qed.

Lemma strip_spaces (ws1 s ws2 : string) :
  all_space ws1 = true -> all_space ws2 = true ->
  strip (ws1 ++ s ++ ws2) = strip s.
Proof.
  intros H1 H2. unfold strip. rewrite lstrip_spaces by assumption.
  now apply strip_spaces_right.
Qed.

Lemma prefix_nil (s : string) : String.prefix "" s = true.
Proof. destruct s; reflexivity. Qed.

Lemma startswith_cons (a c : ascii) (s : string) :
  startswith (String c s) (String a "") = Ascii.eqb a c.
Proof.
  unfold startswith. cbn [String.prefix]. rewrite prefix_nil.
  destruct (ascii_dec a c) as [-> | Hne].
  - symmetry. apply Ascii.eqb_refl.
  - symmetry. now apply Ascii.eqb_neq.
Qed.


Lemma upper_cons (c : ascii) (s : string) :
  upper (String c s) = String (char_upper c) (upper s).
Proof. reflexivity. Qed.



(** ** Roster ordering *)


Lemma strip_upper (s : string) : strip (upper s) = upper (strip s).
Proof. apply strip_map, is_space_upper. Qed.

Lemma strip_lower (s : string) : strip (lower s) = lower (strip s).
Proof. apply strip_map, is_space_lower. Qed.

Lemma gender_bucket_upper (s : string) :
  _gender_bucket (Some (upper s)) = _gender_bucket (Some s).
Proof.
  unfold _gender_bucket, or_empty. now rewrite strip_upper, upper_idem.
Qed.

Lemma gender_bucket_lower (s : string) :
  _gender_bucket (Some (lower s)) = _gender_bucket (Some s).
Proof.
  unfold _gender_bucket, or_empty. now rewrite strip_lower, upper_lower.
Qed.

Lemma gender_bucket_spaces (ws1 s ws2 : string) :
  all_space ws1 = true -> all_space ws2 = true ->
  _gender_bucket (Some (ws1 ++ s ++ ws2)%string) = _gender_bucket (Some s).
Proof.
  intros H1 H2. unfold _gender_bucket. simpl. now rewrite strip_spaces.
Qed.

(** *** Facts on [sorted], for any key and any strict order on keys in
    which incomparable keys behave as equal ones *)

Section PySortedFacts.
Context {A K : Type} (key : A -> K) (ltb : K -> K -> bool).
Hypothesis ltb_asym : forall a b, ltb a b = true -> ltb b a = false.
Hypothesis ltb_negtrans :
  forall a b c, ltb a b = false -> ltb b c = false -> ltb a c = false.

Lemma insert_by_perm (x : A) (l : list A) :
  Permutation (insert_by key ltb x l) (x :: l).
Proof.
  induction l as [| y l IH]; simpl; [reflexivity |].
  destruct (ltb (key y) (key x)); [| reflexivity].
  rewrite IH. apply perm_swap.
Qed.

Lemma py_sorted_perm (l : list A) : Permutation (py_sorted key ltb l) l.
Proof.
  induction l as [| x l IH]; simpl; [reflexivity |].
  rewrite insert_by_perm. now constructor.
Qed.

Lemma insert_by_sorted (x : A) (l : list A) :
  StronglySorted (in_order key ltb) l ->
StronglySorted (in_order key ltb) (insert_by key ltb x l).
Proof.
  induction 1 as [| y l Hs IH Hy]; simpl.
  - repeat constructor.
  - destruct (ltb (key y) (key x)) eqn:Hyx.
    + constructor; [exact IH |].
      rewrite Forall_forall in *. intros z Hz.
      rewrite (insert_by_perm x l) in Hz.
      apply elem_of_cons in Hz as [-> | Hz]; [now apply ltb_asym | now apply Hy].
    + constructor; [now constructor |].
      constructor; [exact Hyx |].
      rewrite Forall_forall in *. intros z Hz.
      unfold in_order. apply ltb_negtrans with (key y); [now apply Hy | exact Hyx].
Qed.

Lemma py_sorted_sorted (l : list A) :
StronglySorted (in_order key ltb) (py_sorted key ltb l).
Proof.
  induction l as [| x l IH]; simpl; [constructor | now apply insert_by_sorted].
Qed.

(** Sorting a sorted list changes nothing. *)
Lemma py_sorted_fixed (l : list A) :
  StronglySorted (in_order key ltb) l -> py_sorted key ltb l = l.
Proof.
  induction 1 as [| x l Hs IH Hx]; simpl; [reflexivity |].
  rewrite IH. destruct l as [| y l]; [reflexivity |]. simpl.
  apply Forall_inv in Hx. unfold in_order in Hx. now rewrite Hx.
Qed.

(** Stability: rows picked by a selector that only picks rows with tied
    keys keep their relative order. *)
Section Stable.
Variable sel : A -> bool.
Hypothesis sel_tied :
  forall x y, sel x = true -> sel y = true -> ltb (key y) (key x) = false.


End Stable.
End PySortedFacts.

(** *** The order on sort keys *)

Lemma ascii_compare_refl (a : ascii) : Ascii.compare a a = Eq.
Proof. apply N.compare_refl. Qed.

Lemma string_compare_refl (s : string) : String.compare s s = Eq.
Proof.
  induction s as [| a s IH]; simpl; [reflexivity |].
  now rewrite ascii_compare_refl.
Qed.

Lemma string_compare_lt_trans (s1 s2 s3 : string) :
  String.compare s1 s2 = Lt -> String.compare s2 s3 = Lt ->
  String.compare s1 s3 = Lt.
Proof.
  revert s2 s3.
  induction s1 as [| a s1 IH]; intros [| b s2] [| c s3]; simpl;
    try discriminate; try reflexivity.
  destruct (Ascii.compare a b) eqn:Eab; try discriminate;
    destruct (Ascii.compare b c) eqn:Ebc; try discriminate; intros H1 H2.
  - apply Ascii.compare_eq_iff in Eab, Ebc. subst.
    rewrite ascii_compare_refl. eauto.
  - apply Ascii.compare_eq_iff in Eab. subst. now rewrite Ebc.
  - apply Ascii.compare_eq_iff in Ebc. subst. now rewrite Eab.
  - unfold Ascii.compare in *. rewrite N.compare_lt_iff in Eab, Ebc.
    assert (Hac : (N_of_ascii a < N_of_ascii c)%N) by lia.
    apply N.compare_lt_iff in Hac. now rewrite Hac.
Qed.

Lemma string_ltb_asym (a b : string) :
  String.ltb a b = true -> String.ltb b a = false.
Proof.
  unfold String.ltb. rewrite (String.compare_antisym a b).
  destruct (String.compare b a); simpl; congruence.
Qed.

Lemma string_ltb_negtrans (a b c : string) :
  String.ltb a b = false -> String.ltb b c = false -> String.ltb a c = false.
Proof.
  unfold String.ltb.
  destruct (String.compare a c) eqn:Hac; try reflexivity.
  destruct (String.compare a b) eqn:Hab; try discriminate;
    destruct (String.compare b c) eqn:Hbc; try discriminate; intros _ _; exfalso.
  - apply String.compare_eq_iff in Hab. congruence.
  - apply String.compare_eq_iff in Hab. congruence.
  - apply String.compare_eq_iff in Hbc. congruence.
  - rewrite String.compare_antisym in Hab, Hbc.
    apply CompOpp_iff in Hab, Hbc. simpl in *.
    pose proof (string_compare_lt_trans _ _ _ Hbc Hab) as Hca.
    rewrite String.compare_antisym, Hca in Hac. discriminate.
Qed.

Lemma key_ltb_asym (a b : Z * string) :
  key_ltb a b = true -> key_ltb b a = false.
Proof.
  unfold key_ltb. rewrite (Z.eqb_sym (fst b)).
  destruct (Z.eqb_spec (fst a) (fst b)); [apply string_ltb_asym | lia].
Qed.

Lemma key_ltb_negtrans (a b c : Z * string) :
  key_ltb a b = false -> key_ltb b c = false -> key_ltb a c = false.
Proof.
  unfold key_ltb.
  destruct (Z.eqb_spec (fst a) (fst b)), (Z.eqb_spec (fst b) (fst c)),
    (Z.eqb_spec (fst a) (fst c)); try lia; try apply string_ltb_negtrans.
Qed.

Lemma key_ltb_le (a b : Z * string) : key_ltb b a = false <-> key_le a b.
Proof.
  unfold key_ltb, key_le, String.ltb, String.leb.
  rewrite (String.compare_antisym (snd a)).
  destruct (Z.eqb_spec (fst b) (fst a)) as [E | E].
  - destruct (String.compare (snd b) (snd a)); simpl;
      split; intros H; try discriminate; try lia; auto.
  - split; [lia |]. intros [H | [H _]]; lia.
Qed.





Lemma key_le_antisym (a b : Z * string) : key_le a b -> key_le b a -> a = b.
Proof.
  unfold key_le. destruct a as [x s], b as [y t]; simpl.
  intros [H1 | [-> H1]] [H2 | [E2 H2]]; try lia.
  f_equal. now apply String.leb_antisym.
Qed.

Lemma sort_rows_sorted (rows : list Row.t) :
  StronglySorted (fun a b => key_le (sort_key a) (sort_key b)) (_sort_rows rows).
Proof.
  unfold _sort_rows.
  induction (py_sorted_sorted sort_key key_ltb key_ltb_asym key_ltb_negtrans rows)
    as [| x l Hs IH Hx]; constructor; [exact IH |].
  eapply Forall_impl; [exact Hx |].
  intros y Hy. now apply key_ltb_le.
Qed.



Lemma sort_rows_idempotent (rows : list Row.t) :
  _sort_rows (_sort_rows rows) = _sort_rows rows.
Proof.
  apply py_sorted_fixed, py_sorted_sorted.
  - exact key_ltb_asym.
  - exact key_ltb_negtrans.
Qed.




(** A gender stored as one character in its upper-case form. *)
Lemma gender_bucket_other (c : ascii) :
  char_upper c = c -> c <> "M"%char -> c <> "F"%char ->
  _gender_bucket (Some (String c "")) = 2.
Proof.
  intros Hu HM HF. unfold _gender_bucket, or_empty, strip.
  cbn [lstrip rstrip].
  destruct (is_space c) eqn:Hc; [reflexivity |].
  cbn [rstrip]. rewrite Hc, upper_cons, Hu, !startswith_cons.
  destruct (Ascii.eqb_spec "M" c); [congruence |].
  destruct (Ascii.eqb_spec "F" c); [congruence | reflexivity].
Qed.


(** ** The gender bucket on text outside ASCII *)

Lemma ascii_upper_M (a : ascii) :
  (N_of_ascii (char_upper a) =? 77)%N
  = ((N_of_ascii a =? 77) || (N_of_ascii a =? 109))%N.
Proof. each_char a; reflexivity. Qed.

Lemma ascii_upper_F (a : ascii) :
  (N_of_ascii (char_upper a) =? 70)%N
  = ((N_of_ascii a =? 70) || (N_of_ascii a =? 102))%N.
Proof. each_char a; reflexivity. Qed.

Lemma is_ascii_char_upper (a : ascii) :
  (N_of_ascii (char_upper a) <? 128)%N = (N_of_ascii a <? 128)%N.
Proof. each_char a; reflexivity. Qed.

Lemma is_ascii_char_lower (a : ascii) :
  (N_of_ascii (char_lower a) <? 128)%N = (N_of_ascii a <? 128)%N.
Proof. each_char a; reflexivity. Qed.

Lemma N_of_ascii_eqb (a c : ascii) :
  (N_of_ascii c =? N_of_ascii a)%N = Ascii.eqb a c.
Proof.
  destruct (Ascii.eqb_spec a c) as [-> | Hne]; [apply N.eqb_refl |].
  apply N.eqb_neq. intros E. apply Hne.
  rewrite <- (ascii_N_embedding a), <- (ascii_N_embedding c). now rewrite E.
Qed.

Section WhiteSpace.
Variable is_whitespace : N -> bool.

Lemma lstrip_cp_spaces (ws s : list N) :
  forallb is_whitespace ws = true ->
  lstrip_cp is_whitespace (ws ++ s)%list = lstrip_cp is_whitespace s.
Proof.
  induction ws as [| c ws IH]; cbn [forallb app lstrip_cp]; [reflexivity |].
  intros [Hc Hws]%andb_true_iff. rewrite Hc. auto.
Qed.

Lemma lstrip_cp_all_space (ws : list N) :
  forallb is_whitespace ws = true -> lstrip_cp is_whitespace ws = [].
Proof.
  induction ws as [| c ws IH]; cbn [forallb lstrip_cp]; [reflexivity |].
  intros [Hc Hws]%andb_true_iff. rewrite Hc. auto.
Qed.

Lemma rstrip_cp_all_space (ws : list N) :
  forallb is_whitespace ws = true -> rstrip_cp is_whitespace ws = [].
Proof.
  induction ws as [| c ws IH]; cbn [forallb rstrip_cp]; [reflexivity |].
  intros [Hc Hws]%andb_true_iff. now rewrite IH, Hc.
Qed.

Lemma rstrip_cp_spaces (s ws : list N) :
  forallb is_whitespace ws = true ->
  rstrip_cp is_whitespace (s ++ ws)%list = rstrip_cp is_whitespace s.
Proof.
  intros Hws. induction s as [| c s IH]; cbn [app rstrip_cp].
  - now apply rstrip_cp_all_space.
  - now rewrite IH.
Qed.

Lemma strip_cp_spaces (ws1 s ws2 : list N) :
  forallb is_whitespace ws1 = true -> forallb is_whitespace ws2 = true ->
  strip_cp is_whitespace (ws1 ++ s ++ ws2)%list = strip_cp is_whitespace s.
Proof.
  intros H1 H2. unfold strip_cp. rewrite lstrip_cp_spaces by exact H1.
  clear H1. induction s as [| c s IH]; cbn [app lstrip_cp].
  - now rewrite lstrip_cp_all_space.
  - destruct (is_whitespace c); [exact IH |].
    change (c :: (s ++ ws2)%list) with ((c :: s) ++ ws2)%list.
    now apply rstrip_cp_spaces.
Qed.
End WhiteSpace.

Section UpperTable.
Variable to_upper : N -> list N.
Variable is_whitespace : N -> bool.
Hypothesis upper_ok : upper_table to_upper.

Lemma upper_cp_head (c : N) (s : list N) (p : N) :
  starts_with_cp (upper_cp to_upper (c :: s)) p = starts_with_cp (to_upper c) p.
Proof.
  unfold upper_cp. cbn [flat_map].
  destruct (N.lt_ge_cases c 128) as [H | H].
  - now rewrite (proj1 upper_ok c H).
  - destruct (proj2 upper_ok c H) as (d & rest & -> & _). reflexivity.
Qed.

Lemma to_upper_starts_M (c : N) :
  starts_with_cp (to_upper c) 77 = ((c =? 77) || (c =? 109))%N.
Proof.
  destruct (N.lt_ge_cases c 128) as [H | H].
  - rewrite (proj1 upper_ok c H). cbn [starts_with_cp].
    rewrite ascii_upper_M, N_ascii_embedding by lia. reflexivity.
  - destruct (proj2 upper_ok c H) as (d & rest & -> & Hd & _).
    cbn [starts_with_cp].
    destruct (N.eqb_spec d 77); [contradiction |].
    destruct (N.eqb_spec c 77), (N.eqb_spec c 109); try lia; reflexivity.
Qed.

Lemma to_upper_starts_F (c : N) :
  starts_with_cp (to_upper c) 70
  = ((c =? 70) || (c =? 102) || (64256 <=? c) && (c <=? 64260))%N.
Proof.
  destruct (N.lt_ge_cases c 128) as [H | H].
  - rewrite (proj1 upper_ok c H). cbn [starts_with_cp].
    rewrite ascii_upper_F, N_ascii_embedding by lia.
    destruct (N.leb_spec 64256 c); [lia |]. cbn [andb]. now rewrite orb_false_r.
  - destruct (proj2 upper_ok c H) as (d & rest & -> & _ & Hd).
    cbn [starts_with_cp].
    destruct (N.eqb_spec c 70), (N.eqb_spec c 102); try lia. cbn [orb].
    destruct (N.eqb_spec d 70) as [E | E].
    + apply Hd in E. symmetry. apply andb_true_iff. split; apply N.leb_le; lia.
    + destruct (N.leb_spec 64256 c), (N.leb_spec c 64260); cbn [andb];
        try reflexivity.
      exfalso. apply E, Hd. lia.
Qed.

Lemma gender_bucket_cp_cases (g : option (list N)) :
  _gender_bucket_cp to_upper is_whitespace g
  = match strip_cp is_whitespace (or_empty_cp g) with
    | [] => 2
    | c :: _ =>
        if ((c =? 77) || (c =? 109))%N then 0
        else if ((c =? 70) || (c =? 102) || (64256 <=? c) && (c <=? 64260))%N
             then 1
        else 2
    end.
Proof.
  unfold _gender_bucket_cp. cbv zeta.
  destruct (strip_cp is_whitespace (or_empty_cp g)) as [| c t]; [reflexivity |].
  now rewrite !upper_cp_head, to_upper_starts_M, to_upper_starts_F.
Qed.

Lemma gender_bucket_cp_spaces (ws1 s ws2 : list N) :
  forallb is_whitespace ws1 = true -> forallb is_whitespace ws2 = true ->
  _gender_bucket_cp to_upper is_whitespace (Some (ws1 ++ s ++ ws2)%list)
  = _gender_bucket_cp to_upper is_whitespace (Some s).
Proof.
  intros H1 H2. unfold _gender_bucket_cp. cbn [or_empty_cp].
  now rewrite strip_cp_spaces.
Qed.

(** *** ASCII text: the code-point functions are the ASCII ones *)

Hypothesis space_ok : space_table is_whitespace.

Lemma is_whitespace_ascii (c : ascii) :
  (N_of_ascii c < 128)%N -> is_whitespace (N_of_ascii c) = is_space c.
Proof. intros H. now rewrite (space_ok _ H), ascii_N_embedding. Qed.

Lemma to_upper_ascii (c : ascii) :
  (N_of_ascii c < 128)%N -> to_upper (N_of_ascii c) = [N_of_ascii (char_upper c)].
Proof. intros H. now rewrite (proj1 upper_ok _ H), ascii_N_embedding. Qed.

Lemma lstrip_code_points (s : string) :
  is_ascii s = true ->
  lstrip_cp is_whitespace (code_points s) = code_points (lstrip s).
Proof.
  induction s as [| c s IH]; [reflexivity |].
  cbn [is_ascii code_points lstrip lstrip_cp].
  intros [Hc Hs]%andb_true_iff. apply N.ltb_lt in Hc.
  rewrite (is_whitespace_ascii c Hc). destruct (is_space c); [auto | reflexivity].
Qed.

Lemma rstrip_code_points (s : string) :
  is_ascii s = true ->
  rstrip_cp is_whitespace (code_points s) = code_points (rstrip s).
Proof.
  induction s as [| c s IH]; [reflexivity |].
  cbn [is_ascii code_points rstrip rstrip_cp].
  intros [Hc Hs]%andb_true_iff. apply N.ltb_lt in Hc.
  rewrite (IH Hs), (is_whitespace_ascii c Hc).
  destruct (rstrip s); [destruct (is_space c) |]; reflexivity.
Qed.

Lemma is_ascii_lstrip (s : string) : is_ascii s = true -> is_ascii (lstrip s) = true.
Proof.
  induction s as [| c s IH]; [auto |]. cbn [is_ascii lstrip].
  intros [Hc Hs]%andb_true_iff.
  destruct (is_space c); [auto | cbn [is_ascii]; now rewrite Hc, Hs].
Qed.

Lemma is_ascii_rstrip (s : string) : is_ascii s = true -> is_ascii (rstrip s) = true.
Proof.
  induction s as [| c s IH]; [auto |]. cbn [is_ascii rstrip].
  intros [Hc Hs]%andb_true_iff. specialize (IH Hs).
  destruct (rstrip s) as [| d r].
  - destruct (is_space c); [reflexivity | cbn [is_ascii]; now rewrite Hc].
  - cbn [is_ascii] in *. now rewrite Hc, IH.
Qed.

Lemma is_ascii_map (f : ascii -> ascii) (s : string) :
  (forall a, (N_of_ascii (f a) <? 128)%N = (N_of_ascii a <? 128)%N) ->
  is_ascii (map_string f s) = is_ascii s.
Proof.
  intros Hf. induction s as [| c s IH]; [reflexivity |].
  cbn [is_ascii map_string]. now rewrite Hf, IH.
Qed.

Lemma upper_code_points (s : string) :
  is_ascii s = true -> upper_cp to_upper (code_points s) = code_points (upper s).
Proof.
  induction s as [| c s IH]; [reflexivity |]. cbn [is_ascii].
  intros [Hc Hs]%andb_true_iff. apply N.ltb_lt in Hc.
  rewrite upper_cons. cbn [code_points]. unfold upper_cp in *. cbn [flat_map].
  now rewrite (to_upper_ascii c Hc), (IH Hs).
Qed.

Lemma starts_with_code_points (s : string) (a : ascii) :
  starts_with_cp (code_points s) (N_of_ascii a) = startswith s (String a "").
Proof.
  destruct s as [| c s]; [reflexivity |].
  rewrite startswith_cons. cbn [code_points starts_with_cp]. apply N_of_ascii_eqb.
Qed.

Lemma gender_bucket_cp_ascii (s : string) :
  is_ascii s = true ->
  _gender_bucket_cp to_upper is_whitespace (Some (code_points s))
  = _gender_bucket (Some s).
Proof.
  intros Hs. unfold _gender_bucket_cp, _gender_bucket, strip_cp, strip.
  cbn [or_empty_cp or_empty]. cbv zeta.
  rewrite lstrip_code_points by exact Hs.
  rewrite rstrip_code_points by now apply is_ascii_lstrip.
  rewrite upper_code_points by now apply is_ascii_rstrip, is_ascii_lstrip.
  change 77%N with (N_of_ascii "M"). change 70%N with (N_of_ascii "F").
  now rewrite !starts_with_code_points.
Qed.
End UpperTable.

Lemma known_upper_table : upper_table known_upper.
Proof.
  split; intros c Hc; unfold known_upper.
  - destruct (N.ltb_spec c 128); [reflexivity | lia].
  - destruct (N.ltb_spec c 128); [lia |].
    repeat match goal with
           | |- context [(c =? ?k)%N] => destruct (N.eqb_spec c k)
           end;
      eexists _, _; (split; [reflexivity |]); split; lia.
Qed.

Lemma py_isspace_table : space_table py_isspace.
Proof.
  intros c Hc.
  assert (E : N_of_ascii (ascii_of_N c) = c) by (apply N_ascii_embedding; lia).
  rewrite <- E in Hc. rewrite <- E at 1. clear E. revert Hc.
  generalize (ascii_of_N c). intros a.
  each_char a; intros Hc; try reflexivity; vm_compute in Hc; discriminate Hc.
Qed.

(** C10, as the code has it: the bucket is defined on every text and on
    [None]: 0 when the trimmed text starts with M or m; 1 when it starts
    with F or f, or with one of the ligatures U+FB00 to U+FB04, which
    upper-case to text starting with F; 2 otherwise, [None] and the empty
    text giving 2; padding the text with white space does not change it.
    On ASCII text it is the bucket of the ASCII functions, which
    upper-casing or lower-casing the text does not change. *)
Theorem gender_bucket_total (to_upper : N -> list N) (is_whitespace : N -> bool)
    (g : option (list N)) :
  upper_table to_upper ->
  let bucket := _gender_bucket_cp to_upper is_whitespace in
  (bucket g
   = match strip_cp is_whitespace (or_empty_cp g) with
     | [] => 2
     | c :: _ =>
         if ((c =? 77) || (c =? 109))%N then 0
         else if ((c =? 70) || (c =? 102) || (64256 <=? c) && (c <=? 64260))%N
              then 1
         else 2
     end) /\
  bucket None = 2 /\
  bucket (Some []) = 2 /\
  (forall ws1 s ws2,
     forallb is_whitespace ws1 = true -> forallb is_whitespace ws2 = true ->
     bucket (Some (ws1 ++ s ++ ws2)%list) = bucket (Some s)) /\
  (space_table is_whitespace ->
   forall s, is_ascii s = true ->
     bucket (Some (code_points s)) = _gender_bucket (Some s) /\
     bucket (Some (code_points (upper s))) = bucket (Some (code_points s)) /\
     bucket (Some (code_points (lower s))) = bucket (Some (code_points s))).
Proof.
  intros Hup bucket. unfold bucket.
  split; [now apply gender_bucket_cp_cases |].
  split; [reflexivity |]. split; [reflexivity |].
  split; [apply gender_bucket_cp_spaces |].
  intros Hsp s Hs.
  assert (Hu : is_ascii (upper s) = true)
    by (unfold upper; now rewrite (is_ascii_map _ _ is_ascii_char_upper)).
  assert (Hl : is_ascii (lower s) = true)
    by (unfold lower; now rewrite (is_ascii_map _ _ is_ascii_char_lower)).
  rewrite !(gender_bucket_cp_ascii to_upper is_whitespace Hup Hsp) by assumption.
  now rewrite gender_bucket_upper, gender_bucket_lower.
Qed.

Lemma gender_bucket_total_witness :
  let bucket := _gender_bucket_cp known_upper py_isspace in
  (bucket (Some [160; 109; 32]%N)
   = match strip_cp py_isspace (or_empty_cp (Some [160; 109; 32]%N)) with
     | [] => 2
     | c :: _ =>
         if ((c =? 77) || (c =? 109))%N then 0
         else if ((c =? 70) || (c =? 102) || (64256 <=? c) && (c <=? 64260))%N
              then 1
         else 2
     end) /\
  bucket None = 2 /\
  bucket (Some []) = 2 /\
  (forall ws1 s ws2,
     forallb py_isspace ws1 = true -> forallb py_isspace ws2 = true ->
     bucket (Some (ws1 ++ s ++ ws2)%list) = bucket (Some s)) /\
  (space_table py_isspace ->
   forall s, is_ascii s = true ->
     bucket (Some (code_points s)) = _gender_bucket (Some s) /\
     bucket (Some (code_points (upper s))) = bucket (Some (code_points s)) /\
     bucket (Some (code_points (lower s))) = bucket (Some (code_points s))).
Proof.
  apply (gender_bucket_total known_upper py_isspace (Some [160; 109; 32]%N)).
  exact known_upper_table.
Defined.

(** C10 as stated fails: the text made of the ligature U+FB01 (fi) starts
    with none of M, m, F and f, has nothing to trim, and is in bucket 1,
    since it upper-cases to FI. *)
Lemma gender_bucket_ligature :
  strip_cp py_isspace [64257%N] = [64257%N] /\
  known_upper 64257 = [70; 73]%N /\
  _gender_bucket_cp known_upper py_isspace (Some [64257%N]) = 1.
Proof. repeat split; reflexivity. Qed.

(** A no-break space (U+00A0) in front of the text is trimmed like any
    other white space. *)
Example gender_bucket_no_break_space :
  _gender_bucket_cp known_upper py_isspace (Some [160; 77]%N) = 0 /\
  _gender_bucket_cp known_upper py_isspace (Some [160; 64257]%N) = 1.
Proof. split; reflexivity. Qed.

(** ** Roster routes *)

Lemma gst_en_loop_spec (grade : Z) (learners : list Learner.t) (rows : list Row.t) :
  gst_en_loop grade learners rows
  = (rows ++ map (roster_row grade) (List.filter on_roster learners))%list.
Proof.
  revert rows. induction learners as [| s learners IH]; intros rows.
  - simpl. now rewrite app_nil_r.
  - cbn [gst_en_loop List.filter]. unfold on_roster at 1.
    fold (eng_total s).
    destruct (Learner.took_eng s); cbn [negb andb]; [| apply IH].
    rewrite starting_point_for_discontinue, Z.ltb_antisym.
    destruct (DISCONTINUE_THRESHOLD <=? eng_total s); cbn [negb map].
    + apply IH.
    + rewrite IH, <- app_assoc. reflexivity.
Qed.

Lemma export_gst_en_loop_same (grade : Z) (learners : list Learner.t)
    (rows : list Row.t) :
  export_gst_en_loop grade learners rows = gst_en_loop grade learners rows.
Proof.
  revert rows. induction learners as [| s learners IH]; intros rows; simpl;
    [reflexivity |].
  now rewrite !IH.
Qed.

Lemma on_roster_iff (grade : Z) (s : Learner.t) :
  on_roster s = true <->
  Learner.took_eng s = true /\
  starting_point_for grade (eng_total s) <> "DISCONTINUE".
Proof.
  unfold on_roster. rewrite andb_true_iff, Z.ltb_antisym, negb_true_iff.
  rewrite <- starting_point_for_discontinue with (grade := grade).
  now rewrite String.eqb_neq.
Qed.

(** C9: the view and the export use the same roster; it holds one row per
    learner who took the test and is not discontinued (total below 28),
    carrying the computed total and starting point, and no row of a
    discontinued learner. *)
Theorem roster_omits_discontinued (grade : Z) (learners : list Learner.t) :
  let kept := List.filter on_roster learners in
  export_gst_en_docx grade learners = gst_en grade learners /\
  gst_en grade learners = _sort_rows (map (roster_row grade) kept) /\
  Permutation (gst_en grade learners) (map (roster_row grade) kept) /\
  length (gst_en grade learners) = length kept /\
  (forall s, In s kept <->
     In s learners /\ Learner.took_eng s = true /\ eng_total s < 28) /\
  (forall s, starting_point_for grade (eng_total s) = "DISCONTINUE" ->
     eng_total s >= 28 /\ ~ In s kept) /\
  (forall r, In r (gst_en grade learners) ->
     exists s, In s learners /\ Learner.took_eng s = true /\
       eng_total s < 28 /\
       Row.name r = Learner.name s /\ Row.gender r = Learner.gender s /\
       Row.score r = eng_total s /\
       Row.start r = starting_point_for grade (eng_total s) /\
       Row.start r <> "DISCONTINUE").
Proof.
  intros kept.
  assert (Hview : gst_en grade learners = _sort_rows (map (roster_row grade) kept)).
  { unfold gst_en. now rewrite gst_en_loop_spec. }
  assert (Hkept : forall s, In s kept <->
            In s learners /\ Learner.took_eng s = true /\ eng_total s < 28).
  { intros s. unfold kept. rewrite filter_In. unfold on_roster.
    rewrite andb_true_iff, Z.ltb_lt. unfold DISCONTINUE_THRESHOLD. tauto. }
  assert (Hperm : Permutation (gst_en grade learners) (map (roster_row grade) kept)).
  { rewrite Hview. apply py_sorted_perm. }
  split; [| split; [exact Hview | split; [exact Hperm | split; [| split; [exact Hkept |]]]]].
  - unfold export_gst_en_docx, gst_en.
    now rewrite export_gst_en_loop_same, sort_rows_idempotent.
  - rewrite (Permutation_length Hperm). apply length_map.
  - split.
    + intros s Hs.
      assert (Hge : eng_total s >= 28).
      { pose proof (starting_point_for_discontinue grade (eng_total s)) as E.
        rewrite Hs in E. simpl in E. symmetry in E.
        apply Z.leb_le in E. unfold DISCONTINUE_THRESHOLD in E. lia. }
      split; [exact Hge |]. rewrite Hkept. lia.
    + intros r Hr. apply (Permutation_in _ Hperm) in Hr.
      apply in_map_iff in Hr as (s & <- & Hs).
      exists s. pose proof (proj1 (Hkept s) Hs) as (Hin & Htook & Hlt).
      repeat split; try assumption; try reflexivity.
      simpl. rewrite starting_point_for_below by exact Hlt.
      apply grade_label_not_discontinue.
Qed.

(** ** Shape predicates *)


Lemma meta_table_small (tbl : table) :
  (length (tbl_rows tbl) < 3 \/ tbl_columns tbl < 4)%nat ->
  _looks_like_meta_table tbl = false.
Proof.
  intros H. unfold _looks_like_meta_table, meta_table_probe.
  destruct (Nat.leb_spec 3 (length (tbl_rows tbl))),
    (Nat.leb_spec 4 (tbl_columns tbl)); simpl; try reflexivity; lia.
Qed.







(** The metadata predicate reads positions 0 and 2 of the list of cells:
    with four grid columns and three rows of two cells that is the first
    cell of the first row and the first cell of the second row. *)
Example meta_table_two_cells_a_row :
  _looks_like_meta_table narrow_meta = true /\
  tbl_cell narrow_meta 0 2 = Ok (text_cell "Grade:").
Proof. split; reflexivity. Qed.

(** ** Template locator *)

Lemma find_from_ge {A} (P : nat -> A -> bool) (i : nat) (l : list A) (j : nat) :
  find_from P i l = Some j -> (i <= j)%nat.
Proof.
  revert i. induction l as [| x l IH]; intros i; simpl; [discriminate |].
  destruct (P i x); [intros [= <-]; lia |].
  intros H%IH. lia.
Qed.

Lemma find_from_ext {A} (P Q : nat -> A -> bool) (i : nat) (l : list A) :
  (forall j x, (i <= j)%nat -> P j x = Q j x) ->
  find_from P i l = find_from Q i l.
Proof.
  revert i. induction l as [| x l IH]; intros i E; simpl; [reflexivity |].
  rewrite E by lia. destruct (Q i x); [reflexivity |].
  apply IH. intros j y Hj. apply E. lia.
Qed.

Lemma find_from_Some {A} (P : nat -> A -> bool) (i : nat) (l : list A) (j : nat) :
  find_from P i l = Some j ->
  (i <= j)%nat /\
  (exists x, l !! (j - i)%nat = Some x /\ P j x = true) /\
  (forall k x, (i <= k < j)%nat -> l !! (k - i)%nat = Some x -> P k x = false).
Proof.
  revert i. induction l as [| x l IH]; intros i; simpl; [discriminate |].
  destruct (P i x) eqn:Hx.
  - intros [= <-]. split; [lia |]. split; [| intros; lia].
    exists x. now rewrite Nat.sub_diag.
  - intros (Hle & (y & Hy & HP) & Hbefore)%IH.
    split; [lia |]. split.
    + exists y. split; [| exact HP].
      replace (j - i)%nat with (S (j - S i)) by lia. exact Hy.
    + intros k z Hk Hz. destruct (decide (k = i)) as [-> | Hne].
      * rewrite Nat.sub_diag in Hz. simpl in Hz. congruence.
      * apply (Hbefore k z); [lia |].
        replace (k - i)%nat with (S (k - S i)) in Hz by lia. exact Hz.
Qed.

Lemma find_from_None {A} (P : nat -> A -> bool) (i : nat) (l : list A) :
  find_from P i l = None ->
  forall k x, l !! k = Some x -> P (i + k)%nat x = false.
Proof.
  revert i. induction l as [| x l IH]; intros i; simpl; [intros _ k y [=] |].
  destruct (P i x) eqn:Hx; [discriminate |].
  intros H [| k] y Hy; simpl in Hy.
  - injection Hy as <-. now rewrite Nat.add_0_r.
  - replace (i + S k)%nat with (S i + k)%nat by lia. now apply IH.
Qed.

(** With the metadata table already taken, the loop looks for the first
    results table and stops there. *)
Lemma scan_tables_meta_known (ts : list table) (i m : nat) :
  scan_tables ts i (Some m) None
  = (Some m, find_from results_pred i ts,
     match find_from results_pred i ts with
     | Some r => S r
     | None => (i + length ts)%nat
     end).
Proof.
  revert i. induction ts as [| t ts IH]; intros i; simpl.
  - now rewrite Nat.add_0_r.
  - change (results_pred i t) with (_looks_like_results_table t).
    destruct (_looks_like_results_table t); simpl.
    + reflexivity.
    + rewrite IH. now replace (S i + length ts)%nat with (i + S (length ts))%nat by lia.
Qed.

(** With the results table already taken, it looks for the first metadata
    table and stops there. *)
Lemma scan_tables_results_known (ts : list table) (i r : nat) :
  scan_tables ts i None (Some r)
  = (find_from meta_pred i ts, Some r,
     match find_from meta_pred i ts with
     | Some m => S m
     | None => (i + length ts)%nat
     end).
Proof.
  revert i. induction ts as [| t ts IH]; intros i; simpl.
  - now rewrite Nat.add_0_r.
  - change (meta_pred i t) with (_looks_like_meta_table t).
    destruct (_looks_like_meta_table t); simpl.
    + reflexivity.
    + rewrite IH. now replace (S i + length ts)%nat with (i + S (length ts))%nat by lia.
Qed.

Lemma scan_tables_fresh (ts : list table) (i : nat) :
  let m := find_from meta_pred i ts in
  let r := find_from (results_besides m) i ts in
  scan_tables ts i None None
  = (m, r, match m, r with
           | Some a, Some b => S (Nat.max a b)
           | _, _ => (i + length ts)%nat
           end).
Proof.
  revert i. induction ts as [| t ts IH]; intros i; cbv zeta.
  - simpl. now rewrite Nat.add_0_r.
  - cbn [scan_tables find_from is_none andb].
    change (meta_pred i t) with (_looks_like_meta_table t).
    destruct (_looks_like_meta_table t) eqn:Hm.
    + cbn [truthy is_none negb andb]. rewrite scan_tables_meta_known.
      assert (E1 : results_besides (Some i) i t = false).
      { unfold results_besides. cbn [is_table].
        now rewrite Nat.eqb_refl, andb_false_r. }
      assert (E2 : find_from (results_besides (Some i)) (S i) ts
                   = find_from results_pred (S i) ts).
      { apply find_from_ext. intros j x Hj.
        unfold results_besides, results_pred. cbn [is_table].
        replace (i =? j)%nat with false; [apply andb_true_r |].
        symmetry. apply Nat.eqb_neq. lia. }
      rewrite !E1, !E2.
      destruct (find_from results_pred (S i) ts) as [r |] eqn:Hr.
      * apply find_from_ge in Hr. f_equal. lia.
      * f_equal. simpl. lia.
    + assert (Hnot : is_table (find_from meta_pred (S i) ts) i = false).
      { destruct (find_from meta_pred (S i) ts) as [a |] eqn:Ha; [| reflexivity].
        apply find_from_ge in Ha. simpl. apply Nat.eqb_neq. lia. }
      assert (E1 : results_besides (find_from meta_pred (S i) ts) i t
                   = _looks_like_results_table t).
      { unfold results_besides. now rewrite Hnot, andb_true_r. }
      rewrite !E1.
      destruct (_looks_like_results_table t) eqn:Hr.
      * cbn [truthy is_none negb andb]. rewrite scan_tables_results_known.
        destruct (find_from meta_pred (S i) ts) as [a |] eqn:Ha.
        -- apply find_from_ge in Ha. f_equal. lia.
        -- f_equal. simpl. lia.
      * cbn [truthy is_none negb andb]. rewrite (IH (S i)).
        destruct (find_from meta_pred (S i) ts), (find_from _ (S i) ts);
          f_equal; simpl; lia.
Qed.

Lemma locate_tables_eq (doc : document) :
  let m := find_from meta_pred 0 doc in
  let r := find_from (results_besides m) 0 doc in
  locate_tables doc
  = (m, r, match m, r with
           | Some a, Some b => S (Nat.max a b)
           | _, _ => length doc
           end).
Proof. apply (scan_tables_fresh doc 0). Qed.

Lemma find_from_first (P : nat -> table -> bool) (doc : document) (j : nat) :
  find_from P 0 doc = Some j -> first_at P doc j.
Proof.
  intros (_ & (t & Ht & HP) & Hbefore)%find_from_Some.
  rewrite Nat.sub_0_r in Ht. split; [eauto |].
  intros k x Hk Hx. apply (Hbefore k x); [lia |]. now rewrite Nat.sub_0_r.
Qed.

(** C5, as the code has it: the metadata table is the first table that
    passes the metadata predicate; the results table is the first table
    that passes the results predicate and is not the table taken as
    metadata table; the loop stops at the table that completes the pair. *)
Theorem locate_tables_first_match (doc : document) :
  exists m r n,
    locate_tables doc = (m, r, n) /\
    match m with
    | Some j => first_at meta_pred doc j
    | None => forall k t, doc !! k = Some t -> _looks_like_meta_table t = false
    end /\
    match r with
    | Some j => first_at (results_besides m) doc j
    | None => forall k t, doc !! k = Some t ->
                _looks_like_results_table t = true -> m = Some k
    end /\
    n = match m, r with
        | Some a, Some b => S (Nat.max a b)
        | _, _ => length doc
        end.
Proof.
  eexists _, _, _. split; [apply locate_tables_eq |]. cbv zeta.
  split; [| split; [| reflexivity]].
  - destruct (find_from meta_pred 0 doc) as [j |] eqn:Hm.
    + now apply find_from_first.
    + intros k t Ht. apply (find_from_None _ _ _ Hm k t Ht).
  - destruct (find_from (results_besides _) 0 doc) as [j |] eqn:Hr.
    + now apply find_from_first.
    + intros k t Ht Hres. pose proof (find_from_None _ _ _ Hr k t Ht) as H.
      unfold results_besides in H. rewrite Hres in H. simpl in H.
      apply negb_false_iff in H.
      destruct (find_from meta_pred 0 doc) as [a |]; [| discriminate].
      simpl in H. apply Nat.eqb_eq in H. now subst.
Qed.

(** C5 as stated fails: the first table passes both predicates, is taken as
    metadata table, and the results table is the second one. *)
Lemma locate_tables_not_independent :
  _looks_like_results_table sample_both = true /\
  _looks_like_meta_table sample_both = true /\
  locate_tables [sample_both; sample_results] = (Some 0%nat, Some 1%nat, 2%nat).
Proof. repeat split; reflexivity. Qed.

(** ** Template populator *)

Lemma find_from_None_iff {A} (P : nat -> A -> bool) (i : nat) (l : list A) :
  find_from P i l = None <->
  forall k x, l !! k = Some x -> P (i + k)%nat x = false.
Proof.
  split; [apply find_from_None |].
  revert i. induction l as [| x l IH]; intros i H; simpl; [reflexivity |].
  pose proof (H 0%nat x eq_refl) as Hx. rewrite Nat.add_0_r in Hx. rewrite Hx.
  apply IH. intros k y Hy.
  replace (S i + k)%nat with (i + S k)%nat by lia. now apply H.
Qed.

Lemma bind_Ok {A B} (m : result A) (k : A -> result B) (b : B) :
  bind m k = Ok b -> exists a, m = Ok a /\ k a = Ok b.
Proof. destruct m as [a | e]; simpl; [eauto | discriminate]. Qed.

Lemma index_Ok {A} (l : list A) (i : nat) (x : A) :
  index l i = Ok x <-> l !! i = Some x.
Proof.
  unfold index. destruct (l !! i); split; intros H; congruence.
Qed.

(** *** Writes through [tbl.cell] *)

Lemma concat_alter_cells (f : cell -> cell) (i : nat) (rows : list (list cell)) :
  concat (alter_cells f i rows) = alter f i (concat rows).
Proof.
  revert i. induction rows as [| row rows IH]; intros i; [reflexivity |].
  cbn [alter_cells concat].
  destruct (Nat.ltb_spec i (length row)) as [Hlt | Hge]; cbn [concat].
  - now rewrite alter_app_l.
  - now rewrite IH, alter_app_r_alt.
Qed.

Lemma alter_cells_lengths (f : cell -> cell) (i : nat) (rows : list (list cell)) :
  map length (alter_cells f i rows) = map length rows.
Proof.
  revert i. induction rows as [| row rows IH]; intros i; [reflexivity |].
  cbn [alter_cells]. destruct (i <? length row)%nat; cbn [map].
  - now rewrite length_alter.
  - now rewrite IH.
Qed.

Lemma alter_cells_cells (f : cell -> cell) (i : nat) (rows : list (list cell)) :
  length (concat (alter_cells f i rows)) = length (concat rows).
Proof. now rewrite concat_alter_cells, length_alter. Qed.

(** A write through [tbl.cell(r, c)] needs the position to exist in the
    list of cells and changes the cell at that position. *)
Lemma with_tbl_cell_eval (r c : nat) (f : cell -> cell) (n : nat)
    (rows : list (list cell)) :
  with_tbl_cell r c f (mk_table n rows)
  = if (cell_idx n r c <? length (concat rows))%nat
    then Ok (mk_table n (alter_cells f (cell_idx n r c) rows))
    else Raise IndexError.
Proof.
  unfold with_tbl_cell, tbl_cell, table_cells, index. cbn [tbl_rows tbl_columns].
  destruct (Nat.ltb_spec (cell_idx n r c) (length (concat rows))) as [H | H].
  - destruct (lookup_lt_is_Some_2 _ _ H) as [x ->]. reflexivity.
  - now rewrite lookup_ge_None_2.
Qed.

Lemma with_tbl_cell_step {B} (r c : nat) (f : cell -> cell) (n : nat)
    (rows : list (list cell)) (K : table -> result B) :
  (t <- with_tbl_cell r c f (mk_table n rows) ;; K t)
  = if (cell_idx n r c <? length (concat rows))%nat
    then K (mk_table n (alter_cells f (cell_idx n r c) rows))
    else Raise IndexError.
Proof. rewrite with_tbl_cell_eval. now destruct (_ <? _)%nat. Qed.

(** The metadata phase, evaluated: it succeeds exactly when the position of
    [tbl.cell(2, 3)] exists. *)
Lemma fill_meta_values_eval (cls_dict : ClsDict.t) (tt : string) (n : nat)
    (rows : list (list cell)) :
  fill_meta_values cls_dict tt (mk_table n rows)
  = if (cell_idx n 2 3 <? length (concat rows))%nat
    then Ok (mk_table n (map (map _set_cell_paras_no_space)
                           (meta_rows_written cls_dict tt n rows)))
    else Raise IndexError.
Proof.
  unfold fill_meta_values, meta_rows_written. cbv zeta.
  repeat (rewrite with_tbl_cell_step; cbv beta).
  rewrite !alter_cells_cells. cbn [bind tbl_columns tbl_rows].
  unfold cell_idx.
  repeat match goal with
         | |- context [(?a <? ?b)%nat] => destruct (Nat.ltb_spec a b)
         end; try reflexivity; lia.
Qed.

Lemma lookup_alter_if {A} (f : A -> A) (l : list A) (i j : nat) :
  alter f i l !! j = (if (j =? i)%nat then f else id) <$> l !! j.
Proof.
  destruct (Nat.eqb_spec j i) as [-> | Hne].
  - apply list_lookup_alter_eq.
  - rewrite list_lookup_alter_ne by congruence. now destruct (l !! j).
Qed.

(** What a successful metadata phase does, cell by cell of the list of
    cells. *)
Lemma fill_meta_values_cells (cls_dict : ClsDict.t) (tt : string) (t t' : table) :
  fill_meta_values cls_dict tt t = Ok t' ->
  tbl_columns t' = tbl_columns t /\
  map length (tbl_rows t') = map length (tbl_rows t) /\
  meta_table_fits t /\
  forall i, table_cells t' !! i
            = populated_cell_at cls_dict tt (tbl_columns t) i <$> table_cells t !! i.
Proof.
  destruct t as [n rows]. rewrite fill_meta_values_eval. unfold meta_table_fits.
  cbn [tbl_columns tbl_rows table_cells].
  destruct (Nat.ltb_spec (cell_idx n 2 3) (length (concat rows))) as [Hfit | Hfit];
    [| discriminate].
  intros [= <-]. cbn [tbl_columns tbl_rows].
  split; [reflexivity |]. split; [| split; [exact Hfit |]].
  - rewrite map_map. unfold meta_rows_written. cbv zeta.
    erewrite map_ext by (intros; apply length_map).
    now rewrite !alter_cells_lengths.
  - intros i. unfold table_cells. cbn [tbl_rows].
    rewrite <- concat_map. unfold meta_rows_written. cbv zeta.
    rewrite !concat_alter_cells, list_lookup_fmap, !lookup_alter_if.
    destruct (concat rows !! i) as [x |]; [| reflexivity].
    cbn [fmap option_fmap option_map]. f_equal.
    unfold populated_cell_at, meta_value_at.
    destruct (i =? cell_idx n 2 3)%nat, (i =? cell_idx n 2 1)%nat,
      (i =? cell_idx n 1 3)%nat, (i =? cell_idx n 1 1)%nat,
      (i =? cell_idx n 0 3)%nat, (i =? cell_idx n 0 1)%nat; reflexivity.
Qed.

Lemma with_table_Ok (i : nat) (f : table -> result table) (doc doc' : document) :
  with_table i f doc = Ok doc' ->
  exists t t', doc !! i = Some t /\ f t = Ok t' /\ doc' = <[i := t']> doc.
Proof.
  unfold with_table.
  intros (t & Ht%index_Ok & (t' & Ht' & [= <-])%bind_Ok)%bind_Ok. eauto.
Qed.

Lemma fill_template_tables_cases (doc : document) (cls_dict : ClsDict.t)
    (rows : list Row.t) (tt : string) :
  let m := find_from meta_pred 0 doc in
  let r := find_from (results_besides m) 0 doc in
  _fill_template_tables doc cls_dict rows tt
  = match m, r with
    | Some a, Some b =>
        doc1 <- with_table a (fill_meta_values cls_dict tt) doc ;;
        doc2 <- with_table b (fill_results_rows rows) doc1 ;;
        Ok (doc2, true)
    | _, _ => Ok (doc, false)
    end.
Proof.
  cbv zeta. unfold _fill_template_tables. rewrite locate_tables_eq. cbv zeta.
  destruct (find_from meta_pred 0 doc) as [a |]; [| reflexivity].
  destruct (find_from (results_besides (Some a)) 0 doc); reflexivity.
Qed.

(** The two tables the locator takes are different tables. *)
Lemma located_tables_differ (doc : document) (a b : nat) :
  find_from (results_besides (Some a)) 0 doc = Some b -> a <> b.
Proof.
  intros (_ & (t & _ & Ht) & _)%find_from_Some.
  unfold results_besides in Ht. apply andb_true_iff in Ht as [_ Ht].
  apply negb_true_iff in Ht. simpl in Ht. now apply Nat.eqb_neq in Ht.
Qed.

Lemma no_meta_table_iff (doc : document) :
  find_from meta_pred 0 doc = None <->
  forall k t, doc !! k = Some t -> _looks_like_meta_table t = false.
Proof. apply find_from_None_iff. Qed.

Lemma no_results_table_iff (doc : document) (m : option nat) :
  find_from (results_besides m) 0 doc = None <->
  forall k t, doc !! k = Some t -> _looks_like_results_table t = true -> m = Some k.
Proof.
  rewrite find_from_None_iff. unfold results_besides. simpl.
  split; intros H k t Ht.
  - intros Hres. specialize (H k t Ht). rewrite Hres in H. simpl in H.
    apply negb_false_iff in H. destruct m as [a |]; [| discriminate].
    simpl in H. apply Nat.eqb_eq in H. now subst.
  - destruct (_looks_like_results_table t) eqn:Hres; [| reflexivity].
    rewrite (H k t Ht Hres). simpl. now rewrite Nat.eqb_refl.
Qed.

(** C3, as the code has it: the populator answers [false] exactly when the
    locator is left without a metadata table or without a results table
    (no table passes the metadata predicate, or none besides the metadata
    table passes the results predicate), and then it has written nothing;
    with both tables located it never answers [false]. *)
Theorem fill_template_tables_false (doc : document) (cls_dict : ClsDict.t)
    (rows : list Row.t) (tt : string) :
  exists m r n,
    locate_tables doc = (m, r, n) /\
    (m = None <->
     forall k t, doc !! k = Some t -> _looks_like_meta_table t = false) /\
    (r = None <->
     forall k t, doc !! k = Some t -> _looks_like_results_table t = true ->
                 m = Some k) /\
    (m = None \/ r = None ->
     _fill_template_tables doc cls_dict rows tt = Ok (doc, false)) /\
    (forall doc', _fill_template_tables doc cls_dict rows tt = Ok (doc', false) ->
                  (m = None \/ r = None) /\ doc' = doc).
Proof.
  eexists _, _, _. split; [apply locate_tables_eq |]. cbv zeta.
  split; [apply no_meta_table_iff |].
  split; [apply no_results_table_iff |].
  rewrite fill_template_tables_cases. cbv zeta.
  destruct (find_from meta_pred 0 doc) as [a |].
  - destruct (find_from (results_besides (Some a)) 0 doc) as [b |].
    + split; [intros [[=] | [=]] |].
      intros doc' H. exfalso.
      destruct (with_table a _ doc) as [doc1 | e]; [| discriminate].
      cbn [bind] in H.
      destruct (with_table b _ doc1) as [doc2 | e]; discriminate.
    + split; [reflexivity |]. intros doc' [= <-]. auto.
  - split; [reflexivity |]. intros doc' [= <-]. auto.
Qed.

(** C3 as stated fails: with the metadata table present and the results
    table missing, the populator answers [false] and writes nothing. *)
Lemma fill_template_tables_one_found :
  _looks_like_meta_table sample_meta = true /\
  locate_tables [sample_meta] = (Some 0%nat, None, 1%nat) /\
  _fill_template_tables [sample_meta] sample_cls sample_rows sample_type
  = Ok ([sample_meta], false).
Proof. repeat split; reflexivity. Qed.

(** With both tables located the populator can still fail: a results table
    with fewer than five columns makes [cells[4]] raise. *)
Example fill_template_tables_narrow_results :
  locate_tables [sample_meta; sample_both] = (Some 0%nat, Some 1%nat, 2%nat) /\
  _fill_template_tables [sample_meta; sample_both] sample_cls sample_rows sample_type
  = Raise IndexError.
Proof. split; reflexivity. Qed.

(** Tight spacing leaves the text, the runs, the alignment and the cell
    properties as they were. *)
Lemma set_cell_paras_no_space_keeps (x : cell) :
  cell_text (_set_cell_paras_no_space x) = cell_text x /\
  map runs (paragraphs (_set_cell_paras_no_space x)) = map runs (paragraphs x) /\
  map p_alignment (paragraphs (_set_cell_paras_no_space x))
  = map p_alignment (paragraphs x) /\
  cell_props (_set_cell_paras_no_space x) = cell_props x.
Proof.
  unfold cell_text, _set_cell_paras_no_space. cbn [paragraphs cell_props].
  rewrite !map_map. repeat split.
Qed.

(** A written value cell: one tight paragraph, the text upper-cased in a
    run that is underlined and not bold. *)
Lemma value_cell_content (v : option string) (x : cell) :
  let y := _set_cell_paras_no_space (_cell_set_text v false true None true x) in
  paragraphs y = [value_paragraph (upper (or_empty v))] /\
  cell_text y = upper (or_empty v) /\
  cell_props y = cell_props x.
Proof. cbv zeta. repeat split. Qed.

Lemma fill_template_tables_meta (doc doc' : document) (cls_dict : ClsDict.t)
    (rows : list Row.t) (tt : string) :
  _fill_template_tables doc cls_dict rows tt = Ok (doc', true) ->
  exists m mt mt',
    find_from meta_pred 0 doc = Some m /\
    doc !! m = Some mt /\ doc' !! m = Some mt' /\
    fill_meta_values cls_dict tt mt = Ok mt'.
Proof.
  rewrite fill_template_tables_cases. cbv zeta.
  destruct (find_from meta_pred 0 doc) as [a |]; [| discriminate].
  destruct (find_from (results_besides (Some a)) 0 doc) as [b |] eqn:Hb;
    [| discriminate].
  apply located_tables_differ in Hb.
  intros (doc1 & (mt & mt' & Hmt & Hfill & ->)%with_table_Ok &
          (doc2 & (rt & rt' & Hrt & _ & ->)%with_table_Ok & [= <-])%bind_Ok)%bind_Ok.
  exists a, mt, mt'.
  split; [reflexivity |]. split; [exact Hmt |]. split; [| exact Hfill].
  rewrite list_lookup_insert_ne by congruence.
  apply list_lookup_insert_eq. eapply lookup_lt_Some; eassumption.
Qed.

(** C4, the code at a template of the Filipino layout: the label cell
    "Guro:" of the metadata table comes with 6pt after its paragraph; after
    population it is in the same place with the same red bold run, but the
    spacing of its paragraph has been set to none, by the loop over every
    cell of the table that follows the six writes. *)
Theorem fill_meta_respaces_labels :
  _fill_template_tables sample_doc sample_cls sample_rows sample_type
  = Ok (sample_filled, true) /\
  (t <- index sample_doc 0 ;; row <- index (tbl_rows t) 0 ;; index row 0)
  = Ok (red_label "Guro:") /\
  (t <- index sample_filled 0 ;; row <- index (tbl_rows t) 0 ;; index row 0)
  = Ok (_set_cell_paras_no_space (red_label "Guro:")) /\
  map space_after (paragraphs (red_label "Guro:")) = [Some 76200] /\
  map space_after (paragraphs (_set_cell_paras_no_space (red_label "Guro:")))
  = [Some 0] /\
  map line_spacing (paragraphs (red_label "Guro:")) = [None] /\
  map line_spacing (paragraphs (_set_cell_paras_no_space (red_label "Guro:")))
  = [Some (Lines 240)] /\
  map runs (paragraphs (_set_cell_paras_no_space (red_label "Guro:")))
  = [[mk_run "Guro:" (Some true) None (Some "FF0000")]].
Proof. repeat split; reflexivity. Qed.

(** On a metadata table whose rows hold more cells than the table has grid
    columns, the positions of the six writes fall on other cells: with four
    grid columns and five cells a row, the labels "School:" and "Section:"
    are overwritten. *)
Example fill_meta_wide_rows :
  exists doc',
    _fill_template_tables [wide_meta; sample_results] sample_cls sample_rows
      sample_type = Ok (doc', true) /\
    table_texts <$> doc' !! 0%nat
    = Some [ ["Teacher:"; "SANTOS"; "Grade:"; "7"; "x"];
             ["RIZAL HIGH"; ""; "A"; ""; "SCREENING TEST LEVEL (FILIPINO)"];
             ["Type of Test:"; ""; "Date:"; ""; "x"] ].
Proof. eexists. split; reflexivity. Qed.


(** * Further properties *)

(** ** Logic helpers *)

(** X1: with [lo <= hi], [clamp] answers a value of the range, the bound
    nearest to a value outside of it and the value itself inside of it;
    the grade stored by the class routes is therefore between 1 and 12. *)
Theorem clamp_range (n lo hi : Z) :
  lo <= hi ->
  lo <= clamp n lo hi <= hi /\
  (lo <= n <= hi -> clamp n lo hi = n) /\
  (n < lo -> clamp n lo hi = lo) /\
  (hi < n -> clamp n lo hi = hi) /\
  clamp (clamp n lo hi) lo hi = clamp n lo hi /\
  1 <= clamp n 1 12 <= 12.
Proof. unfold clamp. lia. Qed.

Lemma clamp_range_witness :
  1 <= clamp 15 1 12 <= 12 /\
  (1 <= 15 <= 12 -> clamp 15 1 12 = 15) /\
  (15 < 1 -> clamp 15 1 12 = 1) /\
  (12 < 15 -> clamp 15 1 12 = 12) /\
  clamp (clamp 15 1 12) 1 12 = clamp 15 1 12 /\
  1 <= clamp 15 1 12 <= 12.
Proof. apply (clamp_range 15 1 12). lia. Defined.

(** X2: below the discontinue threshold the starting grade is two grades
    under the class grade for totals from 16 and three grades under it for
    smaller totals, never less than 1; it does not decrease when the class
    grade grows, and for a class grade from 1 to 12 it is between 1 and
    10. *)
Theorem starting_grade_bounds (g total : Z) :
  total < DISCONTINUE_THRESHOLD ->
  exists L,
    grade_number (starting_point_for g total) = Some L /\
    L = Z.max 1 (if ONE_BELOW_THRESHOLD <=? total then g - 2 else g - 3) /\
    1 <= L /\
    (3 <= g -> L < g) /\
    (1 <= g <= 12 -> L <= 10) /\
    (forall g', g <= g' ->
       exists L', grade_number (starting_point_for g' total) = Some L' /\ L <= L').
Proof.
  unfold DISCONTINUE_THRESHOLD. intros Hlt.
  exists (start_level g total).
  rewrite starting_point_for_below, grade_number_label by exact Hlt.
  split; [reflexivity |].
  assert (Hform : forall x, start_level x total
            = Z.max 1 (if ONE_BELOW_THRESHOLD <=? total then x - 2 else x - 3)).
  { intros x. unfold start_level. cbv zeta.
    destruct (ONE_BELOW_THRESHOLD <=? total); lia. }
  split; [apply Hform |].
  rewrite Hform.
  split; [lia |].
  split; [destruct (ONE_BELOW_THRESHOLD <=? total); lia |].
  split; [destruct (ONE_BELOW_THRESHOLD <=? total); lia |].
  intros g' Hg. exists (start_level g' total).
  rewrite starting_point_for_below, grade_number_label by exact Hlt.
  split; [reflexivity |]. rewrite Hform.
  destruct (ONE_BELOW_THRESHOLD <=? total); lia.
Qed.

Lemma starting_grade_bounds_witness :
  exists L,
    grade_number (starting_point_for 7 20) = Some L /\
    L = Z.max 1 (if ONE_BELOW_THRESHOLD <=? 20 then 7 - 2 else 7 - 3) /\
    1 <= L /\
    (3 <= 7 -> L < 7) /\
    (1 <= 7 <= 12 -> L <= 10) /\
    (forall g', 7 <= g' ->
       exists L', grade_number (starting_point_for g' 20) = Some L' /\ L <= L').
Proof.
  apply (starting_grade_bounds 7 20). unfold DISCONTINUE_THRESHOLD. lia.
Defined.

(** ** Roster ordering *)

(** X3: sorting a sorted roster changes nothing, so the second sort done by
    the builder, and both sorts of the legacy export route, give what one
    sort gives. *)
Theorem sort_rows_twice (rows : list Row.t) :
  _sort_rows (_sort_rows rows) = _sort_rows rows /\
  export_gst_docx_post rows = _sort_rows rows /\
  (StronglySorted (fun a b => key_le (sort_key a) (sort_key b)) rows ->
   _sort_rows rows = rows).
Proof.
  assert (H : _sort_rows (_sort_rows rows) = _sort_rows rows).
  { apply py_sorted_fixed, py_sorted_sorted.
    - exact key_ltb_asym.
    - exact key_ltb_negtrans. }
  split; [exact H | split; [exact H |]].
  clear H. intros Hs. apply py_sorted_fixed.
  induction Hs as [| x l Hs IH Hx]; [constructor |].
  constructor; [exact IH |].
  eapply Forall_impl; [exact Hx |].
  intros y Hy. now apply key_ltb_le.
Qed.

Lemma key_injective_on (l : list Row.t) (x y : Row.t) :
  NoDup (map sort_key l) -> x ∈ l -> y ∈ l -> sort_key x = sort_key y -> x = y.
Proof.
  induction l as [| z l IH]; [intros _ Hx; inversion Hx |].
  cbn [map]. intros [Hz Hnd]%NoDup_cons Hx Hy Hk.
  apply elem_of_cons in Hx as [-> | Hx]; apply elem_of_cons in Hy as [-> | Hy].
  - reflexivity.
  - exfalso. apply Hz. rewrite Hk. now apply list_elem_of_fmap_2.
  - exfalso. apply Hz. rewrite <- Hk. now apply list_elem_of_fmap_2.
  - now apply IH.
Qed.

Lemma sort_rows_perm (rows rows' : list Row.t) :
  NoDup (map sort_key rows) -> Permutation rows rows' ->
  _sort_rows rows = _sort_rows rows'.
Proof.
  intros Hnd Hperm.
  apply (StronglySorted_unique_strong
           (fun a b => key_le (sort_key a) (sort_key b))).
  - intros x1 x2 H1 H2 H12 H21.
    apply (key_injective_on rows); [exact Hnd | | |].
    + rewrite <- (py_sorted_perm sort_key key_ltb rows). exact H1.
    + rewrite Hperm, <- (py_sorted_perm sort_key key_ltb rows'). exact H2.
    + now apply key_le_antisym.
  - apply sort_rows_sorted.
  - apply sort_rows_sorted.
  - unfold _sort_rows. now rewrite !py_sorted_perm.
Qed.

(** X4: when no two rows share a sort key, the sorted roster does not
    depend on the order in which the rows come in. *)
Theorem sort_rows_canonical (rows rows' : list Row.t) :
  NoDup (map sort_key rows) -> Permutation rows rows' ->
  _sort_rows rows = _sort_rows rows'.
Proof. apply sort_rows_perm. Qed.

Lemma sort_rows_canonical_witness :
  _sort_rows [maria 3 "Grade 1"; juan 20 "Grade 5"]
  = _sort_rows [juan 20 "Grade 5"; maria 3 "Grade 1"].
Proof.
  apply sort_rows_canonical.
  - vm_compute. repeat constructor; rewrite ?elem_of_cons, ?elem_of_nil;
      intros H; repeat destruct H as [H | H]; try discriminate H; exact H.
  - apply perm_swap.
Defined.

(** ** Filipino roster routes *)

Lemma gst_fil_loop_spec (grade : Z) (learners : list Learner.t) (rows : list Row.t) :
  gst_fil_loop grade learners rows
  = (rows ++ map (roster_row_fil grade) (List.filter on_roster_fil learners))%list.
Proof.
  revert rows. induction learners as [| s learners IH]; intros rows.
  - simpl. now rewrite app_nil_r.
  - cbn [gst_fil_loop List.filter]. unfold on_roster_fil at 1.
    fold (fil_total s).
    destruct (Learner.took_fil s); cbn [negb andb]; [| apply IH].
    rewrite starting_point_for_discontinue, Z.ltb_antisym.
    destruct (DISCONTINUE_THRESHOLD <=? fil_total s); cbn [negb map].
    + apply IH.
    + rewrite IH, <- app_assoc. reflexivity.
Qed.

Lemma export_gst_fil_loop_same (grade : Z) (learners : list Learner.t)
    (rows : list Row.t) :
  export_gst_fil_loop grade learners rows = gst_fil_loop grade learners rows.
Proof.
  revert rows. induction learners as [| s learners IH]; intros rows; simpl;
    [reflexivity |].
  now rewrite !IH.
Qed.

(** X5: the Filipino view and export use the same roster: the sorted list
    of one row per learner who took the Filipino test with a Filipino total
    below 28, carrying that total and its starting point; the English
    sub-scores and [took_eng] play no part in it. *)
Theorem roster_fil_omits_discontinued (grade : Z) (learners : list Learner.t) :
  let kept := List.filter on_roster_fil learners in
  export_gst_fil_docx grade learners = gst_fil grade learners /\
  gst_fil grade learners = _sort_rows (map (roster_row_fil grade) kept) /\
  Permutation (gst_fil grade learners) (map (roster_row_fil grade) kept) /\
  StronglySorted (fun a b => key_le (sort_key a) (sort_key b))
    (gst_fil grade learners) /\
  (forall s, In s kept <->
     In s learners /\ Learner.took_fil s = true /\ fil_total s < 28) /\
  (forall r, In r (gst_fil grade learners) ->
     Row.score r < 28 /\ Row.start r <> "DISCONTINUE" /\
     Row.start r = starting_point_for grade (Row.score r)).
Proof.
  intros kept.
  assert (Hview : gst_fil grade learners
                  = _sort_rows (map (roster_row_fil grade) kept)).
  { unfold gst_fil. now rewrite gst_fil_loop_spec. }
  assert (Hkept : forall s, In s kept <->
            In s learners /\ Learner.took_fil s = true /\ fil_total s < 28).
  { intros s. unfold kept. rewrite filter_In. unfold on_roster_fil.
    rewrite andb_true_iff, Z.ltb_lt. unfold DISCONTINUE_THRESHOLD. tauto. }
  assert (Hperm : Permutation (gst_fil grade learners)
                    (map (roster_row_fil grade) kept)).
  { rewrite Hview. apply py_sorted_perm. }
  split.
  { unfold export_gst_fil_docx, gst_fil.
    now rewrite export_gst_fil_loop_same, sort_rows_idempotent. }
  split; [exact Hview |]. split; [exact Hperm |].
  split; [rewrite Hview; apply sort_rows_sorted |].
  split; [exact Hkept |].
  intros r Hr. apply (Permutation_in _ Hperm) in Hr.
  apply in_map_iff in Hr as (s & <- & Hs).
  apply Hkept in Hs as (_ & _ & Hlt). cbn [Row.score Row.start roster_row_fil].
  split; [exact Hlt |]. split; [| reflexivity].
  rewrite starting_point_for_below by exact Hlt.
  apply grade_label_not_discontinue.
Qed.

(** ** Splitting by gender *)

Lemma is_male_first (x : Learner.t) (c : ascii) (g : string) :
  Learner.gender x = Some (String c g) ->
  is_male x = Ascii.eqb "M" (char_upper c).
Proof.
  intros E. unfold is_male. rewrite E. cbn [or_default].
  now rewrite upper_cons, startswith_cons.
Qed.

Lemma is_female_first (x : Learner.t) (c : ascii) (g : string) :
  Learner.gender x = Some (String c g) ->
  is_female x = Ascii.eqb "F" (char_upper c).
Proof.
  intros E. unfold is_female. rewrite E. cbn [or_default].
  now rewrite upper_cons, startswith_cons.
Qed.

(** X6: [split_by_gender] lists a learner with a missing or empty gender
    among the males and among the females; a learner with any other gender
    is listed at most once, among the males exactly when the gender starts
    with M or m and among the females exactly when it starts with F or f. *)
Theorem split_by_gender_spec (learners : list Learner.t) (x : Learner.t) :
  In x learners ->
  let males := fst (split_by_gender learners) in
  let females := snd (split_by_gender learners) in
  (Learner.gender x = None \/ Learner.gender x = Some "" ->
   In x males /\ In x females) /\
  (forall c g, Learner.gender x = Some (String c g) ->
     (In x males <-> c = "M"%char \/ c = "m"%char) /\
     (In x females <-> c = "F"%char \/ c = "f"%char) /\
     ~ (In x males /\ In x females)).
Proof.
  intros Hx males females. unfold males, females, split_by_gender.
  cbn [fst snd]. split.
  - intros [E | E]; rewrite !filter_In; unfold is_male, is_female; rewrite E;
      repeat split; (exact Hx || reflexivity).
  - intros c g E. rewrite !filter_In.
    rewrite (is_male_first x c g E), (is_female_first x c g E).
    assert (HM : Ascii.eqb "M" (char_upper c) = true <-> c = "M"%char \/ c = "m"%char).
    { rewrite Ascii.eqb_eq, <- char_upper_M. split; congruence. }
    assert (HF : Ascii.eqb "F" (char_upper c) = true <-> c = "F"%char \/ c = "f"%char).
    { rewrite Ascii.eqb_eq, <- char_upper_F. split; congruence. }
    split; [rewrite HM; tauto |]. split; [rewrite HF; tauto |].
    rewrite HM, HF. intros [[_ [-> | ->]] [_ [H | H]]]; discriminate H.
Qed.

Lemma split_by_gender_spec_witness :
  let learners := [sample_learner None; sample_learner (Some "f")] in
  let x := sample_learner None in
  let males := fst (split_by_gender learners) in
  let females := snd (split_by_gender learners) in
  (Learner.gender x = None \/ Learner.gender x = Some "" ->
   In x males /\ In x females) /\
  (forall c g, Learner.gender x = Some (String c g) ->
     (In x males <-> c = "M"%char \/ c = "m"%char) /\
     (In x females <-> c = "F"%char \/ c = "f"%char) /\
     ~ (In x males /\ In x females)).
Proof.
  apply (split_by_gender_spec
           [sample_learner None; sample_learner (Some "f")] (sample_learner None)).
  simpl. auto.
Defined.

(** ** Saving learners *)

Lemma rstrip_idem (s : string) : rstrip (rstrip s) = rstrip s.
Proof.
  induction s as [| c s IH]; [reflexivity |].
  cbn [rstrip]. destruct (rstrip s) as [| d r] eqn:E.
  - destruct (is_space c) eqn:Hc; [reflexivity |].
    cbn [rstrip]. now rewrite Hc.
  - cbn [rstrip] in *. cbn [rstrip]. fold (rstrip (String d r)).
    change (rstrip (String c (String d r))
            = String c (String d r)).
    cbn [rstrip]. fold (rstrip (String d r)). now rewrite IH.
Qed.

Lemma lstrip_head (s : string) :
  lstrip s = "" \/ exists c r, lstrip s = String c r /\ is_space c = false.
Proof.
  induction s as [| c s IH]; [now left |].
  cbn [lstrip]. destruct (is_space c) eqn:Hc; [exact IH | right; eauto].
Qed.

Lemma rstrip_cons_nonspace (c : ascii) (s : string) :
  is_space c = false -> exists r, rstrip (String c s) = String c r.
Proof.
  intros Hc. cbn [rstrip]. destruct (rstrip s); rewrite ?Hc; eauto.
Qed.

(** Trimmed text has nothing left to trim. *)
Lemma strip_idem (s : string) : strip (strip s) = strip s.
Proof.
  unfold strip. destruct (lstrip_head s) as [-> | (c & r & -> & Hc)];
    [reflexivity |].
  destruct (rstrip_cons_nonspace c r Hc) as [r' E].
  rewrite E at 1. cbn [lstrip]. rewrite Hc, <- E. apply rstrip_idem.
Qed.

Lemma posted_gender_char (f : field string) :
  exists c, upper (first_char (or_default "M" (get_or "M" f))) = String c ""
            /\ char_upper c = c.
Proof.
  destruct f as [| | [| c g]]; cbn.
  - exists "M"%char. split; reflexivity.
  - exists "M"%char. split; reflexivity.
  - exists "M"%char. split; reflexivity.
  - exists (char_upper c). split; [reflexivity | apply char_upper_idem].
Qed.

Lemma gender_bucket_stored (c : ascii) :
  char_upper c = c ->
  _gender_bucket (Some (String c ""))
  = if Ascii.eqb "M" c then 0 else if Ascii.eqb "F" c then 1 else 2.
Proof.
  intros Hu.
  destruct (Ascii.eqb_spec "M" c) as [<- | HM]; [reflexivity |].
  destruct (Ascii.eqb_spec "F" c) as [<- | HF]; [reflexivity |].
  apply gender_bucket_other; congruence.
Qed.

(** X7: for a posted gender that is absent, [null] or ASCII text, the
    gender [api_learners_save] stores is one character in its upper-case
    form, ["M"] when the posted gender is absent, [null] or empty; for such
    a stored learner [split_by_gender] and the roster's gender bucket agree
    (male exactly for bucket 0, female exactly for bucket 1), and the
    learner is not listed under both. *)
Theorem posted_gender_normalised (r : PostedRow.t) :
  (forall g, PostedRow.gender r = Val g -> is_ascii g = true) ->
  let x := posted_learner r in
  exists c,
    Learner.gender x = Some (String c "") /\ char_upper c = c /\
    (PostedRow.gender r = Missing \/ PostedRow.gender r = Null \/
     PostedRow.gender r = Val "" -> c = "M"%char) /\
    (forall d g, PostedRow.gender r = Val (String d g) -> c = char_upper d) /\
    (is_male x = true <-> _gender_bucket (Learner.gender x) = 0) /\
    (is_female x = true <-> _gender_bucket (Learner.gender x) = 1) /\
    is_male x && is_female x = false.
Proof.
  intros _. cbv zeta.
  destruct (posted_gender_char (PostedRow.gender r)) as (c & Ec & Hu).
  exists c. cbn [posted_learner Learner.gender]. rewrite Ec.
  split; [reflexivity |]. split; [exact Hu |].
  split.
  { intros [E | [E | E]]; rewrite E in Ec;
      cbn [get_or or_default first_char] in Ec; rewrite upper_cons in Ec;
      injection Ec as <-; reflexivity. }
  split.
  { intros d g E. rewrite E in Ec.
    cbn [get_or or_default first_char] in Ec. rewrite upper_cons in Ec.
    now injection Ec as <-. }
  assert (HM : is_male (posted_learner r) = Ascii.eqb "M" c).
  { rewrite (is_male_first _ c ""); [now rewrite Hu |].
    cbn [posted_learner Learner.gender]. now rewrite Ec. }
  assert (HF : is_female (posted_learner r) = Ascii.eqb "F" c).
  { rewrite (is_female_first _ c ""); [now rewrite Hu |].
    cbn [posted_learner Learner.gender]. now rewrite Ec. }
  rewrite HM, HF, (gender_bucket_stored c Hu).
  destruct (Ascii.eqb_spec "M" c) as [<- | HMc].
  - repeat split; intros; try reflexivity; discriminate.
  - destruct (Ascii.eqb "F" c); repeat split; intros; try reflexivity;
      discriminate.
Qed.

Lemma posted_gender_normalised_witness :
  let r := PostedRow.mk (Val " ana ") (Val "female") Missing Null
             (Val 3) Missing Null Missing Missing Missing in
  let x := posted_learner r in
  exists c,
    Learner.gender x = Some (String c "") /\ char_upper c = c /\
    (PostedRow.gender r = Missing \/ PostedRow.gender r = Null \/
     PostedRow.gender r = Val "" -> c = "M"%char) /\
    (forall d g, PostedRow.gender r = Val (String d g) -> c = char_upper d) /\
    (is_male x = true <-> _gender_bucket (Learner.gender x) = 0) /\
    (is_female x = true <-> _gender_bucket (Learner.gender x) = 1) /\
    is_male x && is_female x = false.
Proof.
  apply (posted_gender_normalised
           (PostedRow.mk (Val " ana ") (Val "female") Missing Null
              (Val 3) Missing Null Missing Missing Missing)).
  intros g [= <-]. reflexivity.
Defined.

Lemma stored_score (f : field Z) :
  or_zero (Some (or_zero (get_or 0 f))) = posted_score f.
Proof.
  destruct f as [| | v]; cbn [get_or posted_score]; try reflexivity.
  cbn [or_zero]. destruct (Z.eqb_spec v 0) as [-> | Hv]; [reflexivity |].
  destruct (Z.eqb_spec v 0); [contradiction | reflexivity].
Qed.

(** X8: a stored learner has every sub-score set, absent and [null] posted
    values counting as 0, so its totals are the sums of the posted values;
    its name is trimmed, trimming it again changes nothing and its roster
    sort key is the upper-cased name; the flags default to [true] when
    absent and are [false] for [null]; one learner is stored per posted
    row. *)
Theorem posted_learner_normalised (r : PostedRow.t) :
  let x := posted_learner r in
  eng_total x = posted_score (PostedRow.eng_literal r)
                + posted_score (PostedRow.eng_inferential r)
                + posted_score (PostedRow.eng_critical r) /\
  fil_total x = posted_score (PostedRow.fil_literal r)
                + posted_score (PostedRow.fil_inferential r)
                + posted_score (PostedRow.fil_critical r) /\
  (exists n, Learner.name x = Some n /\ strip n = n /\
     forall grade, snd (sort_key (roster_row grade x)) = upper n) /\
  (PostedRow.took_eng r = Missing -> Learner.took_eng x = true) /\
  (PostedRow.took_eng r = Null -> Learner.took_eng x = false) /\
  (forall rows, length (api_learners_save rows) = length rows).
Proof.
  cbv zeta.
  split.
  { unfold eng_total, compute_total. cbn [posted_learner Learner.eng_literal
      Learner.eng_inferential Learner.eng_critical].
    now rewrite !stored_score. }
  split.
  { unfold fil_total, compute_total. cbn [posted_learner Learner.fil_literal
      Learner.fil_inferential Learner.fil_critical].
    now rewrite !stored_score. }
  split.
  { eexists. split; [reflexivity |]. split; [apply strip_idem |].
    intros grade. unfold sort_key, roster_row.
    cbn [snd Row.name Learner.name posted_learner or_empty].
    now rewrite strip_idem. }
  split; [intros E; cbn; now rewrite E |].
  split; [intros E; cbn; now rewrite E |].
  intros rows. apply length_map.
Qed.

(** ** Shape predicates and cell writes *)

Lemma table_texts_cells (t t' : table) :
  table_texts t = table_texts t' ->
  map cell_text (table_cells t) = map cell_text (table_cells t').
Proof.
  unfold table_texts, table_cells. intros H. rewrite !concat_map. now rewrite H.
Qed.

Lemma table_texts_cell (t t' : table) (r c : nat) :
  tbl_columns t = tbl_columns t' -> table_texts t = table_texts t' ->
  match tbl_cell t r c, tbl_cell t' r c with
  | Ok x, Ok x' => cell_text x = cell_text x'
  | Raise _, Raise _ => True
  | _, _ => False
  end.
Proof.
  intros Hcols H%table_texts_cells. unfold tbl_cell, index. rewrite Hcols.
  set (i := cell_idx (tbl_columns t') r c).
  assert (Hi : map cell_text (table_cells t) !! i
               = map cell_text (table_cells t') !! i) by now rewrite H.
  rewrite !list_lookup_fmap in Hi.
  destruct (table_cells t !! i), (table_cells t' !! i); cbn in Hi;
    try discriminate Hi; [now injection Hi | exact I].
Qed.

(** X9: the two shape predicates look at nothing but the declared column
    count and the texts of the cells: tables that agree on these get the
    same answers, whatever their formatting. *)
Theorem shape_predicates_text_only (t t' : table) :
  tbl_columns t = tbl_columns t' -> table_texts t = table_texts t' ->
  _looks_like_meta_table t = _looks_like_meta_table t' /\
  _looks_like_results_table t = _looks_like_results_table t'.
Proof.
  intros Hcols Htexts.
  assert (Hlen : length (tbl_rows t) = length (tbl_rows t')).
  { unfold table_texts in Htexts.
    rewrite <- (length_map (map cell_text) (tbl_rows t)), Htexts.
    apply length_map. }
  split.
  - unfold _looks_like_meta_table, meta_table_probe. rewrite Hcols, Hlen.
    destruct (_ && _); [| reflexivity].
    pose proof (table_texts_cell t t' 0 0 Hcols Htexts) as H00.
    pose proof (table_texts_cell t t' 0 2 Hcols Htexts) as H02.
    destruct (tbl_cell t 0 0), (tbl_cell t' 0 0); try contradiction;
      cbn [bind try_except]; [| reflexivity].
    destruct (tbl_cell t 0 2), (tbl_cell t' 0 2); try contradiction;
      cbn [bind try_except]; [| reflexivity].
    now rewrite H00, H02.
  - unfold _looks_like_results_table, results_table_probe, index.
    unfold table_texts in Htexts.
    assert (H0 : map (map cell_text) (tbl_rows t) !! 0%nat
                 = map (map cell_text) (tbl_rows t') !! 0%nat)
      by now rewrite Htexts.
    rewrite !list_lookup_fmap in H0.
    destruct (tbl_rows t !! 0%nat) as [row |], (tbl_rows t' !! 0%nat) as [row' |];
      cbn in H0; try discriminate H0; cbn [bind try_except]; [| reflexivity].
    injection H0 as H0.
    assert (E : map (fun c => upper (strip (cell_text c))) row
                = map (fun c => upper (strip (cell_text c))) row').
    { rewrite <- (map_map cell_text (fun s => upper (strip s)) row).
      rewrite <- (map_map cell_text (fun s => upper (strip s)) row').
      now rewrite H0. }
    now rewrite E.
Qed.

Lemma shape_predicates_text_only_witness :
  _looks_like_meta_table sample_meta
  = _looks_like_meta_table
      (mk_table 4 (map (map _set_cell_paras_no_space) (tbl_rows sample_meta))) /\
  _looks_like_results_table sample_meta
  = _looks_like_results_table
      (mk_table 4 (map (map _set_cell_paras_no_space) (tbl_rows sample_meta))).
Proof.
  apply shape_predicates_text_only; reflexivity.
Defined.

(** X10: [_cell_set_text] replaces whatever the cell held: the result is
    one paragraph whose text is the given text (upper-cased on request,
    empty for [None]), it keeps the cell properties and depends on nothing
    else of the old cell; writing the same text again, or tightening the
    cell, changes nothing. *)
Theorem cell_set_text_overwrites (text : option string) (bold underline : bool)
    (align : option alignment) (up : bool) (x : cell) :
  let write := _cell_set_text text bold underline align up in
  cell_text (write x) = (if up then upper (or_empty text) else or_empty text) /\
  length (paragraphs (write x)) = 1%nat /\
  cell_props (write x) = cell_props x /\
  (forall x', cell_props x' = cell_props x -> write x' = write x) /\
  write (write x) = write x /\
  _set_cell_paras_no_space (write x) = write x.
Proof.
  cbv zeta.
  split; [destruct up; reflexivity |].
  split; [reflexivity |]. split; [reflexivity |].
  split; [intros x' E; unfold _cell_set_text; now rewrite E |].
  split; reflexivity.
Qed.

(** ** The results table *)

Lemma insert_alter {A} (f : A -> A) (l : list A) (c : nat) (x : A) :
  l !! c = Some x -> <[c := f x]> l = alter f c l.
Proof.
  intros H. apply list_eq. intros j. destruct (decide (c = j)) as [<- | Hne].
  - rewrite list_lookup_insert_eq by (eapply lookup_lt_Some; exact H).
    now rewrite list_lookup_alter_eq, H.
  - now rewrite list_lookup_insert_ne, list_lookup_alter_ne by exact Hne.
Qed.

Lemma with_cell_grid (k c : nat) (f : cell -> cell) (n : nat)
    (grid : list (list cell)) :
  with_cell k c f (mk_table n grid)
  = match grid !! k with
    | Some row =>
        if (c <? length row)%nat
        then Ok (mk_table n (<[k := alter f c row]> grid))
        else Raise IndexError
    | None => Raise IndexError
    end.
Proof.
  unfold with_cell, index. cbn [tbl_rows tbl_columns].
  destruct (grid !! k) as [row |]; cbn [bind]; [| reflexivity].
  destruct (Nat.ltb_spec c (length row)) as [Hc | Hc].
  - destruct (lookup_lt_is_Some_2 row c Hc) as [x Hx]. rewrite Hx. cbn [bind].
    now rewrite (insert_alter f row c x Hx).
  - now rewrite lookup_ge_None_2 by exact Hc.
Qed.

Lemma with_row_cells_grid (k : nat) (f : cell -> cell) (n : nat)
    (grid : list (list cell)) :
  with_row_cells k f (mk_table n grid)
  = match grid !! k with
    | Some row => Ok (mk_table n (<[k := map f row]> grid))
    | None => Raise IndexError
    end.
Proof.
  unfold with_row_cells, index. cbn [tbl_rows tbl_columns].
  now destruct (grid !! k).
Qed.

(** Five writes into the cells 0 to 4 of row [k], then tight spacing on
    the row: the row needs five cells. *)
Lemma write_row_eval {B} (f0 f1 f2 f3 f4 g : cell -> cell) (n k : nat)
    (grid : list (list cell)) (row : list cell) (K : table -> result B) :
  grid !! k = Some row ->
  (t <- with_cell k 0 f0 (mk_table n grid) ;;
   t <- with_cell k 1 f1 t ;;
   t <- with_cell k 2 f2 t ;;
   t <- with_cell k 3 f3 t ;;
   t <- with_cell k 4 f4 t ;;
   t <- with_row_cells k g t ;;
   K t)
  = if (5 <=? length row)%nat
    then K (mk_table n
              (<[k := map g (alter f4 4%nat (alter f3 3%nat (alter f2 2%nat
                         (alter f1 1%nat (alter f0 0%nat row)))))]> grid))
    else Raise IndexError.
Proof.
  intros H. pose proof (lookup_lt_Some _ _ _ H) as Hk.
  assert (Hin : forall r, <[k := r]> grid !! k = Some r)
    by (intros r; now apply list_lookup_insert_eq).
  assert (Hin2 : forall r r', <[k := r]> (<[k := r']> grid) = <[k := r]> grid)
    by (intros; apply list_insert_insert_eq).
  destruct (Nat.leb_spec 5 (length row)) as [Hlen | Hlen].
  - rewrite with_cell_grid, H.
    replace (0 <? length row)%nat with true by (symmetry; apply Nat.ltb_lt; lia).
    cbn [bind]. rewrite with_cell_grid, Hin, length_alter.
    replace (1 <? length row)%nat with true by (symmetry; apply Nat.ltb_lt; lia).
    cbn [bind]. rewrite Hin2, with_cell_grid, Hin, !length_alter.
    replace (2 <? length row)%nat with true by (symmetry; apply Nat.ltb_lt; lia).
    cbn [bind]. rewrite Hin2, with_cell_grid, Hin, !length_alter.
    replace (3 <? length row)%nat with true by (symmetry; apply Nat.ltb_lt; lia).
    cbn [bind]. rewrite Hin2, with_cell_grid, Hin, !length_alter.
    replace (4 <? length row)%nat with true by (symmetry; apply Nat.ltb_lt; lia).
    cbn [bind]. rewrite Hin2, with_row_cells_grid, Hin. cbn [bind].
    now rewrite Hin2.
  - rewrite with_cell_grid, H.
    destruct row as [| a [| b [| c [| d [| e row]]]]];
      cbn [length] in Hlen; try lia; cbn [length Nat.ltb Nat.leb bind];
      try reflexivity.
    all: rewrite with_cell_grid, Hin; cbn [alter list_alter length Nat.ltb Nat.leb bind];
      try reflexivity.
    all: rewrite Hin2, with_cell_grid, Hin;
      cbn [alter list_alter length Nat.ltb Nat.leb bind]; try reflexivity.
    all: rewrite Hin2, with_cell_grid, Hin;
      cbn [alter list_alter length Nat.ltb Nat.leb bind]; try reflexivity.
    all: rewrite Hin2, with_cell_grid, Hin;
      cbn [alter list_alter length Nat.ltb Nat.leb bind]; reflexivity.
Qed.

Lemma rows_fit_insert (n i j : nat) (grid : list (list cell)) (r : list cell) :
  (j < i)%nat -> rows_fit n i (<[j := r]> grid) = rows_fit n i grid.
Proof.
  revert i. induction n as [| n IH]; intros i Hj; [reflexivity |].
  cbn [rows_fit]. rewrite list_lookup_insert_ne by lia.
  destruct (grid !! i); [| reflexivity]. now rewrite IH by lia.
Qed.

Lemma rows_fit_lookup (n i : nat) (grid : list (list cell)) :
  rows_fit n i grid = true <->
  forall j, (j < n)%nat ->
    exists row, grid !! (i + j)%nat = Some row /\ (5 <= length row)%nat.
Proof.
  revert i. induction n as [| n IH]; intros i; cbn [rows_fit].
  - split; [intros _ j Hj; lia | reflexivity].
  - split.
    + destruct (grid !! i) as [row |] eqn:Hrow; [| discriminate].
      intros [Hlen Hrest]%andb_true_iff j Hj.
      destruct j as [| j].
      * rewrite Nat.add_0_r. exists row. split; [exact Hrow |].
        now apply Nat.leb_le.
      * replace (i + S j)%nat with (S i + j)%nat by lia.
        apply (proj1 (IH (S i)) Hrest). lia.
    + intros H. destruct (H 0%nat ltac:(lia)) as (row & Hrow & Hlen).
      rewrite Nat.add_0_r in Hrow. rewrite Hrow.
      apply andb_true_iff. split; [now apply Nat.leb_le |].
      apply IH. intros j Hj.
      replace (S i + j)%nat with (i + S j)%nat by lia. apply H. lia.
Qed.

Lemma rows_after_write_nil (i : nat) (grid : list (list cell)) :
  rows_after_write [] i grid = grid.
Proof.
  unfold rows_after_write. apply list_eq. intros j.
  rewrite list_lookup_imap. destruct (grid !! j); [| reflexivity].
  cbn. now destruct (i <=? j)%nat.
Qed.

Lemma rows_after_write_cons (rec : Row.t) (recs : list Row.t) (i : nat)
    (grid : list (list cell)) (row : list cell) :
  grid !! i = Some row ->
  rows_after_write recs (S i) (<[i := written_row i rec row]> grid)
  = rows_after_write (rec :: recs) i grid.
Proof.
  intros H. unfold rows_after_write. apply list_eq. intros j.
  rewrite !list_lookup_imap. destruct (decide (i = j)) as [<- | Hne].
  - rewrite list_lookup_insert_eq by (eapply lookup_lt_Some; exact H).
    rewrite H. cbn [fmap option_fmap option_map].
    replace (S i <=? i)%nat with false by (symmetry; apply Nat.leb_gt; lia).
    rewrite Nat.leb_refl, Nat.sub_diag. reflexivity.
  - rewrite list_lookup_insert_ne by exact Hne.
    destruct (grid !! j) as [r |]; [| reflexivity].
    cbn [fmap option_fmap option_map]. f_equal.
    destruct (Nat.leb_spec (S i) j) as [Hle | Hgt].
    + replace (i <=? j)%nat with true by (symmetry; apply Nat.leb_le; lia).
      replace (j - i)%nat with (S (j - S i)) by lia. reflexivity.
    + replace (i <=? j)%nat with false by (symmetry; apply Nat.leb_gt; lia).
      reflexivity.
Qed.

(** The records loop writes the records into consecutive rows, or raises
    when one of these rows is missing or has fewer than five cells. *)
Lemma write_rows_eval (recs : list Row.t) (i n : nat) (grid : list (list cell)) :
  (1 <= i)%nat ->
  write_rows recs i (mk_table n grid)
  = if rows_fit (length recs) i grid
    then Ok (mk_table n (rows_after_write recs i grid))
    else Raise IndexError.
Proof.
  revert i grid. induction recs as [| rec recs IH]; intros i grid Hi.
  - cbn. now rewrite rows_after_write_nil.
  - cbn [write_rows length rows_fit].
    replace (start_row_index + (i - 1))%nat with i by (unfold start_row_index; lia).
    destruct (grid !! i) as [row |] eqn:Hrow.
    + rewrite (write_row_eval _ _ _ _ _ _ n i grid row _ Hrow).
      fold (written_row i rec row).
      destruct (5 <=? length row)%nat; cbn [andb]; [| reflexivity].
      rewrite IH by lia. rewrite rows_fit_insert by lia.
      now rewrite (rows_after_write_cons rec recs i grid row Hrow).
    + now rewrite with_cell_grid, Hrow.
Qed.

Lemma iter_add_row (m : nat) (t : table) :
  Nat.iter m add_row t
  = mk_table (tbl_columns t)
      (tbl_rows t ++ replicate m (replicate (tbl_columns t) empty_cell))%list.
Proof.
  induction m as [| m IH]; cbn [Nat.iter nat_rect replicate].
  - rewrite app_nil_r. now destruct t.
  - change (nat_rect _ t (fun _ => add_row) m) with (Nat.iter m add_row t).
    rewrite IH. unfold add_row. cbn [tbl_columns tbl_rows].
    now rewrite <- app_assoc, <- replicate_cons_app.
Qed.

Lemma lookup_take_blank {A} (g : A -> A) (l : list A) (n j : nat) :
  (take n l ++ map g (drop n l))%list !! j
  = if (j <? n)%nat then l !! j else g <$> l !! j.
Proof.
  rewrite lookup_app, lookup_take.
  destruct (Nat.ltb_spec j n) as [Hlt | Hge].
  - rewrite decide_True by exact Hlt.
    destruct (l !! j) eqn:E; [reflexivity |].
    apply lookup_ge_None_1 in E.
    rewrite list_lookup_fmap, lookup_drop.
    now rewrite lookup_ge_None_2 by lia.
  - rewrite decide_False by lia.
    rewrite list_lookup_fmap, lookup_drop, length_take.
    destruct (Nat.le_ge_cases n (length l)) as [Hn | Hn].
    + rewrite Nat.min_l by exact Hn. now replace (n + (j - n))%nat with j by lia.
    + rewrite !(lookup_ge_None_2 l) by lia. reflexivity.
Qed.

Lemma grown_rows_length (rows : list Row.t) (t : table) :
  length (grown_rows rows t)
  = Nat.max (length (tbl_rows t)) (1 + Nat.max 1 (length rows)).
Proof.
  unfold grown_rows, start_row_index. rewrite length_app, length_replicate. lia.
Qed.

(** The whole results phase, evaluated. *)
Lemma fill_results_rows_eval (rows : list Row.t) (t : table) :
  fill_results_rows rows t
  = if rows_fit (length rows) 1 (grown_rows rows t)
    then Ok (mk_table (tbl_columns t)
               (imap (populated_results_row rows) (grown_rows rows t)))
    else Raise IndexError.
Proof.
  unfold fill_results_rows. cbv zeta. rewrite iter_add_row.
  fold (grown_rows rows t). rewrite write_rows_eval by lia.
  destruct (rows_fit (length rows) 1 (grown_rows rows t)); [| reflexivity].
  cbn [bind tbl_columns tbl_rows].
  rewrite with_row_cells_grid.
  pose proof (grown_rows_length rows t) as Hlen.
  set (grid := grown_rows rows t) in *.
  set (keep := (start_row_index + length rows)%nat).
  assert (Hwritten : forall j,
            rows_after_write rows 1 grid !! j
            = (fun row => if (1 <=? j)%nat
                          then match rows !! (j - 1)%nat with
                               | Some rec => written_row j rec row
                               | None => row
                               end
                          else row) <$> grid !! j).
  { intros j. unfold rows_after_write. now rewrite list_lookup_imap. }
  destruct (lookup_lt_is_Some_2 grid 0) as [row0 Hrow0]; [lia |].
  rewrite lookup_take_blank, Hwritten, Hrow0.
  replace (0 <? keep)%nat with true
    by (symmetry; apply Nat.ltb_lt; unfold keep, start_row_index; lia).
  cbn [fmap option_fmap option_map Nat.leb].
  do 2 f_equal. apply list_eq. intros j.
  rewrite list_lookup_imap. destruct j as [| j].
  - rewrite list_lookup_insert_eq, Hrow0; [reflexivity |].
    rewrite length_app, length_take, length_map, length_drop.
    unfold rows_after_write. rewrite length_imap.
    unfold keep, start_row_index. lia.
  - rewrite list_lookup_insert_ne by lia.
    rewrite lookup_take_blank, Hwritten.
    cbn [Nat.leb populated_results_row].
    replace (S j - 1)%nat with j by lia.
    destruct (grid !! S j) as [row |]; cbn [fmap option_fmap option_map];
      [| now destruct (S j <? keep)%nat].
    destruct (Nat.ltb_spec (S j) keep) as [Hlt | Hge].
    + destruct (lookup_lt_is_Some_2 rows j) as [rec Hrec];
        [unfold keep, start_row_index in Hlt; lia |].
      unfold populated_results_row. now rewrite Hrec.
    + unfold populated_results_row.
      rewrite (lookup_ge_None_2 rows j)
        by (unfold keep, start_row_index in Hge; lia).
      reflexivity.
Qed.

Lemma grown_rows_lookup (rows : list Row.t) (t : table) (k : nat) :
  (k < length (grown_rows rows t))%nat ->
  grown_rows rows t !! k
  = Some (default (replicate (tbl_columns t) empty_cell) (tbl_rows t !! k)).
Proof.
  intros Hk. unfold grown_rows in *. rewrite lookup_app.
  destruct (tbl_rows t !! k) as [row |] eqn:E; [reflexivity |].
  apply lookup_ge_None_1 in E. cbn [default from_option].
  apply lookup_replicate_2. rewrite length_app, length_replicate in Hk. lia.
Qed.

Lemma rows_fit_iff (rows : list Row.t) (t : table) :
  rows_fit (length rows) 1 (grown_rows rows t) = true <->
  results_table_fits rows t.
Proof.
  pose proof (grown_rows_length rows t) as Hlen.
  rewrite rows_fit_lookup. unfold results_table_fits. split.
  - intros Hfit. split.
    + intros k row Hk Hrow.
      destruct (Hfit (k - 1)%nat ltac:(lia)) as (row' & Hrow' & Hfive).
      replace (1 + (k - 1))%nat with k in Hrow' by lia.
      rewrite grown_rows_lookup, Hrow in Hrow' by lia.
      cbn in Hrow'. congruence.
    + intros Hone Hshort.
      destruct (Hfit (length rows - 1)%nat ltac:(lia)) as (row' & Hrow' & Hfive).
      replace (1 + (length rows - 1))%nat with (length rows) in Hrow' by lia.
      rewrite grown_rows_lookup in Hrow' by lia.
      rewrite (lookup_ge_None_2 (tbl_rows t)) in Hrow' by lia.
      cbn in Hrow'. injection Hrow' as <-.
      now rewrite length_replicate in Hfive.
  - intros [Hrows Hcols] j Hj.
    rewrite grown_rows_lookup by lia. eexists. split; [reflexivity |].
    destruct (tbl_rows t !! (1 + j)%nat) as [row |] eqn:E; cbn.
    + apply (Hrows (1 + j)%nat); [lia | exact E].
    + apply lookup_ge_None_1 in E. rewrite length_replicate.
      apply Hcols; lia.
Qed.

(** X11: the results phase succeeds exactly when every existing row that
    receives a record has five cells or more and, if a record needs an
    added row, the table has five grid columns or more; in every other
    case it raises [IndexError]. *)
Theorem fill_results_rows_succeeds_iff (rows : list Row.t) (t : table) :
  ((exists t', fill_results_rows rows t = Ok t') <->
   (forall k row, (1 <= k <= length rows)%nat -> tbl_rows t !! k = Some row ->
                  (5 <= length row)%nat) /\
   ((1 <= length rows)%nat -> (length (tbl_rows t) <= length rows)%nat ->
    (5 <= tbl_columns t)%nat)) /\
  ((exists t', fill_results_rows rows t = Ok t') \/
   fill_results_rows rows t = Raise IndexError).
Proof.
  rewrite fill_results_rows_eval.
  split; [| destruct (rows_fit _ _ _); eauto].
  change (?P <-> _) with (P <-> results_table_fits rows t).
  rewrite <- rows_fit_iff.
  destruct (rows_fit (length rows) 1 (grown_rows rows t)).
  - split; eauto.
  - split; [intros [t' [=]] | discriminate].
Qed.

Lemma fill_results_rows_Ok (rows : list Row.t) (t t' : table) :
  fill_results_rows rows t = Ok t' ->
  rows_fit (length rows) 1 (grown_rows rows t) = true /\
  t' = mk_table (tbl_columns t)
         (imap (populated_results_row rows) (grown_rows rows t)).
Proof.
  rewrite fill_results_rows_eval.
  destruct (rows_fit _ _ _); [| discriminate]. now intros [= <-].
Qed.

Lemma cell_text_tight (x : cell) :
  cell_text (_set_cell_paras_no_space x) = cell_text x.
Proof. apply set_cell_paras_no_space_keeps. Qed.

Lemma map_cell_text_tight (row : list cell) :
  map cell_text (map _set_cell_paras_no_space row) = map cell_text row.
Proof.
  rewrite map_map. apply map_ext. intros x. apply cell_text_tight.
Qed.

(** X12: a successful results phase keeps the column count, never removes
    a row and grows the table to one header row plus one row per record
    (two rows at least); it keeps the number of cells of every row and the
    texts of the header row, and empties every cell of the rows after the
    records. *)
Theorem fill_results_rows_layout (rows : list Row.t) (t t' : table) :
  fill_results_rows rows t = Ok t' ->
  tbl_columns t' = tbl_columns t /\
  length (tbl_rows t')
  = Nat.max (length (tbl_rows t)) (1 + Nat.max 1 (length rows)) /\
  (forall k row, tbl_rows t !! k = Some row ->
     exists row', tbl_rows t' !! k = Some row' /\ length row' = length row) /\
  (forall row, tbl_rows t !! 0%nat = Some row ->
     exists row', tbl_rows t' !! 0%nat = Some row' /\
                  map cell_text row' = map cell_text row) /\
  (forall k row', (length rows < k)%nat -> tbl_rows t' !! k = Some row' ->
     Forall (fun c => cell_text c = "") row').
Proof.
  intros [Hfit ->]%fill_results_rows_Ok. cbn [tbl_columns tbl_rows].
  pose proof (grown_rows_length rows t) as Hlen.
  split; [reflexivity |]. split; [now rewrite length_imap |].
  assert (Hold : forall k row, tbl_rows t !! k = Some row ->
                   grown_rows rows t !! k = Some row).
  { intros k row Hrow. unfold grown_rows. now apply lookup_app_l_Some. }
  split; [| split].
  - intros k row Hrow. rewrite list_lookup_imap, (Hold k row Hrow).
    eexists. split; [reflexivity |].
    destruct k as [| j]; cbn [populated_results_row].
    + apply length_map.
    + destruct (rows !! j); [unfold written_row | unfold blank_row];
        now rewrite length_map, ?length_alter.
  - intros row Hrow. rewrite list_lookup_imap, (Hold 0%nat row Hrow).
    eexists. split; [reflexivity |]. apply map_cell_text_tight.
  - intros k row' Hk. rewrite list_lookup_imap.
    destruct (grown_rows rows t !! k) as [row |]; [| discriminate].
    destruct k as [| j]; [lia |]. cbn [populated_results_row fmap option_fmap option_map].
    rewrite (lookup_ge_None_2 rows j) by lia. intros [= <-].
    unfold blank_row. apply Forall_forall. intros c Hc.
    apply list_elem_of_fmap in Hc as (x & -> & _). reflexivity.
Qed.

Lemma fill_results_rows_layout_witness :
  tbl_columns sample_results_filled = tbl_columns sample_results /\
  length (tbl_rows sample_results_filled)
  = Nat.max (length (tbl_rows sample_results)) (1 + Nat.max 1 (length sample_rows)) /\
  (forall k row, tbl_rows sample_results !! k = Some row ->
     exists row', tbl_rows sample_results_filled !! k = Some row' /\
                  length row' = length row) /\
  (forall row, tbl_rows sample_results !! 0%nat = Some row ->
     exists row', tbl_rows sample_results_filled !! 0%nat = Some row' /\
                  map cell_text row' = map cell_text row) /\
  (forall k row', (length sample_rows < k)%nat ->
     tbl_rows sample_results_filled !! k = Some row' ->
     Forall (fun c => cell_text c = "") row').
Proof.
  apply (fill_results_rows_layout sample_rows sample_results sample_results_filled).
  reflexivity.
Defined.

(** X13: after a successful results phase the [j]-th record (counting from
    0) stands in row [j + 1]: its first five cells read the running number
    [j + 1], the upper-cased name, the upper-cased gender, the score and
    the upper-cased starting point, the number and the score as printed;
    the cells after them keep their texts. *)
Theorem fill_results_rows_records (rows : list Row.t) (t t' : table)
    (j : nat) (rec : Row.t) :
  fill_results_rows rows t = Ok t' -> rows !! j = Some rec ->
  exists row row',
    grown_rows rows t !! S j = Some row /\
    tbl_rows t' !! S j = Some row' /\
    map cell_text (take 5 row') = row_texts (S j) rec /\
    map cell_text (drop 5 row') = map cell_text (drop 5 row).
Proof.
  intros [Hfit ->]%fill_results_rows_Ok Hrec. cbn [tbl_rows].
  destruct (proj1 (rows_fit_lookup _ _ _) Hfit j) as (row & Hrow & Hfive);
    [eapply lookup_lt_Some; exact Hrec |].
  cbn [Nat.add] in Hrow. exists row. eexists.
  split; [exact Hrow |].
  rewrite list_lookup_imap, Hrow. cbn [fmap option_fmap option_map].
  split; [reflexivity |].
  cbn [populated_results_row]. rewrite Hrec.
  destruct row as [| a [| b [| c [| d [| e row]]]]]; cbn [length] in Hfive; try lia.
  unfold written_row. cbn [alter list_alter map take drop].
  split; [reflexivity | apply map_cell_text_tight].
Qed.

Lemma fill_results_rows_records_witness :
  exists row row',
    grown_rows sample_rows sample_results !! 1%nat = Some row /\
    tbl_rows sample_results_filled !! 1%nat = Some row' /\
    map cell_text (take 5 row') = row_texts 1 (juan 20 "Grade 5") /\
    map cell_text (drop 5 row') = map cell_text (drop 5 row).
Proof.
  apply (fill_results_rows_records sample_rows sample_results
           sample_results_filled 0 (juan 20 "Grade 5")); reflexivity.
Defined.

(** ** The populator as a whole *)

Lemma fill_meta_values_shape (cls_dict : ClsDict.t) (tt : string) (t t' : table) :
  fill_meta_values cls_dict tt t = Ok t' ->
  tbl_columns t' = tbl_columns t /\
  length (tbl_rows t') = length (tbl_rows t).
Proof.
  intros (Hc & Hl & _)%fill_meta_values_cells. split; [exact Hc |].
  rewrite <- (length_map length (tbl_rows t')), Hl. apply length_map.
Qed.

(** The metadata phase succeeds exactly on a table whose list of cells
    reaches the position of [tbl.cell(2, 3)]. *)
Lemma fill_meta_values_succeeds (cls_dict : ClsDict.t) (tt : string) (t : table) :
  (exists t', fill_meta_values cls_dict tt t = Ok t') <-> meta_table_fits t.
Proof.
  destruct t as [n rows]. rewrite fill_meta_values_eval.
  unfold meta_table_fits, table_cells. cbn [tbl_columns tbl_rows].
  destruct (Nat.ltb_spec (cell_idx n 2 3) (length (concat rows))) as [Hfit | Hfit].
  - split; eauto.
  - split; [intros [t' [=]] | intros H; lia].
Qed.

Lemma result_cases {A} (m : result A) :
  m = Raise IndexError \/ exists a, m = Ok a.
Proof. destruct m as [a | []]; eauto. Qed.

(** What a successful run of the populator consists of. *)
Lemma fill_template_tables_true (doc doc' : document) (cls_dict : ClsDict.t)
    (rows : list Row.t) (tt : string) :
  _fill_template_tables doc cls_dict rows tt = Ok (doc', true) <->
  exists m r mt mt' rt rt',
    find_from meta_pred 0 doc = Some m /\
    find_from (results_besides (Some m)) 0 doc = Some r /\
    m <> r /\
    doc !! m = Some mt /\ doc !! r = Some rt /\
    fill_meta_values cls_dict tt mt = Ok mt' /\
    fill_results_rows rows rt = Ok rt' /\
    doc' = <[r := rt']> (<[m := mt']> doc).
Proof.
  rewrite fill_template_tables_cases. cbv zeta. split.
  - destruct (find_from meta_pred 0 doc) as [a |]; [| discriminate].
    destruct (find_from (results_besides (Some a)) 0 doc) as [b |] eqn:Hb;
      [| discriminate].
    pose proof (located_tables_differ doc a b Hb) as Hne.
    intros (doc1 & (mt & mt' & Hmt & Hfill & ->)%with_table_Ok &
            (doc2 & (rt & rt' & Hrt & Hres & ->)%with_table_Ok & [= <-])%bind_Ok)
      %bind_Ok.
    rewrite list_lookup_insert_ne in Hrt by exact Hne.
    exists a, b, mt, mt', rt, rt'. repeat split; assumption.
  - intros (m & r & mt & mt' & rt & rt' & -> & -> & Hne & Hmt & Hrt & Hfill & Hres & ->).
    unfold with_table at 1, index. rewrite Hmt. cbn [bind]. rewrite Hfill.
    cbn [bind]. unfold with_table, index.
    rewrite list_lookup_insert_ne by exact Hne. rewrite Hrt. cbn [bind].
    rewrite Hres. reflexivity.
Qed.

(** X14: the populator never adds or removes a table; when it answers
    [false] the document is as before, and when it answers [true] the two
    located tables are different tables, every other table is untouched,
    and no table has lost a row or changed its column count. *)
Theorem fill_template_tables_frame (doc doc' : document) (cls_dict : ClsDict.t)
    (rows : list Row.t) (tt : string) (b : bool) :
  _fill_template_tables doc cls_dict rows tt = Ok (doc', b) ->
  length doc' = length doc /\
  (b = false -> doc' = doc) /\
  (b = true ->
   exists m r,
     locate_tables doc = (Some m, Some r, S (Nat.max m r)) /\ m <> r /\
     (forall k, k <> m -> k <> r -> doc' !! k = doc !! k)) /\
  (forall k t, doc !! k = Some t ->
     exists t', doc' !! k = Some t' /\
       tbl_columns t' = tbl_columns t /\
       (length (tbl_rows t) <= length (tbl_rows t'))%nat).
Proof.
  destruct b.
  - intros (m & r & mt & mt' & rt & rt' & Hm & Hr & Hne & Hmt & Hrt & Hfill
            & Hres & ->)%fill_template_tables_true.
    apply fill_meta_values_shape in Hfill as [Cm Lm].
    apply fill_results_rows_Ok in Hres as [_ ->].
    rewrite !length_insert.
    split; [reflexivity |]. split; [discriminate |]. split.
    + intros _. exists m, r. rewrite locate_tables_eq. cbv zeta.
      rewrite Hm, Hr. split; [reflexivity |]. split; [exact Hne |].
      intros k Hkm Hkr. now rewrite !list_lookup_insert_ne by congruence.
    + intros k t Ht. destruct (decide (k = r)) as [-> | Hkr].
      * rewrite list_lookup_insert_eq
          by (rewrite length_insert; eapply lookup_lt_Some; exact Ht).
        eexists. split; [reflexivity |]. cbn [tbl_columns tbl_rows].
        assert (t = rt) as -> by congruence.
        rewrite length_imap, grown_rows_length. split; [reflexivity | lia].
      * rewrite list_lookup_insert_ne by congruence.
        destruct (decide (k = m)) as [-> | Hkm].
        -- rewrite list_lookup_insert_eq by (eapply lookup_lt_Some; exact Ht).
           eexists. split; [reflexivity |].
           assert (t = mt) as -> by congruence. split; [exact Cm | lia].
        -- rewrite list_lookup_insert_ne by congruence.
           exists t. split; [exact Ht |]. split; [reflexivity | lia].
  - intros H. rewrite fill_template_tables_cases in H. cbv zeta in H.
    assert (Hsame : doc' = doc).
    { destruct (find_from meta_pred 0 doc) as [a |]; [| now injection H].
      destruct (find_from (results_besides (Some a)) 0 doc) as [c |];
        [| now injection H].
      destruct (with_table a _ doc) as [doc1 |]; [| discriminate].
      cbn [bind] in H.
      destruct (with_table c _ doc1) as [doc2 |]; discriminate. }
    subst doc'.
    split; [reflexivity |]. split; [reflexivity |]. split; [discriminate |].
    intros k t Ht. exists t. split; [exact Ht |]. split; [reflexivity | lia].
Qed.

Lemma fill_template_tables_frame_witness :
  length sample_filled = length sample_doc /\
  (true = false -> sample_filled = sample_doc) /\
  (true = true ->
   exists m r,
     locate_tables sample_doc = (Some m, Some r, S (Nat.max m r)) /\ m <> r /\
     (forall k, k <> m -> k <> r -> sample_filled !! k = sample_doc !! k)) /\
  (forall k t, sample_doc !! k = Some t ->
     exists t', sample_filled !! k = Some t' /\
       tbl_columns t' = tbl_columns t /\
       (length (tbl_rows t) <= length (tbl_rows t'))%nat).
Proof.
  apply (fill_template_tables_frame sample_doc sample_filled sample_cls
           sample_rows sample_type true).
  reflexivity.
Defined.

(** On positions inside the grid columns, [cell_idx] tells rows and
    columns apart. *)
Lemma cell_idx_eqb (n r c r' c' : nat) :
  (c < n)%nat -> (c' < n)%nat ->
  (cell_idx n r c =? cell_idx n r' c')%nat = ((r =? r') && (c =? c'))%nat.
Proof.
  intros Hc Hc'. unfold cell_idx.
  destruct (Nat.eqb_spec (c + r * n) (c' + r' * n)) as [E | E].
  - destruct (Nat.div_mod_unique n r r' c c' Hc Hc') as [-> ->]; [lia |].
    now rewrite !Nat.eqb_refl.
  - symmetry. apply andb_false_iff.
    destruct (Nat.eqb_spec r r') as [-> | Hr]; [| now left].
    right. apply Nat.eqb_neq. intros ->. now apply E.
Qed.

(** With four grid columns or more the six written positions are the
    positions of the six value cells and of no other column below the
    number of grid columns. *)
Lemma meta_value_at_grid (cls_dict : ClsDict.t) (tt : string) (n r c : nat) :
  (4 <= n)%nat -> (c < n)%nat ->
  meta_value_at cls_dict tt n (cell_idx n r c) = meta_value cls_dict tt r c.
Proof.
  intros Hn Hc. unfold meta_value_at.
  rewrite !cell_idx_eqb by lia.
  destruct r as [| [| [| r]]]; destruct c as [| [| [| [| c]]]]; reflexivity.
Qed.

Lemma fill_meta_values_keeps_shape (cls_dict : ClsDict.t) (tt : string)
    (t t' : table) :
  fill_meta_values cls_dict tt t = Ok t' ->
  _looks_like_meta_table t' = _looks_like_meta_table t.
Proof.
  intros H. pose proof (fill_meta_values_shape _ _ _ _ H) as [_ Hlen].
  apply fill_meta_values_cells in H as (Hc & _ & _ & Hcells).
  unfold _looks_like_meta_table, meta_table_probe. rewrite Hc, Hlen.
  destruct (Nat.leb_spec 3 (length (tbl_rows t))); [| reflexivity].
  destruct (Nat.leb_spec 4 (tbl_columns t)) as [Hn | Hn]; [| reflexivity].
  cbn [andb]. unfold tbl_cell, index. rewrite Hc, !Hcells.
  unfold populated_cell_at. rewrite !meta_value_at_grid by lia. cbn [meta_value].
  destruct (table_cells t !! cell_idx (tbl_columns t) 0 0) as [a |];
    cbn [fmap option_fmap option_map bind try_except]; [| reflexivity].
  destruct (table_cells t !! cell_idx (tbl_columns t) 0 2) as [b |];
    cbn [fmap option_fmap option_map bind try_except]; [| reflexivity].
  now rewrite !cell_text_tight.
Qed.

Lemma fill_results_rows_keeps_shape (rows : list Row.t) (t t' : table) :
  fill_results_rows rows t = Ok t' ->
  _looks_like_results_table t = true ->
  _looks_like_results_table t' = true.
Proof.
  intros [_ ->]%fill_results_rows_Ok.
  unfold _looks_like_results_table, results_table_probe, index.
  cbn [tbl_rows]. rewrite list_lookup_imap.
  destruct (tbl_rows t !! 0%nat) as [row0 |] eqn:E; [| discriminate].
  unfold grown_rows. rewrite (lookup_app_l_Some _ _ _ _ E).
  cbn [fmap option_fmap option_map populated_results_row bind try_except].
  rewrite map_map.
  rewrite (map_ext (fun x => upper (strip (cell_text (_set_cell_paras_no_space x))))
             (fun c => upper (strip (cell_text c))));
    [trivial | intros x; now rewrite cell_text_tight].
Qed.

(** X15: after a successful run the populated metadata table still passes
    the metadata predicate and the populated results table still passes
    the results predicate. *)
Theorem fill_template_tables_keeps_shapes (doc doc' : document)
    (cls_dict : ClsDict.t) (rows : list Row.t) (tt : string) :
  _fill_template_tables doc cls_dict rows tt = Ok (doc', true) ->
  exists m r mt' rt',
    fst (locate_tables doc) = (Some m, Some r) /\
    doc' !! m = Some mt' /\ doc' !! r = Some rt' /\
    _looks_like_meta_table mt' = true /\
    _looks_like_results_table rt' = true.
Proof.
  intros (m & r & mt & mt' & rt & rt' & Hm & Hr & Hne & Hmt & Hrt & Hfill
          & Hres & ->)%fill_template_tables_true.
  exists m, r, mt', rt'.
  split; [rewrite locate_tables_eq; cbv zeta; now rewrite Hm, Hr |].
  split.
  { rewrite list_lookup_insert_ne by congruence.
    apply list_lookup_insert_eq. eapply lookup_lt_Some; exact Hmt. }
  split.
  { apply list_lookup_insert_eq. rewrite length_insert.
    eapply lookup_lt_Some; exact Hrt. }
  split.
  - rewrite (fill_meta_values_keeps_shape _ _ _ _ Hfill).
    apply find_from_Some in Hm as (_ & (t & Ht & HP) & _).
    rewrite Nat.sub_0_r in Ht. unfold meta_pred in HP. congruence.
  - apply (fill_results_rows_keeps_shape rows rt rt' Hres).
    apply find_from_Some in Hr as (_ & (t & Ht & HP) & _).
    rewrite Nat.sub_0_r in Ht. unfold results_besides in HP.
    apply andb_true_iff in HP as [HP _]. congruence.
Qed.

Lemma fill_template_tables_keeps_shapes_witness :
  exists m r mt' rt',
    fst (locate_tables sample_doc) = (Some m, Some r) /\
    sample_filled !! m = Some mt' /\ sample_filled !! r = Some rt' /\
    _looks_like_meta_table mt' = true /\
    _looks_like_results_table rt' = true.
Proof.
  apply (fill_template_tables_keeps_shapes sample_doc sample_filled sample_cls
           sample_rows sample_type).
  reflexivity.
Defined.

(** X16: with both tables located, the populator answers [true] exactly
    when the list of cells of the metadata table reaches the position of
    [tbl.cell(2, 3)], that is holds more than 3 + 2 * column_count cells,
    and the results table fits the records (five cells in every row that
    receives a record, five grid columns if rows must be added); in every
    other case it raises [IndexError]. *)
Theorem fill_template_tables_succeeds_iff (doc : document) (cls_dict : ClsDict.t)
    (rows : list Row.t) (tt : string) (m r n : nat) (mt rt : table) :
  locate_tables doc = (Some m, Some r, n) ->
  doc !! m = Some mt -> doc !! r = Some rt ->
  ((exists doc', _fill_template_tables doc cls_dict rows tt = Ok (doc', true)) <->
   (3 + 2 * tbl_columns mt < length (table_cells mt))%nat /\
   results_table_fits rows rt) /\
  ((exists doc', _fill_template_tables doc cls_dict rows tt = Ok (doc', true)) \/
   _fill_template_tables doc cls_dict rows tt = Raise IndexError).
Proof.
  change (3 + 2 * tbl_columns mt < length (table_cells mt))%nat
    with (meta_table_fits mt).
  intros Hloc Hmt Hrt. rewrite locate_tables_eq in Hloc. cbv zeta in Hloc.
  destruct (find_from meta_pred 0 doc) as [a |] eqn:Hm; [| discriminate].
  destruct (find_from (results_besides (Some a)) 0 doc) as [c |] eqn:Hr;
    [| discriminate].
  assert (a = m) as -> by congruence.
  assert (c = r) as -> by congruence. clear Hloc.
  split.
  - split.
    + intros [doc' H]. apply fill_template_tables_true in H
        as (m' & r' & mt0 & mt' & rt0 & rt' & Hm' & Hr' & _ & Hmt0
            & Hrt0 & Hfill & Hres & _).
      assert (m' = m) as -> by congruence.
      assert (r' = r) as -> by congruence.
      assert (mt0 = mt) as -> by congruence.
      assert (rt0 = rt) as -> by congruence.
      split.
      * apply (fill_meta_values_succeeds cls_dict tt). eauto.
      * apply rows_fit_iff. now apply fill_results_rows_Ok in Hres.
    + intros [Hmeta Hfit%rows_fit_iff].
      apply (fill_meta_values_succeeds cls_dict tt) in Hmeta as [mt' Hfill].
      eexists. apply fill_template_tables_true.
      exists m, r, mt, mt', rt. eexists.
      split; [exact Hm |]. split; [exact Hr |].
      split; [eapply located_tables_differ; exact Hr |].
      split; [exact Hmt |]. split; [exact Hrt |]. split; [exact Hfill |].
      split; [| reflexivity].
      rewrite fill_results_rows_eval, Hfit. reflexivity.
  - rewrite fill_template_tables_cases. cbv zeta. rewrite Hm, Hr.
    destruct (result_cases (with_table m (fill_meta_values cls_dict tt) doc))
      as [-> | [doc1 ->]]; [now right |].
    cbn [bind].
    destruct (result_cases (with_table r (fill_results_rows rows) doc1))
      as [-> | [doc2 ->]]; [now right |].
    left. eauto.
Qed.

Lemma fill_template_tables_succeeds_iff_witness :
  ((exists doc', _fill_template_tables sample_doc sample_cls sample_rows
                   sample_type = Ok (doc', true)) <->
   (3 + 2 * tbl_columns sample_meta < length (table_cells sample_meta))%nat /\
   results_table_fits sample_rows sample_results) /\
  ((exists doc', _fill_template_tables sample_doc sample_cls sample_rows
                   sample_type = Ok (doc', true)) \/
   _fill_template_tables sample_doc sample_cls sample_rows sample_type
   = Raise IndexError).
Proof.
  apply (fill_template_tables_succeeds_iff sample_doc sample_cls sample_rows
           sample_type 0 1 2 sample_meta sample_results); reflexivity.
Defined.

(** With rows of 5, 5 and 2 cells under four grid columns the list of
    cells has twelve cells, so the position of [tbl.cell(2, 3)] exists and
    the six writes go through. *)
Example fill_meta_uneven_rows :
  let t := mk_table 4
             [ map text_cell ["Teacher:"; ""; "Grade:"; ""; ""];
               map text_cell [""; ""; ""; ""; ""];
               map text_cell [""; ""] ] in
  length (table_cells t) = 12%nat /\
  exists doc', _fill_template_tables [t; sample_results] sample_cls sample_rows
                 sample_type = Ok (doc', true).
Proof. split; [reflexivity |]. eexists. reflexivity. Qed.

(** *** Tables whose rows hold one cell per grid column *)

Lemma regular_cells (n : nat) (rows : list (list cell)) (r c : nat) :
  Forall (fun row => length row = n) rows -> (c < n)%nat ->
  concat rows !! cell_idx n r c
  = match rows !! r with
    | Some row => row !! c
    | None => None
    end.
Proof.
  intros Hreg Hc. revert r.
  induction Hreg as [| row rows Hrow Hreg IH]; intros r; [reflexivity |].
  cbn [concat]. unfold cell_idx in *. destruct r as [| r].
  - cbn [Nat.mul]. rewrite Nat.add_0_r, lookup_app_l by lia. reflexivity.
  - rewrite lookup_app_r by lia.
    replace (c + S r * n - length row)%nat with (c + r * n)%nat by lia.
    apply IH.
Qed.

Lemma regular_lengths (n : nat) (rows rows' : list (list cell)) :
  map length rows' = map length rows ->
  Forall (fun row => length row = n) rows ->
  Forall (fun row => length row = n) rows'.
Proof.
  intros E H. revert rows' E.
  induction H as [| row rows Hrow H IH]; intros [| row' rows'] E;
    cbn [map] in E; try discriminate E; constructor.
  - injection E as E _. congruence.
  - injection E as _ E. now apply IH.
Qed.

Lemma regular_grid_cell (t : table) (r c : nat) :
  regular t -> (c < tbl_columns t)%nat ->
  grid_cell t r c = table_cells t !! cell_idx (tbl_columns t) r c.
Proof.
  intros Hreg Hc. unfold grid_cell, table_cells. symmetry.
  now apply regular_cells.
Qed.

Lemma regular_grid_cell_column (t : table) (r c : nat) (x : cell) :
  regular t -> grid_cell t r c = Some x -> (c < tbl_columns t)%nat.
Proof.
  unfold regular, grid_cell. intros Hreg H.
  destruct (tbl_rows t !! r) as [row |] eqn:Hrow; [| discriminate].
  rewrite Forall_forall in Hreg.
  rewrite <- (Hreg row) by (eapply list_elem_of_lookup_2; exact Hrow).
  eapply lookup_lt_Some; exact H.
Qed.

Lemma meta_table_columns (t : table) :
  _looks_like_meta_table t = true -> (4 <= tbl_columns t)%nat.
Proof.
  intros H. destruct (Nat.lt_ge_cases (tbl_columns t) 4) as [Hlt | Hge];
    [| exact Hge].
  rewrite meta_table_small in H by lia. discriminate.
Qed.

(** X22: on a located metadata table whose rows hold one cell per grid
    column, populating writes the six value cells (row 0, 1 and 2, columns
    1 and 3), each as one tight paragraph whose text run is underlined and
    not bold; every other cell of the table, the label cells of columns 0
    and 2 among them, stays in its place with its text, runs, alignment and
    cell properties, and has the spacing of its paragraphs set to tight; no
    row gains or loses a cell. *)
Theorem fill_meta_values_frame (doc doc' : document) (cls_dict : ClsDict.t)
    (rows : list Row.t) (tt : string) :
  _fill_template_tables doc cls_dict rows tt = Ok (doc', true) ->
  exists m mt mt',
    fst (fst (locate_tables doc)) = Some m /\
    doc !! m = Some mt /\ doc' !! m = Some mt' /\
    tbl_columns mt' = tbl_columns mt /\
    map length (tbl_rows mt') = map length (tbl_rows mt) /\
    (regular mt ->
     (forall r c v, meta_value cls_dict tt r c = Some v ->
        exists x x',
          grid_cell mt r c = Some x /\ grid_cell mt' r c = Some x' /\
          paragraphs x' = [value_paragraph (upper (or_empty v))] /\
          cell_text x' = upper (or_empty v) /\
          cell_props x' = cell_props x) /\
     (forall r c, (c = 0 \/ c = 2)%nat -> meta_value cls_dict tt r c = None) /\
     (forall r c x, meta_value cls_dict tt r c = None -> grid_cell mt r c = Some x ->
        grid_cell mt' r c = Some (_set_cell_paras_no_space x) /\
        cell_text (_set_cell_paras_no_space x) = cell_text x /\
        map runs (paragraphs (_set_cell_paras_no_space x))
        = map runs (paragraphs x) /\
        map p_alignment (paragraphs (_set_cell_paras_no_space x))
        = map p_alignment (paragraphs x) /\
        cell_props (_set_cell_paras_no_space x) = cell_props x)).
Proof.
  intros (m & mt & mt' & Hm & Hmt & Hmt' & Hfill)%fill_template_tables_meta.
  assert (Hn : (4 <= tbl_columns mt)%nat).
  { apply find_from_Some in Hm as (_ & (t0 & Ht0 & HP) & _).
    rewrite Nat.sub_0_r in Ht0. apply meta_table_columns.
    unfold meta_pred in HP. congruence. }
  apply fill_meta_values_cells in Hfill as (Hc & Hl & Hfit & Hcells).
  exists m, mt, mt'.
  split; [rewrite locate_tables_eq; exact Hm |].
  split; [exact Hmt |]. split; [exact Hmt' |].
  split; [exact Hc |]. split; [exact Hl |].
  intros Hreg.
  assert (Hreg' : regular mt').
  { unfold regular in *. rewrite Hc. eapply regular_lengths; eassumption. }
  assert (Hcell : forall r c, (c < tbl_columns mt)%nat ->
            grid_cell mt' r c
            = populated_meta_cell cls_dict tt r c <$> grid_cell mt r c).
  { intros r c Hlt.
    rewrite (regular_grid_cell mt' r c Hreg') by (rewrite Hc; exact Hlt).
    rewrite (regular_grid_cell mt r c Hreg Hlt), Hc, Hcells.
    unfold populated_cell_at, populated_meta_cell.
    now rewrite meta_value_at_grid by assumption. }
  split; [| split].
  - intros r c v Hv.
    assert (Hpos : (c < tbl_columns mt)%nat /\
                   (cell_idx (tbl_columns mt) r c
                    <= cell_idx (tbl_columns mt) 2 3)%nat).
    { unfold cell_idx.
      destruct r as [| [| [| r]]]; destruct c as [| [| [| [| c]]]];
        try discriminate Hv; lia. }
    destruct Hpos as [Hlt Hle].
    destruct (lookup_lt_is_Some_2 (table_cells mt)
                (cell_idx (tbl_columns mt) r c)) as [x Hx];
      [unfold meta_table_fits in Hfit; lia |].
    rewrite <- (regular_grid_cell mt r c Hreg Hlt) in Hx.
    exists x. eexists. split; [exact Hx |].
    rewrite (Hcell r c Hlt), Hx. unfold populated_meta_cell. rewrite Hv.
    cbn [fmap option_fmap option_map].
    split; [reflexivity |]. apply value_cell_content.
  - intros r c [-> | ->]; destruct r as [| [| [| r]]]; reflexivity.
  - intros r c x Hnone Hx.
    pose proof (regular_grid_cell_column mt r c x Hreg Hx) as Hlt.
    rewrite (Hcell r c Hlt), Hx. unfold populated_meta_cell. rewrite Hnone.
    cbn [fmap option_fmap option_map].
    split; [reflexivity |]. apply set_cell_paras_no_space_keeps.
Qed.

Lemma sample_meta_regular : regular sample_meta.
Proof. repeat constructor. Qed.

Lemma fill_meta_values_frame_witness :
  exists m mt mt',
    fst (fst (locate_tables sample_doc)) = Some m /\
    sample_doc !! m = Some mt /\ sample_filled !! m = Some mt' /\
    tbl_columns mt' = tbl_columns mt /\
    map length (tbl_rows mt') = map length (tbl_rows mt) /\
    (regular mt ->
     (forall r c v, meta_value sample_cls sample_type r c = Some v ->
        exists x x',
          grid_cell mt r c = Some x /\ grid_cell mt' r c = Some x' /\
          paragraphs x' = [value_paragraph (upper (or_empty v))] /\
          cell_text x' = upper (or_empty v) /\
          cell_props x' = cell_props x) /\
     (forall r c, (c = 0 \/ c = 2)%nat ->
        meta_value sample_cls sample_type r c = None) /\
     (forall r c x, meta_value sample_cls sample_type r c = None ->
        grid_cell mt r c = Some x ->
        grid_cell mt' r c = Some (_set_cell_paras_no_space x) /\
        cell_text (_set_cell_paras_no_space x) = cell_text x /\
        map runs (paragraphs (_set_cell_paras_no_space x))
        = map runs (paragraphs x) /\
        map p_alignment (paragraphs (_set_cell_paras_no_space x))
        = map p_alignment (paragraphs x) /\
        cell_props (_set_cell_paras_no_space x) = cell_props x)).
Proof.
  apply (fill_meta_values_frame sample_doc sample_filled sample_cls sample_rows
           sample_type).
  reflexivity.
Defined.

(** ** Fallback builder *)

Lemma with_cell_last (c : nat) (f : cell -> cell) (n : nat)
    (grid : list (list cell)) (row : list cell) :
  with_cell (length grid) c f (mk_table n (grid ++ [row]))
  = if (c <? length row)%nat
    then Ok (mk_table n (grid ++ [alter f c row]))
    else Raise IndexError.
Proof.
  rewrite with_cell_grid, list_lookup_middle by reflexivity.
  destruct (c <? length row)%nat; [| reflexivity].
  do 2 f_equal.
  replace (length grid) with (length grid + 0)%nat at 1 by lia.
  now rewrite insert_app_r.
Qed.

Lemma fallback_rows_loop_eval (recs : list Row.t) (i : nat)
    (grid : list (list cell)) :
  fallback_rows_loop recs i (mk_table 5 grid)
  = Ok (mk_table 5 (grid ++ imap (fun j rec => fallback_row (i + j) rec) recs)).
Proof.
  revert i grid. induction recs as [| rec recs IH]; intros i grid.
  - cbn. now rewrite app_nil_r.
  - cbn [fallback_rows_loop]. unfold add_row. cbn [tbl_columns tbl_rows].
    rewrite length_app. cbn [length].
    replace (length grid + 1 - 1)%nat with (length grid) by lia.
    cbn [replicate].
    rewrite with_cell_last. cbn [length Nat.ltb Nat.leb bind alter list_alter].
    rewrite with_cell_last. cbn [length Nat.ltb Nat.leb bind alter list_alter].
    rewrite with_cell_last. cbn [length Nat.ltb Nat.leb bind alter list_alter].
    rewrite with_cell_last. cbn [length Nat.ltb Nat.leb bind alter list_alter].
    rewrite with_cell_last. cbn [length Nat.ltb Nat.leb bind alter list_alter].
    rewrite IH. cbn [imap]. rewrite <- app_assoc. cbn [app].
    rewrite Nat.add_0_r. do 3 f_equal.
    f_equal. apply imap_ext. intros j x _. cbn [compose Nat.add].
    now replace (i + S j)%nat with (S (i + j)) by lia.
Qed.

Lemma fallback_build_eval (doc : docx) (cls_dict : ClsDict.t) (rows : list Row.t)
    (title1 title2 tt : string) :
  _fallback_build doc cls_dict rows title1 title2 tt
  = Ok (mk_docx (normal_style doc)
          (body doc ++ [title_paragraph title1 (Pt 14); title_paragraph title2 (Pt 12)])
          (tables doc ++ [fallback_meta_table cls_dict tt; fallback_results_table rows])).
Proof.
  unfold _fallback_build. cbv zeta.
  change (fallback_meta_loop fallback_labels (fallback_vals cls_dict tt)
            [0%nat; 1%nat; 2%nat] (new_table 3 4))
    with (Ok (fallback_meta_table cls_dict tt)).
  cbn [bind].
  change (fallback_header_loop fallback_headers 0 (new_table 1 5))
    with (Ok (mk_table 5 [map header_cell fallback_headers])).
  cbn [bind]. rewrite fallback_rows_loop_eval. cbn [bind]. reflexivity.
Qed.

Lemma fallback_meta_table_fits (cls_dict : ClsDict.t) (tt : string) :
  meta_table_fits (fallback_meta_table cls_dict tt).
Proof.
  unfold meta_table_fits. cbn. lia.
Qed.

Lemma fallback_results_table_fits (rows rows' : list Row.t) :
  results_table_fits rows' (fallback_results_table rows).
Proof.
  split; [| cbn; lia].
  intros k row _ Hrow. cbn [fallback_results_table tbl_rows] in Hrow.
  rewrite lookup_cons in Hrow. destruct k as [| k].
  - injection Hrow as <-. cbn. lia.
  - rewrite list_lookup_imap in Hrow.
    destruct (rows !! k); [| discriminate]. injection Hrow as <-. cbn. lia.
Qed.

(** X17: the fallback builder never fails; it keeps the style, the
    paragraphs and the tables the document has, and adds two tight, bold,
    centred title paragraphs (14pt and 12pt), a metadata table of three
    rows by four columns with labels and upper-cased values, and a results
    table of five columns with the header row and one row per record
    holding the same texts the template path writes. *)
Theorem fallback_build_appends (doc : docx) (cls_dict : ClsDict.t)
    (rows : list Row.t) (title1 title2 tt : string) :
  exists t rt,
    _fallback_build doc cls_dict rows title1 title2 tt
    = Ok (mk_docx (normal_style doc)
            (body doc ++ [title_paragraph title1 (Pt 14);
                          title_paragraph title2 (Pt 12)])
            (tables doc ++ [t; rt])) /\
    tbl_columns t = 4%nat /\
    table_texts t
    = [ ["Teacher:"; upper (or_empty (ClsDict.teacher cls_dict));
         "Grade:"; upper (py_str_int (ClsDict.grade cls_dict))];
        ["School:"; upper (or_empty (ClsDict.school cls_dict));
         "Section:"; upper (or_empty (ClsDict.section cls_dict))];
        ["Type of Test:"; upper tt;
         "Date:"; upper (or_empty (ClsDict.date_text cls_dict))] ] /\
    tbl_columns rt = 5%nat /\
    length (tbl_rows rt) = S (length rows) /\
    table_texts rt
    = fallback_headers :: imap (fun j rec => row_texts (S j) rec) rows.
Proof.
  exists (fallback_meta_table cls_dict tt), (fallback_results_table rows).
  split; [apply fallback_build_eval |].
  split; [reflexivity |]. split; [reflexivity |]. split; [reflexivity |].
  split; [cbn; now rewrite length_imap |].
  unfold table_texts. cbn [fallback_results_table tbl_rows map].
  f_equal. apply list_eq. intros j.
  rewrite list_lookup_fmap, !list_lookup_imap.
  now destruct (rows !! j).
Qed.

(** X18: the two tables of the fallback layout are recognised by the
    locator, the first as metadata table and the second as results table,
    and a document that holds just them can be populated with any class
    data and any records without failing. *)
Theorem fallback_layout_is_template (cls_dict cls_dict' : ClsDict.t)
    (rows rows' : list Row.t) (tt tt' : string) :
  let built := [fallback_meta_table cls_dict tt; fallback_results_table rows] in
  _looks_like_meta_table (fallback_meta_table cls_dict tt) = true /\
  _looks_like_results_table (fallback_results_table rows) = true /\
  locate_tables built = (Some 0%nat, Some 1%nat, 2%nat) /\
  exists doc', _fill_template_tables built cls_dict' rows' tt' = Ok (doc', true).
Proof.
  cbv zeta.
  assert (Hloc : locate_tables
                   [fallback_meta_table cls_dict tt; fallback_results_table rows]
                 = (Some 0%nat, Some 1%nat, 2%nat)) by reflexivity.
  split; [reflexivity |]. split; [reflexivity |]. split; [exact Hloc |].
  destruct (proj2 (fill_meta_values_succeeds cls_dict' tt' _)
              (fallback_meta_table_fits cls_dict tt)) as [mt' Hfill].
  pose proof (proj2 (rows_fit_iff rows' _) (fallback_results_table_fits rows rows'))
    as Hfit.
  pose proof (locate_tables_eq
                [fallback_meta_table cls_dict tt; fallback_results_table rows])
    as E.
  rewrite Hloc in E. cbv zeta in E.
  apply pair_equal_spec in E as [[Hm Hr]%pair_equal_spec _].
  rewrite <- Hm in Hr.
  eexists. apply fill_template_tables_true.
  exists 0%nat, 1%nat, (fallback_meta_table cls_dict tt), mt',
    (fallback_results_table rows). eexists.
  split; [now symmetry |]. split; [now symmetry |]. split; [discriminate |].
  split; [reflexivity |]. split; [reflexivity |]. split; [exact Hfill |].
  split; [| reflexivity].
  rewrite fill_results_rows_eval, Hfit. reflexivity.
Qed.

(** ** Export builder *)

Lemma build_with_template (doc : docx) (cls_dict : ClsDict.t) (rows : list Row.t)
    (path title1 title2 tt : string) :
  _build_gst_docx_from_template true (Some doc) cls_dict rows path title1 title2 tt
  = match _fill_template_tables (tables doc) cls_dict (_sort_rows rows) tt with
    | Raise e => Crashed e
    | Ok (tbls, true) => Sent (mk_docx default_style (body doc) tbls)
    | Ok (tbls, false) =>
        Sent (mk_docx default_style
                (body doc ++ [title_paragraph title1 (Pt 14);
                              title_paragraph title2 (Pt 12)])
                (tbls ++ [fallback_meta_table cls_dict tt;
                          fallback_results_table (_sort_rows rows)]))
    end.
Proof.
  unfold _build_gst_docx_from_template. cbn [negb]. cbv zeta.
  cbn [_docx_set_defaults tables body normal_style].
  destruct (_fill_template_tables _ _ _ _) as [[tbls []] | e]; try reflexivity.
  now rewrite fallback_build_eval.
Qed.

(** X19: a document is only sent when python-docx is available and the
    template exists; it then carries the default style, and is either the
    template with its two located tables populated with the sorted rows
    and nothing added, or the untouched template followed by the two
    titles and the two tables of the fallback layout for the sorted
    rows. *)
Theorem build_sent_inversion (docx_enabled : bool) (template : option docx)
    (cls_dict : ClsDict.t) (rows : list Row.t)
    (path title1 title2 tt : string) (d : docx) :
  _build_gst_docx_from_template docx_enabled template cls_dict rows
    path title1 title2 tt = Sent d ->
  docx_enabled = true /\
  exists doc,
    template = Some doc /\ normal_style d = default_style /\
    ((_fill_template_tables (tables doc) cls_dict (_sort_rows rows) tt
      = Ok (tables d, true) /\
      body d = body doc /\ length (tables d) = length (tables doc)) \/
     (_fill_template_tables (tables doc) cls_dict (_sort_rows rows) tt
      = Ok (tables doc, false) /\
      body d = (body doc ++ [title_paragraph title1 (Pt 14);
                             title_paragraph title2 (Pt 12)])%list /\
      tables d = (tables doc ++ [fallback_meta_table cls_dict tt;
                                 fallback_results_table (_sort_rows rows)])%list)).
Proof.
  destruct docx_enabled; [| discriminate].
  destruct template as [doc |]; [| discriminate].
  rewrite build_with_template.
  destruct (_fill_template_tables (tables doc) cls_dict (_sort_rows rows) tt)
    as [[tbls b] | e] eqn:Hfill; [| discriminate].
  destruct b; intros [= <-]; (split; [reflexivity |]); exists doc;
    (split; [reflexivity |]); cbn [normal_style body tables].
  - split; [reflexivity |]. left. split; [exact Hfill |]. split; [reflexivity |].
    rewrite fill_template_tables_cases in Hfill. cbv zeta in Hfill.
    destruct (find_from meta_pred 0 (tables doc)) as [a |]; [| discriminate].
    destruct (find_from (results_besides (Some a)) 0 (tables doc)) as [c |];
      [| discriminate].
    apply bind_Ok in Hfill as (doc1 & (? & ? & _ & _ & ->)%with_table_Ok & Hfill).
    apply bind_Ok in Hfill as (doc2 & (? & ? & _ & _ & ->)%with_table_Ok & [= <-]).
    now rewrite !length_insert.
  - split; [reflexivity |]. right.
    assert (tbls = tables doc) as ->;
      [| split; [exact Hfill | split; reflexivity]].
    rewrite fill_template_tables_cases in Hfill. cbv zeta in Hfill.
    destruct (find_from meta_pred 0 (tables doc)) as [a |]; [| now injection Hfill].
    destruct (find_from (results_besides (Some a)) 0 (tables doc)) as [c |];
      [| now injection Hfill].
    destruct (with_table a _ (tables doc)) as [doc1 |]; [| discriminate].
    cbn [bind] in Hfill.
    destruct (with_table c _ doc1) as [doc2 |]; discriminate.
Qed.

Lemma build_sent_inversion_witness :
  true = true /\
  exists doc,
    Some blank_template = Some doc /\ normal_style sample_sent = default_style /\
    ((_fill_template_tables (tables doc) sample_cls (_sort_rows sample_rows)
        "Screening Test Level (English)"
      = Ok (tables sample_sent, true) /\
      body sample_sent = body doc /\
      length (tables sample_sent) = length (tables doc)) \/
     (_fill_template_tables (tables doc) sample_cls (_sort_rows sample_rows)
        "Screening Test Level (English)"
      = Ok (tables doc, false) /\
      body sample_sent
      = (body doc ++ [title_paragraph "ENGLISH GST RESULTS" (Pt 14);
                      title_paragraph "STAGE 2 ADMISSION IN PHIL-IRI" (Pt 12)])%list /\
      tables sample_sent
      = (tables doc ++ [fallback_meta_table sample_cls "Screening Test Level (English)";
                        fallback_results_table (_sort_rows sample_rows)])%list)).
Proof.
  apply (build_sent_inversion true (Some blank_template) sample_cls sample_rows
           "t.docx" "ENGLISH GST RESULTS" "STAGE 2 ADMISSION IN PHIL-IRI"
           "Screening Test Level (English)" sample_sent).
  reflexivity.
Defined.

(** X20: without python-docx, or without a template file, the builder
    aborts with status 500 whatever the rows are; with a template in which
    the locator misses one of the two tables it never fails and sends the
    template followed by the fallback layout, so a template without tables
    gives exactly the two fallback tables, which hold one row per record
    after the header. *)
Theorem build_fallback_path (template : option docx) (cls_dict : ClsDict.t)
    (rows : list Row.t) (path title1 title2 tt : string) :
  _build_gst_docx_from_template false template cls_dict rows path title1 title2 tt
  = Aborted 500 "python-docx is not installed. Run: pip install python-docx" /\
  _build_gst_docx_from_template true None cls_dict rows path title1 title2 tt
  = Aborted 500 ("Word template not found: " ++ path)%string /\
  (forall doc m r n,
     locate_tables (tables doc) = (m, r, n) -> m = None \/ r = None ->
     _build_gst_docx_from_template true (Some doc) cls_dict rows
       path title1 title2 tt
     = Sent (mk_docx default_style
               (body doc ++ [title_paragraph title1 (Pt 14);
                             title_paragraph title2 (Pt 12)])
               (tables doc ++ [fallback_meta_table cls_dict tt;
                               fallback_results_table (_sort_rows rows)]))) /\
  (forall doc d,
     tables doc = [] ->
     _build_gst_docx_from_template true (Some doc) cls_dict rows
       path title1 title2 tt = Sent d ->
     exists t rt, tables d = [t; rt] /\
       length (tbl_rows t) = 3%nat /\
       length (tbl_rows rt) = S (length rows)).
Proof.
  split; [reflexivity |]. split; [reflexivity |].
  assert (Hmiss : forall doc m r n,
            locate_tables (tables doc) = (m, r, n) -> m = None \/ r = None ->
            _fill_template_tables (tables doc) cls_dict (_sort_rows rows) tt
            = Ok (tables doc, false)).
  { intros doc m r n Hloc Hnone. unfold _fill_template_tables. rewrite Hloc.
    destruct Hnone as [-> | ->]; [reflexivity | now destruct m]. }
  split.
  - intros doc m r n Hloc Hnone.
    now rewrite build_with_template, (Hmiss doc m r n Hloc Hnone).
  - intros doc d Hempty.
    rewrite build_with_template, (Hmiss doc None None 0%nat);
      [| now rewrite Hempty | now left].
    intros [= <-]. cbn [tables]. rewrite Hempty. cbn [app].
    eexists _, _. split; [reflexivity |]. split; [reflexivity |].
    cbn [fallback_results_table tbl_rows length]. rewrite length_imap.
    f_equal. unfold _sort_rows. apply Permutation_length, py_sorted_perm.
Qed.

(** X21: when no two rows share a sort key, what the builder does is the
    same for every order in which the rows are handed to it. *)
Theorem build_order_independent (docx_enabled : bool) (template : option docx)
    (cls_dict : ClsDict.t) (rows rows' : list Row.t)
    (path title1 title2 tt : string) :
  NoDup (map sort_key rows) -> Permutation rows rows' ->
  _build_gst_docx_from_template docx_enabled template cls_dict rows
    path title1 title2 tt
  = _build_gst_docx_from_template docx_enabled template cls_dict rows'
      path title1 title2 tt.
Proof.
  intros Hnd Hperm. unfold _build_gst_docx_from_template.
  now rewrite (sort_rows_perm rows rows' Hnd Hperm).
Qed.

Lemma build_order_independent_witness :
  _build_gst_docx_from_template true (Some blank_template) sample_cls
    [maria 3 "Grade 1"; juan 20 "Grade 5"] "t.docx" "A" "B" "C"
  = _build_gst_docx_from_template true (Some blank_template) sample_cls
      [juan 20 "Grade 5"; maria 3 "Grade 1"] "t.docx" "A" "B" "C".
Proof.
  apply build_order_independent.
  - vm_compute. repeat constructor; rewrite ?elem_of_cons, ?elem_of_nil;
      intros H; repeat destruct H as [H | H]; try discriminate H; exact H.
  - apply perm_swap.
Defined.
